(** * ascii-cam: glyph quantizer, hand-gesture classifier, gesture debouncer

    A shallow embedding of the scripts of the repository.

    - Pixel values are numpy [uint8] scalars, carried as [Z] in [0, 255].
    - Every Python [float] the scripts compute with (brightness, landmark
      coordinates, the quotient inside [pixel_to_ascii]) is an IEEE binary64
      value, carried as a primitive [float]; comparisons are the IEEE ones,
      so a NaN makes every comparison false, as in Python.
    - Time stamps returned by [time.time()] are inputs of the main loops.
      They are carried as rationals and [current_time - last_gesture_time]
      is the exact difference.
    - Python exceptions are the constructors of [Py.result]. *)

From Stdlib Require Import ZArith QArith Floats List String Ascii Bool Lia Lqa Sorted.
Import ListNotations.

Set Warnings "-inexact-float".

(** ** Python primitives used by the scripts *)

Module Py.

Inductive exn : Type :=
| IndexError      (* sequence index out of range *)
| ValueError      (* int(nan) *)
| OverflowError.  (* int(inf) *)

Inductive result (A : Type) : Type :=
| Ok (a : A)
| Raise (e : exn).
Arguments Ok {A} a.
Arguments Raise {A} e.

Definition bind {A B : Type} (r : result A) (k : A -> result B) : result B :=
  match r with
  | Ok a => k a
  | Raise e => Raise e
  end.

Definition is_ok {A : Type} (r : result A) : bool :=
  match r with Ok _ => true | Raise _ => false end.

(** [seq[i]] on a list: a negative index counts from the end, anything
    outside [-len, len) raises [IndexError]. *)
Definition getitem {A : Type} (l : list A) (i : Z) : result A :=
  let n := Z.of_nat (List.length l) in
  let j := if (i <? 0)%Z then (i + n)%Z else i in
  if (j <? 0)%Z then Raise IndexError
  else match nth_error l (Z.to_nat j) with
       | Some a => Ok a
       | None => Raise IndexError
       end.

(** [s[i]] on a [str]. *)
Definition str_getitem (s : string) (i : Z) : result ascii :=
  getitem (list_ascii_of_string s) i.

(** [l[-n:]]: the last [n] entries (all of [l] when it is shorter). *)
Definition last_n {A : Type} (n : nat) (l : list A) : list A :=
  skipn (List.length l - n) l.

(** [l.append(a)] followed by [if len(l) > size: l.pop(0)]. *)
Definition append_bounded {A : Type} (size : nat) (l : list A) (a : A) : list A :=
  let l' := l ++ [a] in
  if (size <? List.length l')%nat then tl l' else l'.

(** [int(f)] on a float: truncation toward zero. *)
Definition int_of_float (f : float) : result Z :=
  match Prim2SF f with
  | S754_zero _ => Ok 0%Z
  | S754_finite s m e =>
      let a := Z.shiftl (Z.pos m) e in
      Ok (if s then (- a)%Z else a)
  | S754_infinity _ => Raise OverflowError
  | S754_nan => Raise ValueError
  end.

(** A small non-negative integer as a float (exact below 2^53). *)
Definition float_of_int (n : Z) : float := of_uint63 (Uint63.of_Z n).

(** The builtins [min(a, b)] and [max(a, b)]: the first argument is kept
    unless the second compares strictly below (above) it. *)
Definition min (a b : float) : float := if (b <? a)%float then b else a.
Definition max (a b : float) : float := if (a <? b)%float then b else a.

(** [a > b] on rationals. *)
Definition Qgtb (a b : Q) : bool := negb (Qle_bool a b).

Definition result_Z_eqb (r1 r2 : result Z) : bool :=
  match r1, r2 with
  | Ok a, Ok b => (a =? b)%Z
  | _, _ => false
  end.

End Py.

Import Py.

Declare Scope py_scope.
Delimit Scope py_scope with py.
Notation "x <- r ;; k" := (Py.bind r (fun x => k))
  (at level 61, r at next level, right associativity) : py_scope.
Open Scope py_scope.

(** ** The glyph quantizers *)

(** [DualWindowASCII.pixel_to_ascii] of dual_window_ascii.py; the same body is
    [pixel_to_ascii] of simple_realtime_ascii.py, simple_ascii_converter.py
    and test_brightness.py. *)
Module PixelToAscii.

(** ASCII characters from darkest to lightest. *)
Definition ascii_chars : string := "@%#*+=-:. ".

Definition len (s : string) : Z := Z.of_nat (String.length s).

(** [int(pixel_value / 255 * (len(self.ascii_chars) - 1))] *)
Definition ascii_index (pixel_value : Z) : result Z :=
  int_of_float
    (float_of_int pixel_value / 255 * float_of_int (len ascii_chars - 1))%float.

Definition pixel_to_ascii (pixel_value : Z) : result ascii :=
  ascii_index <- ascii_index pixel_value ;;
  str_getitem ascii_chars ascii_index.

End PixelToAscii.

(** [ASCIIVideoProcessor] of realtime_ascii.py: the per-pixel expression of
    [convert_to_ascii], [self.character_set[pixel_value // 22]]. *)
Module ASCIIVideoProcessor.

(** ASCII character set from dark to light. *)
Definition character_set : list ascii :=
  ["@"; "#"; "$"; "%"; "?"; "*"; "+"; ";"; ":"; ","; "."; " "]%char.

(** [pixel_value // 22] on Python ints. *)
Definition char_index (pixel_value : Z) : Z := (pixel_value / 22)%Z.

Definition pixel_char (charset : list ascii) (pixel_value : Z) : result ascii :=
  getitem charset (char_index pixel_value).

(** Line 45 of [convert_to_ascii]: [pixel_data], one character per pixel of
    [processed_img.getdata()], joined (the string is then cut into rows of
    [frame_width] characters). *)
Fixpoint pixel_data (charset : list ascii) (data : list Z) : result string :=
  match data with
  | [] => Ok EmptyString
  | pixel_value :: rest =>
      c <- pixel_char charset pixel_value ;;
      s <- pixel_data charset rest ;;
      Ok (String c s)
  end.

(** The theme toggle reverses the set: [character_set[::-1]]. *)
Definition dark_character_set : list ascii := rev character_set.

End ASCIIVideoProcessor.

(** The quantizer as section 4.3 of the specification words it:
    index [floor(pixel / 256 * M)] clamped to [0, M-1]. *)
Module SpecQuantizer.

Definition clamp (lo hi v : Z) : Z := Z.max lo (Z.min hi v).

Definition ramp_index (M pixel : Z) : Z :=
  clamp 0 (M - 1) (pixel * M / 256).

Definition quantize (ramp : string) (pixel : Z) : result ascii :=
  str_getitem ramp (ramp_index (PixelToAscii.len ramp) pixel).

End SpecQuantizer.

(** ** Hands and landmarks *)

(** A landmark of the MediaPipe provider: normalized coordinates, [y] growing
    downward. The scripts read [.y] only. *)
Record Landmark : Type := mkLandmark { x : float; y : float }.

(** [hand_landmarks.landmark]: the provider delivers 21 landmarks, indexed
    by anatomical position. *)
Definition Hand : Type := list Landmark.

(** [a > b] on floats. *)
Definition fgt (a b : float) : bool := (b <? a)%float.
Definition flt (a b : float) : bool := (a <? b)%float.

(** The eleven coordinates every classifier reads, in the order in which
    [detect_gestures] and [analyze_hand] read them: [landmarks[4]], [3], [2],
    [8], [6], [12], [10], [16], [14], [20], [18]. [T] is [float] for the
    normalized [.y] of the provider and [Z] for the pixel rows of
    debug_gestures.py. *)
Record FingerYs (T : Type) : Type := mkFingerYs {
  thumb_tip_y : T;  thumb_ip_y : T;  thumb_mcp_y : T;
  index_tip_y : T;  index_pip_y : T;
  middle_tip_y : T; middle_pip_y : T;
  ring_tip_y : T;   ring_pip_y : T;
  pinky_tip_y : T;  pinky_pip_y : T
}.
Arguments mkFingerYs {T}.
Arguments thumb_tip_y {T} f.
Arguments thumb_ip_y {T} f.
Arguments thumb_mcp_y {T} f.
Arguments index_tip_y {T} f.
Arguments index_pip_y {T} f.
Arguments middle_tip_y {T} f.
Arguments middle_pip_y {T} f.
Arguments ring_tip_y {T} f.
Arguments ring_pip_y {T} f.
Arguments pinky_tip_y {T} f.
Arguments pinky_pip_y {T} f.

(** The eleven subscripts; the first one out of range raises [IndexError]. *)
Definition read_landmarks {L T : Type} (coord : L -> T) (landmarks : list L)
  : result (FingerYs T) :=
  l4 <- getitem landmarks 4 ;;
  l3 <- getitem landmarks 3 ;;
  l2 <- getitem landmarks 2 ;;
  l8 <- getitem landmarks 8 ;;
  l6 <- getitem landmarks 6 ;;
  l12 <- getitem landmarks 12 ;;
  l10 <- getitem landmarks 10 ;;
  l16 <- getitem landmarks 16 ;;
  l14 <- getitem landmarks 14 ;;
  l20 <- getitem landmarks 20 ;;
  l18 <- getitem landmarks 18 ;;
  Ok (mkFingerYs (coord l4) (coord l3) (coord l2) (coord l8) (coord l6)
                 (coord l12) (coord l10) (coord l16) (coord l14)
                 (coord l20) (coord l18)).

(** A gesture event of a main loop: the time stamp of the iteration that
    applied it and its label. *)
Record Event (G : Type) : Type := mkEvent { ev_time : Q; ev_gesture : G }.
Arguments mkEvent {G} ev_time ev_gesture.
Arguments ev_time {G} e.
Arguments ev_gesture {G} e.

(** ** The main loops, in general

    Every script runs [while True:] over the frames the camera delivers and
    stops at the end of the stream; an uncaught exception ends the run. One
    iteration is a [step]; the run collects the events of the iterations. *)
Module Loop.
Section Run.
Context {State Frame G : Type}.
Variable step : State -> Frame -> result (State * list (Event G)).

(** Events of the run, and the final state unless the run raised. *)
Fixpoint run (st : State) (frames : list Frame)
  : list (Event G) * result State :=
  match frames with
  | [] => ([], Ok st)
  | f :: rest =>
      match step st f with
      | Ok (st', evs) =>
          let '(evs', r) := run st' rest in (evs ++ evs', r)
      | Raise e => ([], Raise e)
      end
  end.
End Run.
End Loop.

(** ** dual_window_ascii.py *)
Module DualWindowASCII.

(** The labels [detect_gestures] assigns to [current_gesture]. *)
Inductive gesture : Type :=
| brightness_up | brightness_down | toggle_hands | reset.

Definition gesture_eqb (a b : gesture) : bool :=
  match a, b with
  | brightness_up, brightness_up | brightness_down, brightness_down
  | toggle_hands, toggle_hands | reset, reset => true
  | _, _ => false
  end.

(** [g == h] on values that are a label or [None]. *)
Definition opt_eqb (a b : option gesture) : bool :=
  match a, b with
  | Some g, Some h => gesture_eqb g h
  | None, None => true
  | _, _ => false
  end.

Definition is_not_None (a : option gesture) : bool :=
  match a with Some _ => true | None => false end.

(** The body of the loop over [results.multi_hand_landmarks] (lines
    92-141): four independent [if] statements, each of which overwrites
    [current_gesture] when its condition holds. *)
Definition classify_hand (current_gesture : option gesture) (landmarks : Hand)
  : result (option gesture) :=
  f <- read_landmarks y landmarks ;;
  let thumb_extended_up :=
    flt (thumb_tip_y f) (thumb_ip_y f) && flt (thumb_tip_y f) (thumb_mcp_y f) in
  let other_fingers_down :=
    fgt (index_tip_y f) (index_pip_y f) && fgt (middle_tip_y f) (middle_pip_y f)
    && fgt (ring_tip_y f) (ring_pip_y f) && fgt (pinky_tip_y f) (pinky_pip_y f) in
  let current_gesture :=
    if thumb_extended_up && other_fingers_down
    then Some brightness_up else current_gesture in
  let thumb_extended_down :=
    fgt (thumb_tip_y f) (thumb_ip_y f) && fgt (thumb_tip_y f) (thumb_mcp_y f) in
  let current_gesture :=
    if thumb_extended_down && other_fingers_down
    then Some brightness_down else current_gesture in
  let peace_fingers :=
    flt (index_tip_y f) (index_pip_y f) && flt (middle_tip_y f) (middle_pip_y f)
    && fgt (ring_tip_y f) (ring_pip_y f) && fgt (pinky_tip_y f) (pinky_pip_y f) in
  let current_gesture :=
    if peace_fingers then Some toggle_hands else current_gesture in
  let all_fingers_down :=
    fgt (thumb_tip_y f) (thumb_ip_y f)
    && fgt (index_tip_y f) (index_pip_y f) && fgt (middle_tip_y f) (middle_pip_y f)
    && fgt (ring_tip_y f) (ring_pip_y f) && fgt (pinky_tip_y f) (pinky_pip_y f) in
  let current_gesture :=
    if all_fingers_down then Some reset else current_gesture in
  Ok current_gesture.

(** Lines 88-141: [current_gesture = None], then the loop over the hands
    (nothing when [multi_hand_landmarks] is [None] or empty). *)
Fixpoint classify_from (current_gesture : option gesture) (hands : list Hand)
  : result (option gesture) :=
  match hands with
  | [] => Ok current_gesture
  | hand_landmarks :: rest =>
      current_gesture <- classify_hand current_gesture hand_landmarks ;;
      classify_from current_gesture rest
  end.

Definition classify (multi_hand_landmarks : list Hand) : result (option gesture) :=
  classify_from None multi_hand_landmarks.

Definition buffer_size : nat := 3.

(** Lines 143-154: the smoothing buffer. Returns the buffer after the
    call and the value returned. *)
Definition smooth (gesture_buffer : list (option gesture))
           (current_gesture : option gesture)
  : list (option gesture) * option gesture :=
  let gesture_buffer := append_bounded buffer_size gesture_buffer current_gesture in
  if (2 <=? List.length gesture_buffer)%nat then
    let recent_gestures := last_n 2 gesture_buffer in
    let first := hd None recent_gestures in
    if forallb (fun g => opt_eqb g first && is_not_None g) recent_gestures
    then (gesture_buffer, first)
    else (gesture_buffer, None)
  else (gesture_buffer, None).

Definition detect_gestures (gesture_buffer : list (option gesture))
           (multi_hand_landmarks : list Hand)
  : result (list (option gesture) * option gesture) :=
  current_gesture <- classify multi_hand_landmarks ;;
  Ok (smooth gesture_buffer current_gesture).

(** The fields of [self] and the locals of [run] the gesture control
    reads and writes. The status string [last_gesture] is display only. *)
Record State : Type := mkState {
  gesture_buffer : list (option gesture);
  brightness : float;
  contrast : float;
  show_hands : bool;
  last_gesture_time : Q
}.

(** [__init__], and [last_gesture_time = 0] of [run]. *)
Definition init : State := mkState [] 1.0 1.0 true 0.

Definition gesture_cooldown : Q := 5 # 10.

(** Lines 237-253: the effect of a confirmed gesture on the settings. *)
Definition apply_gesture (st : State) (g : gesture) : State :=
  match g with
  | brightness_up =>
      mkState (gesture_buffer st) (Py.min 2.0 (brightness st + 0.2)) (contrast st)
              (show_hands st) (last_gesture_time st)
  | brightness_down =>
      mkState (gesture_buffer st) (Py.max 0.2 (brightness st - 0.2)) (contrast st)
              (show_hands st) (last_gesture_time st)
  | toggle_hands =>
      mkState (gesture_buffer st) (brightness st) (contrast st)
              (negb (show_hands st)) (last_gesture_time st)
  | reset =>
      mkState (gesture_buffer st) 1.0 1.0 (show_hands st) (last_gesture_time st)
  end.

Definition Frame : Type := Q * list Hand.

(** Lines 230-253, one iteration: the frame's time stamp and the hands
    found in it. *)
Definition run_step (st : State) (frame : Frame)
  : result (State * list (Event gesture)) :=
  let '(current_time, multi_hand_landmarks) := frame in
  if Qgtb (current_time - last_gesture_time st) gesture_cooldown then
    r <- detect_gestures (gesture_buffer st) multi_hand_landmarks ;;
    let '(buf, gesture) := r in
    let st := mkState buf (brightness st) (contrast st) (show_hands st)
                      (last_gesture_time st) in
    match gesture with
    | Some g =>
        let st := mkState (gesture_buffer st) (brightness st) (contrast st)
                          (show_hands st) current_time in
        Ok (apply_gesture st g, [mkEvent current_time g])
    | None => Ok (st, [])
    end
  else Ok (st, []).

Definition run : State -> list Frame -> list (Event gesture) * result State :=
  Loop.run run_step.

End DualWindowASCII.

(** ** quick_gesture_test.py *)
Module QuickGestureTest.

Inductive gesture : Type := thumbs_up | thumbs_down.

Definition opt_eqb (a b : option gesture) : bool :=
  match a, b with
  | Some thumbs_up, Some thumbs_up | Some thumbs_down, Some thumbs_down => true
  | None, None => true
  | _, _ => false
  end.

Definition is_not_None (a : option gesture) : bool :=
  match a with Some _ => true | None => false end.

(** [detect_gesture]: an [if]/[elif] chain with early returns. *)
Definition detect_gesture (landmarks : Hand) : result (option gesture) :=
  match landmarks with
  | [] => Ok None                       (* [if not landmarks: return None] *)
  | _ =>
      f <- read_landmarks y landmarks ;;
      let thumb_up :=
        flt (thumb_tip_y f) (thumb_ip_y f) && flt (thumb_tip_y f) (thumb_mcp_y f) in
      let thumb_down :=
        fgt (thumb_tip_y f) (thumb_ip_y f) && fgt (thumb_tip_y f) (thumb_mcp_y f) in
      let other_fingers_down :=
        fgt (index_tip_y f) (index_pip_y f) && fgt (middle_tip_y f) (middle_pip_y f)
        && fgt (ring_tip_y f) (ring_pip_y f) && fgt (pinky_tip_y f) (pinky_pip_y f) in
      if thumb_up && other_fingers_down then Ok (Some thumbs_up)
      else if thumb_down && other_fingers_down then Ok (Some thumbs_down)
      else Ok None
  end.

(** Lines 84-94: [current_gesture] is reassigned for every hand. *)
Fixpoint classify_from (current_gesture : option gesture) (hands : list Hand)
  : result (option gesture) :=
  match hands with
  | [] => Ok current_gesture
  | hand_landmarks :: rest =>
      current_gesture <- detect_gesture hand_landmarks ;;
      classify_from current_gesture rest
  end.

Definition classify (multi_hand_landmarks : list Hand) : result (option gesture) :=
  classify_from None multi_hand_landmarks.

Definition buffer_size : nat := 5.

(** Lines 96-106: buffer update and [stable_gesture]. *)
Definition smooth (gesture_buffer : list (option gesture))
           (current_gesture : option gesture)
  : list (option gesture) * option gesture :=
  let gesture_buffer := append_bounded buffer_size gesture_buffer current_gesture in
  if (3 <=? List.length gesture_buffer)%nat then
    let recent := last_n 3 gesture_buffer in
    let first := hd None recent in
    if forallb (fun g => opt_eqb g first && is_not_None g) recent
    then (gesture_buffer, first)
    else (gesture_buffer, None)
  else (gesture_buffer, None).

Record State : Type := mkState {
  gesture_buffer : list (option gesture);
  brightness : float;
  last_gesture_time : Q
}.

Definition init : State := mkState [] 1.0 0.

(** Lines 110-117. *)
Definition apply_gesture (st : State) (g : gesture) : State :=
  match g with
  | thumbs_up =>
      mkState (gesture_buffer st) (Py.min 2.0 (brightness st + 0.2))
              (last_gesture_time st)
  | thumbs_down =>
      mkState (gesture_buffer st) (Py.max 0.2 (brightness st - 0.2))
              (last_gesture_time st)
  end.

Definition Frame : Type := Q * list Hand.

(** Lines 84-117, one iteration. The buffer is updated on every frame;
    the cooldown guards the application of the stable gesture only. *)
Definition run_step (st : State) (frame : Frame)
  : result (State * list (Event gesture)) :=
  let '(current_time, multi_hand_landmarks) := frame in
  current_gesture <- classify multi_hand_landmarks ;;
  let '(buf, stable_gesture) := smooth (gesture_buffer st) current_gesture in
  let st := mkState buf (brightness st) (last_gesture_time st) in
  match stable_gesture with
  | Some g =>
      if Qgtb (current_time - last_gesture_time st) 1 then
        let st := apply_gesture st g in
        Ok (mkState (gesture_buffer st) (brightness st) current_time,
            [mkEvent current_time g])
      else Ok (st, [])
  | None => Ok (st, [])
  end.

Definition run : State -> list Frame -> list (Event gesture) * result State :=
  Loop.run run_step.

End QuickGestureTest.

(** ** gesture_only.py *)
Module SimpleGestureControl.

Inductive gesture : Type := thumb_up | thumb_down.

Definition is_thumb_up (landmarks : Hand) : result bool :=
  l4 <- getitem landmarks 4 ;;
  l3 <- getitem landmarks 3 ;;
  l0 <- getitem landmarks 0 ;;
  l8 <- getitem landmarks 8 ;;
  l6 <- getitem landmarks 6 ;;
  Ok (flt (y l4) (y l3) && flt (y l4) (y l0) && fgt (y l8) (y l6)).

Definition is_thumb_down (landmarks : Hand) : result bool :=
  l4 <- getitem landmarks 4 ;;
  l3 <- getitem landmarks 3 ;;
  l0 <- getitem landmarks 0 ;;
  l8 <- getitem landmarks 8 ;;
  l6 <- getitem landmarks 6 ;;
  Ok (fgt (y l4) (y l3) && fgt (y l4) (y l0) && fgt (y l8) (y l6)).

Record State : Type := mkState {
  brightness : float;
  last_gesture_time : Q
}.

Definition init : State := mkState 1.0 0.

(** Lines 78-90: the body of the loop over the hands of a frame. *)
Definition hand_step (current_time : Q) (st : State) (landmarks : Hand)
  : result (State * list (Event gesture)) :=
  if Qgtb (current_time - last_gesture_time st) 1 then
    up <- is_thumb_up landmarks ;;
    if (up : bool) then
      Ok (mkState (Py.min 2.0 (brightness st + 0.2)) current_time,
          [mkEvent current_time thumb_up])
    else
      down <- is_thumb_down landmarks ;;
      if (down : bool) then
        Ok (mkState (Py.max 0.2 (brightness st - 0.2)) current_time,
            [mkEvent current_time thumb_down])
      else Ok (st, [])
  else Ok (st, []).

Fixpoint hands_loop (current_time : Q) (st : State) (hands : list Hand)
  : result (State * list (Event gesture)) :=
  match hands with
  | [] => Ok (st, [])
  | hand_landmarks :: rest =>
      r <- hand_step current_time st hand_landmarks ;;
      let '(st, evs) := r in
      r' <- hands_loop current_time st rest ;;
      let '(st, evs') := r' in
      Ok (st, evs ++ evs')
  end.

Definition Frame : Type := Q * list Hand.

Definition run_step (st : State) (frame : Frame)
  : result (State * list (Event gesture)) :=
  let '(current_time, multi_hand_landmarks) := frame in
  hands_loop current_time st multi_hand_landmarks.

Definition run : State -> list Frame -> list (Event gesture) * result State :=
  Loop.run run_step.

End SimpleGestureControl.

(** ** debug_gestures.py *)
Module GestureDebugger.

(** [run] hands [analyze_hand] pixel positions, [[cx, cy]] with
    [cx, cy = int(lm.x * w), int(lm.y * h)]: Python ints. *)
Definition PixelHand : Type := list (Z * Z).

Record finger_states : Type := mkStates {
  thumb_up : bool; thumb_down : bool;
  index_up : bool; middle_up : bool; ring_up : bool; pinky_up : bool;
  thumb_above_mcp : bool; thumb_below_mcp : bool
}.

(** [analyze_hand]: the eleven landmarks, then the eight comparisons on
    their second component ([thumb_tip[1]] and so on). *)
Definition analyze_hand (landmarks : PixelHand) : result finger_states :=
  f <- read_landmarks snd landmarks ;;
  Ok {| thumb_up := (thumb_tip_y f <? thumb_ip_y f)%Z;
        thumb_down := (thumb_tip_y f >? thumb_ip_y f)%Z;
        index_up := (index_tip_y f <? index_pip_y f)%Z;
        middle_up := (middle_tip_y f <? middle_pip_y f)%Z;
        ring_up := (ring_tip_y f <? ring_pip_y f)%Z;
        pinky_up := (pinky_tip_y f <? pinky_pip_y f)%Z;
        thumb_above_mcp := (thumb_tip_y f <? thumb_mcp_y f)%Z;
        thumb_below_mcp := (thumb_tip_y f >? thumb_mcp_y f)%Z |}.

(** The strings [detect_gesture] returns. *)
Inductive label : Type :=
| NoHandDetected | THUMBS_UP | THUMBS_DOWN | PEACE_SIGN | FIST | UnknownGesture.

(** [detect_gesture]: a chain of [if ...: return ...]; the first rule that
    matches returns. [None] stands for the caller's [finger_states = None]. *)
Definition detect_gesture (finger_states : option finger_states) : label :=
  match finger_states with
  | None => NoHandDetected
  | Some fs =>
      if thumb_up fs && thumb_above_mcp fs
         && negb (index_up fs) && negb (middle_up fs)
         && negb (ring_up fs) && negb (pinky_up fs)
      then THUMBS_UP
      else if thumb_down fs && thumb_below_mcp fs
              && negb (index_up fs) && negb (middle_up fs)
              && negb (ring_up fs) && negb (pinky_up fs)
      then THUMBS_DOWN
      else if index_up fs && middle_up fs
              && negb (ring_up fs) && negb (pinky_up fs)
      then PEACE_SIGN
      else if negb (thumb_up fs) && negb (index_up fs)
              && negb (middle_up fs) && negb (ring_up fs)
              && negb (pinky_up fs)
      then FIST
      else UnknownGesture
  end.

(** Lines 105-122 of [run]: the label shown for a frame with one hand. *)
Definition classify (landmarks : PixelHand) : result label :=
  fs <- analyze_hand landmarks ;;
  Ok (detect_gesture (Some fs)).

End GestureDebugger.

(** ** realtime_ascii.py: the brightness keys of [main] *)
Module RealtimeKeys.

Inductive key : Type :=
| KeyPlus    (* [+] or [=] *)
| KeyMinus   (* [-] *)
| KeyR.      (* [r] *)

(** Lines 207-221, the effect on [processor.brightness_level]. *)
Definition press (brightness_level : float) (k : key) : float :=
  match k with
  | KeyPlus => Py.min 2.0 (brightness_level + 0.1)
  | KeyMinus => Py.max 0.3 (brightness_level - 0.1)
  | KeyR => 1.0
  end.

Definition init : float := 1.0.

End RealtimeKeys.

(** ** Vocabulary of the statements *)

(** The pose of C7, on coordinates compared by [lt]: thumb tip above the
    IP joint, the IP joint above the MCP joint, and each of the four other
    finger tips below its PIP joint ([y] grows downward). *)
Definition ThumbUpPose {T : Type} (lt : T -> T -> bool) (f : FingerYs T) : Prop :=
  lt (thumb_tip_y f) (thumb_ip_y f) = true
  /\ lt (thumb_ip_y f) (thumb_mcp_y f) = true
  /\ lt (index_pip_y f) (index_tip_y f) = true
  /\ lt (middle_pip_y f) (middle_tip_y f) = true
  /\ lt (ring_pip_y f) (ring_tip_y f) = true
  /\ lt (pinky_pip_y f) (pinky_tip_y f) = true.

(** The pose of C2: thumb tip below both the IP and the MCP joint, and none
    of the four other fingers extended up (no tip above its PIP joint). *)
Definition ThumbDownPose {T : Type} (lt : T -> T -> bool) (f : FingerYs T) : Prop :=
  lt (thumb_ip_y f) (thumb_tip_y f) = true
  /\ lt (thumb_mcp_y f) (thumb_tip_y f) = true
  /\ lt (index_tip_y f) (index_pip_y f) = false
  /\ lt (middle_tip_y f) (middle_pip_y f) = false
  /\ lt (ring_tip_y f) (ring_pip_y f) = false
  /\ lt (pinky_tip_y f) (pinky_pip_y f) = false.

(** The same with the four fingers curled: each tip strictly below its PIP
    joint, which is how dual_window_ascii.py and quick_gesture_test.py test
    [other_fingers_down]. *)
Definition ThumbDownCurledPose {T : Type} (lt : T -> T -> bool) (f : FingerYs T) : Prop :=
  lt (thumb_ip_y f) (thumb_tip_y f) = true
  /\ lt (thumb_mcp_y f) (thumb_tip_y f) = true
  /\ lt (index_pip_y f) (index_tip_y f) = true
  /\ lt (middle_pip_y f) (middle_tip_y f) = true
  /\ lt (ring_pip_y f) (ring_tip_y f) = true
  /\ lt (pinky_pip_y f) (pinky_tip_y f) = true.

(** The 256 values of a [uint8] pixel. *)
Definition pixels : list Z := map Z.of_nat (seq 0 256).

(** [lo <= b <= hi] on floats (false on a NaN). *)
Definition in_range (lo hi b : float) : bool := ((lo <=? b) && (b <=? hi))%float.

(** [Chain D a ts b]: starting with [last_gesture_time = a], the time stamps
    [ts] are each more than [D] after the one before ([a] for the first),
    and [b] is the last of them ([a] when there is none). *)
Inductive Chain (D : Q) : Q -> list Q -> Q -> Prop :=
| Chain_nil : forall a, Chain D a [] a
| Chain_cons : forall a t ts b,
    a + D < t -> Chain D t ts b -> Chain D a (t :: ts) b.

(** In a chronological list of events, every event is more than [D] after
    every earlier one. *)
Definition Spaced {G : Type} (D : Q) (evs : list (Event G)) : Prop :=
  StronglySorted (fun e1 e2 => D < ev_time e2 - ev_time e1) evs.

(** ** Brightness values the scripts can reach

    The brightness is a binary64 value that starts at 1.0 and only ever
    changes by the clamped steps below, so the values it can take form a
    finite set, computed here by saturation. *)
Module Reach.

(** Same binary64 datum (distinguishes the two zeros, identifies NaNs). *)
Definition same (a b : float) : bool :=
  match Prim2SF a, Prim2SF b with
  | S754_zero s, S754_zero t => Bool.eqb s t
  | S754_infinity s, S754_infinity t => Bool.eqb s t
  | S754_nan, S754_nan => true
  | S754_finite s m e, S754_finite t n f =>
      Bool.eqb s t && (m =? n)%positive && (e =? f)%Z
  | _, _ => false
  end.

Definition mem (a : float) (l : list float) : bool := existsb (same a) l.

Definition add_new (seen : list float) (a : float) : list float :=
  if mem a seen then seen else seen ++ [a].

(** Worklist saturation of [seen] under [next]. *)
Fixpoint saturate (next : float -> list float) (fuel : nat)
         (todo seen : list float) : list float :=
  match fuel, todo with
  | S fuel, b :: todo =>
      let seen' := fold_left add_new (next b) seen in
      saturate next fuel (todo ++ skipn (List.length seen) seen') seen'
  | _, _ => seen
  end.

(** dual_window_ascii.py: what one gesture makes of brightness [b]. *)
Definition next_gesture (b : float) : list float :=
  map (fun g => DualWindowASCII.brightness
                  (DualWindowASCII.apply_gesture
                     (DualWindowASCII.mkState [] b 1.0 true 0) g))
      [DualWindowASCII.brightness_up; DualWindowASCII.brightness_down;
       DualWindowASCII.toggle_hands; DualWindowASCII.reset].

(** realtime_ascii.py: what one key makes of brightness level [b]. *)
Definition next_key (b : float) : list float :=
  map (RealtimeKeys.press b)
      [RealtimeKeys.KeyPlus; RealtimeKeys.KeyMinus; RealtimeKeys.KeyR].

End Reach.

(** The 22 brightness values reachable from 1.0 by the gesture steps
    [min(2.0, b + 0.2)], [max(0.2, b - 0.2)] and the reset. *)
Definition reachable_brightness : list float :=
  Eval vm_compute in Reach.saturate Reach.next_gesture 200 [1.0%float] [1.0%float].

(** The 52 brightness levels reachable from 1.0 by the key steps
    [min(2.0, b + 0.1)], [max(0.3, b - 0.1)] and the reset. *)
Definition reachable_brightness_level : list float :=
  Eval vm_compute in Reach.saturate Reach.next_key 400 [1.0%float] [1.0%float].

(** ** Sample inputs *)
Module Sample.

Definition at_y (v : float) : Landmark := mkLandmark 0.5 v.

(** Thumb tip, IP, MCP; then tip and PIP of index, middle, ring, pinky. *)
Definition ys (thumb_tip thumb_ip thumb_mcp index_tip index_pip
               middle_tip middle_pip ring_tip ring_pip
               pinky_tip pinky_pip : float) : FingerYs float :=
  mkFingerYs thumb_tip thumb_ip thumb_mcp index_tip index_pip
             middle_tip middle_pip ring_tip ring_pip pinky_tip pinky_pip.

(** A hand of 21 landmarks with the given [y] coordinates at the indices
    the classifiers read, and [wrist_y] at index 0. *)
Definition hand_of (wrist_y : float) (f : FingerYs float) : Hand :=
  [ at_y wrist_y;         at_y 0.5;  at_y (thumb_mcp_y f);
    at_y (thumb_ip_y f);  at_y (thumb_tip_y f);
    at_y 0.5;  at_y (index_pip_y f);  at_y 0.5;  at_y (index_tip_y f);
    at_y 0.5;  at_y (middle_pip_y f); at_y 0.5;  at_y (middle_tip_y f);
    at_y 0.5;  at_y (ring_pip_y f);   at_y 0.5;  at_y (ring_tip_y f);
    at_y 0.5;  at_y (pinky_pip_y f);  at_y 0.5;  at_y (pinky_tip_y f) ].

(** Thumb pointing up, the four fingers curled. *)
Definition thumbs_up_hand : Hand :=
  hand_of 0.8 (ys 0.3 0.4 0.5  0.6 0.5  0.6 0.5  0.6 0.5  0.6 0.5).

(** Thumb pointing down, the four fingers curled. *)
Definition thumbs_down_hand : Hand :=
  hand_of 0.2 (ys 0.9 0.8 0.7  0.6 0.5  0.6 0.5  0.6 0.5  0.6 0.5).



(** A hand the provider cut short: only the first ten landmarks. *)
Definition short_hand : Hand := firstn 10 thumbs_up_hand.

Definition at_cy (cy : Z) : Z * Z := (320%Z, cy).

(** Pixel positions [[cx, cy]] of a hand for debug_gestures.py, from the
    [cy] values. *)
Definition pixel_hand_of (thumb_tip thumb_ip thumb_mcp index_tip index_pip
                          middle_tip middle_pip ring_tip ring_pip
                          pinky_tip pinky_pip : Z) : GestureDebugger.PixelHand :=
  [ at_cy 400; at_cy 240; at_cy thumb_mcp; at_cy thumb_ip; at_cy thumb_tip;
    at_cy 240; at_cy index_pip;  at_cy 240; at_cy index_tip;
    at_cy 240; at_cy middle_pip; at_cy 240; at_cy middle_tip;
    at_cy 240; at_cy ring_pip;   at_cy 240; at_cy ring_tip;
    at_cy 240; at_cy pinky_pip;  at_cy 240; at_cy pinky_tip ].

Definition pixel_thumbs_up : GestureDebugger.PixelHand :=
  pixel_hand_of 140 190 240  290 240  290 240  290 240  290 240.

Definition pixel_thumbs_down : GestureDebugger.PixelHand :=
  pixel_hand_of 430 380 330  290 240  290 240  290 240  290 240.

(** Frames of dual_window_ascii.py, a tenth of a second apart: no hand,
    then the thumbs-up hand twice. *)
Definition none_up_up : list DualWindowASCII.Frame :=
  [ (1700000000, []); (1700000000.1, [thumbs_up_hand]); (1700000000.2, [thumbs_up_hand]) ].

(** The thumbs-up hand held over frames a tenth of a second apart. *)
Definition up_up : list DualWindowASCII.Frame :=
  [ (1700000000, [thumbs_up_hand]); (1700000000.1, [thumbs_up_hand]) ].

Definition up_up_up : list QuickGestureTest.Frame :=
  [ (1700000000, [thumbs_up_hand]); (1700000000.1, [thumbs_up_hand]);
    (1700000000.2, [thumbs_up_hand]) ].

(** The thumbs-up hand held for two seconds, a frame every half second. *)
Definition held_up : list DualWindowASCII.Frame :=
  [ (1700000000, [thumbs_up_hand]); (1700000000.5, [thumbs_up_hand]);
    (1700000001, [thumbs_up_hand]); (1700000001.5, [thumbs_up_hand]);
    (1700000002, [thumbs_up_hand]) ].

End Sample.

(** ** More Python and numpy primitives *)
Module PySeq.

(** A list comprehension [[f(a) for a in l]]: the first exception ends it. *)
Fixpoint comprehension {A B : Type} (f : A -> result B) (l : list A)
  : result (list B) :=
  match l with
  | [] => Ok []
  | a :: rest =>
      b <- f a ;;
      bs <- comprehension f rest ;;
      Ok (b :: bs)
  end.

(** [range(0, n, step)] for a positive [step]: 0, step, 2 step, ... below
    [n]; [range] raises [ValueError] when [step] is zero. *)
Definition range_step (n step : nat) : result (list nat) :=
  match step with
  | O => Raise ValueError
  | S _ => Ok (map (fun k => k * step)%nat (seq 0 ((n + step - 1) / step)))
  end.

(** [s[a:b]] for [0 <= a <= b]: the end is cut at the length of [s]. *)
Definition slice {A : Type} (s : list A) (a b : nat) : list A :=
  firstn (b - a) (skipn a s).

(** [sep.join(rows)] on strings carried as lists of characters. *)
Fixpoint join {A : Type} (sep : list A) (rows : list (list A)) : list A :=
  match rows with
  | [] => []
  | [r] => r
  | r :: rest => r ++ sep ++ join sep rest
  end.

(** [np.maximum], [np.minimum]: a NaN operand is the result. *)
Definition np_maximum (a b : float) : float :=
  if PrimFloat.is_nan a then a else if PrimFloat.is_nan b then b
  else if (a <? b)%float then b else a.

Definition np_minimum (a b : float) : float :=
  if PrimFloat.is_nan a then a else if PrimFloat.is_nan b then b
  else if (b <? a)%float then b else a.

(** [np.clip(a, lo, hi)] on one entry. *)
Definition np_clip (a lo hi : float) : float :=
  np_minimum (np_maximum a lo) hi.

(** [min(a, b)] and [max(a, b)] on Python ints. *)
Definition int_min (a b : Z) : Z := if (b <? a)%Z then b else a.
Definition int_max (a b : Z) : Z := if (a <? b)%Z then b else a.

End PySeq.

Import PySeq.

(** A byte, the value of a [uint8] pixel. *)
Definition is_byte (p : Z) : Prop := (0 <= p <= 255)%Z.

(** The line feed. *)
Definition newline : ascii := "010"%char.

(** ** dual_window_ascii.py: [frame_to_ascii_image]

    The canvas is drawn on by [cv2.putText]; the calls are collected in the
    order in which the two loops make them. *)
Module DualWindowImage.

Record PutText : Type := mkPutText {
  glyph : ascii;
  org : Z * Z;          (* bottom-left corner of the text *)
  color_intensity : Z
}.

Definition char_width : Z := 8.
Definition char_height : Z := 16.

Definition ascii_img_width (ascii_width : nat) : Z := Z.of_nat ascii_width * char_width.
Definition ascii_img_height (ascii_height : nat) : Z := Z.of_nat ascii_height * char_height.

(** [gray[y, x]] on a two-dimensional array. *)
Definition gray_at (gray : list (list Z)) (y x : nat) : result Z :=
  row <- getitem gray (Z.of_nat y) ;;
  getitem row (Z.of_nat x).

(** Lines 69-82, the body of the inner loop. [255 - pixel_value] is a
    [uint8] subtraction. *)
Definition draw_cell (gray : list (list Z)) (cell : nat * nat) : result PutText :=
  let '(y, x) := cell in
  pixel_value <- gray_at gray y x ;;
  ascii_char <- PixelToAscii.pixel_to_ascii pixel_value ;;
  let char_x := (Z.of_nat x * char_width)%Z in
  let char_y := ((Z.of_nat y + 1) * char_height - 4)%Z in
  let color_intensity := ((255 - pixel_value) mod 256)%Z in
  Ok (mkPutText ascii_char (char_x, char_y) color_intensity).

(** [for y in range(ascii_height): for x in range(ascii_width)]. *)
Definition cells (ascii_width ascii_height : nat) : list (nat * nat) :=
  flat_map (fun y => map (fun x => (y, x)) (seq 0 ascii_width)) (seq 0 ascii_height).

(** Lines 57-84 on the scaled grayscale array: the [putText] calls. *)
Definition frame_to_ascii_image (ascii_width ascii_height : nat)
           (gray : list (list Z)) : result (list PutText) :=
  comprehension (draw_cell gray) (cells ascii_width ascii_height).

End DualWindowImage.

(** ** realtime_ascii.py: conversion, rendering and the keys of [main] *)
Module RealtimeAscii.

Record Processor : Type := mkProcessor {
  character_set : list ascii;
  char_size : Z;
  font_scale : float;
  text_color : Z * Z * Z;
  background_color : Z;
  dark_mode : bool;
  is_recording : bool;
  brightness_level : float;
  show_help : bool;
  frame_width : nat;
  frame_height : nat
}.

(** [ASCIIVideoProcessor()] followed by the assignment of the frame
    dimensions in [main]. *)
Definition new_processor (width height : nat) : Processor :=
  mkProcessor ASCIIVideoProcessor.character_set 5 0.2 (0, 0, 0)%Z 255 false false
              1.0 false width height.

(** Lines 40-41 on one pixel:
    [np.clip(brightness_array * self.brightness_level, 0, 255).astype(np.uint8)].
    The cast truncates; it is undefined on a NaN, which [int_of_float]
    marks by raising. *)
Definition adjust_pixel (brightness_level : float) (pixel_value : Z) : result Z :=
  int_of_float (np_clip (float_of_int pixel_value * brightness_level) 0 255).

(** [convert_to_ascii] on the pixels of the resized grayscale image, in
    row-major order. Strings are lists of characters. *)
Definition convert_to_ascii (self : Processor) (gray : list Z) : result (list ascii) :=
  brightness_array <- comprehension (adjust_pixel (brightness_level self)) gray ;;
  pixel_data <- comprehension (ASCIIVideoProcessor.pixel_char (character_set self))
                              brightness_array ;;
  starts <- range_step (List.length pixel_data) (frame_width self) ;;
  Ok (join [newline]
           (map (fun idx => slice pixel_data idx (idx + frame_width self)) starts)).

(** A call of [cv2.putText]: the character and its position. *)
Definition PutText : Type := (ascii * (Z * Z))%type.

(** Lines 69-73: the characters of a line, [char_size] apart. *)
Fixpoint draw_line (char_size y_position x_position : Z) (current_line : list ascii)
  : list PutText :=
  match current_line with
  | [] => []
  | character :: rest =>
      (character, (x_position, y_position))
        :: draw_line char_size y_position (x_position + char_size) rest
  end.

Record RenderState : Type := mkRenderState {
  y_position : Z;
  string_index : nat;
  calls : list PutText
}.

(** Lines 66-76, the body of the loop over [i]. *)
Definition render_iteration (char_size : Z) (ascii_string : list ascii)
           (st : RenderState) (i : nat) : RenderState :=
  let current_line := slice ascii_string (string_index st) i in
  mkRenderState (y_position st + char_size) i
                (calls st ++ draw_line char_size (y_position st) 0 current_line).

(** [render_ascii_image]: the [putText] calls made on the canvas. *)
Definition render_ascii_image (self : Processor) (ascii_string : list ascii)
  : result (list PutText) :=
  steps <- range_step (List.length ascii_string) (frame_width self + 1) ;;
  Ok (calls (fold_left (render_iteration (char_size self) ascii_string) steps
                       (mkRenderState 0 0 []))).

(** The keys [main] polls with [kb.is_pressed]. *)
Inductive key : Type :=
| KeyQ | KeyEsc | KeyS | KeySpace | KeyUp | KeyDown
| KeyPlus | KeyEquals | KeyMinus | KeyR | KeyT | KeyH.

(** The [cv2.VideoWriter] of a recording, with the frame size it was
    opened for. *)
Record VideoWriter : Type := mkVideoWriter { frame_size : Z * Z }.

Inductive control : Type := Continue | Break.

Definition with_char_size (p : Processor) (c : Z) : Processor :=
  mkProcessor (character_set p) c (font_scale p) (text_color p)
              (background_color p) (dark_mode p) (is_recording p)
              (brightness_level p) (show_help p) (frame_width p) (frame_height p).

Definition with_brightness_level (p : Processor) (b : float) : Processor :=
  mkProcessor (character_set p) (char_size p) (font_scale p) (text_color p)
              (background_color p) (dark_mode p) (is_recording p)
              b (show_help p) (frame_width p) (frame_height p).

Definition with_is_recording (p : Processor) (r : bool) : Processor :=
  mkProcessor (character_set p) (char_size p) (font_scale p) (text_color p)
              (background_color p) (dark_mode p) r
              (brightness_level p) (show_help p) (frame_width p) (frame_height p).

(** Lines 172-244: the [if]/[elif] chain over the pressed keys; the first
    branch whose key is down is the only one taken. Screenshots, prints
    and the help text leave the state alone. *)
Definition handle_keys (pressed : key -> bool)
           (p : Processor) (video_writer : option VideoWriter)
  : Processor * option VideoWriter * control :=
  if pressed KeyQ || pressed KeyEsc then (p, video_writer, Break)
  else if pressed KeyS then (p, video_writer, Continue)
  else if pressed KeySpace then
    if negb (is_recording p) then
      (with_is_recording p true,
       Some (mkVideoWriter (Z.of_nat (frame_width p) * char_size p,
                            Z.of_nat (frame_height p) * char_size p)%Z),
       Continue)
    else (with_is_recording p false, None, Continue)
  else if pressed KeyUp then
    (with_char_size p (int_min 15 (char_size p + 1)), video_writer, Continue)
  else if pressed KeyDown then
    (with_char_size p (int_max 2 (char_size p - 1)), video_writer, Continue)
  else if pressed KeyPlus || pressed KeyEquals then
    (with_brightness_level p
       (RealtimeKeys.press (brightness_level p) RealtimeKeys.KeyPlus),
     video_writer, Continue)
  else if pressed KeyMinus then
    (with_brightness_level p
       (RealtimeKeys.press (brightness_level p) RealtimeKeys.KeyMinus),
     video_writer, Continue)
  else if pressed KeyR then
    (mkProcessor (character_set p) 5 0.2 (text_color p)
                 (background_color p) (dark_mode p) (is_recording p)
                 (RealtimeKeys.press (brightness_level p) RealtimeKeys.KeyR)
                 (show_help p) (frame_width p) (frame_height p),
     video_writer, Continue)
  else if pressed KeyT then
    let dark := negb (dark_mode p) in
    (mkProcessor (rev (character_set p)) (char_size p) (font_scale p)
                 (if dark then (255, 255, 255)%Z else (0, 0, 0)%Z)
                 (if dark then 0%Z else 255%Z) dark (is_recording p)
                 (brightness_level p) (show_help p) (frame_width p) (frame_height p),
     video_writer, Continue)
  else if pressed KeyH then
    (mkProcessor (character_set p) (char_size p) (font_scale p) (text_color p)
                 (background_color p) (dark_mode p) (is_recording p)
                 (brightness_level p) (negb (show_help p))
                 (frame_width p) (frame_height p),
     video_writer, Continue)
  else (p, video_writer, Continue).

(** What one turn of the [while True:] loop of [main] receives: whether the
    camera delivered a frame, its grayscale pixels after the resize, the keys
    that are down, and whether [cv2.waitKey] saw ESC. *)
Record Input : Type := mkInput {
  success : bool;
  gray : list Z;
  pressed : key -> bool;
  wait_key_esc : bool
}.

(** Lines 153-252, one turn. The rendered image is shown and possibly
    written to the recording; neither changes the state. *)
Definition iteration (p : Processor) (video_writer : option VideoWriter)
           (inp : Input)
  : result (Processor * option VideoWriter * control) :=
  if success inp then
    ascii_text <- convert_to_ascii p (gray inp) ;;
    ascii_image <- render_ascii_image p ascii_text ;;
    let '(p', video_writer', c) := handle_keys (pressed inp) p video_writer in
    match c with
    | Break => Ok (p', video_writer', Break)
    | Continue =>
        Ok (p', video_writer', if wait_key_esc inp then Break else Continue)
    end
  else Ok (p, video_writer, if wait_key_esc inp then Break else Continue).

(** The loop of [main] over the first turns of a session: the state when
    the loop is left, or after the last of the given turns. *)
Fixpoint main_loop (p : Processor) (video_writer : option VideoWriter)
         (inputs : list Input) : result (Processor * option VideoWriter) :=
  match inputs with
  | [] => Ok (p, video_writer)
  | inp :: rest =>
      r <- iteration p video_writer inp ;;
      let '(p', video_writer', c) := r in
      match c with
      | Break => Ok (p', video_writer')
      | Continue => main_loop p' video_writer' rest
      end
  end.

End RealtimeAscii.

(** For a brightness level and a byte: the adjusted pixel is a byte, not
    below the adjusted pixel of the byte before, on the side of the pixel
    that the level says, and the pixel itself at level 1.0. *)
Definition adjust_check (b : float) (p : Z) : bool :=
  match RealtimeAscii.adjust_pixel b p with
  | Ok q =>
      (0 <=? q)%Z && (q <=? 255)%Z
      && match RealtimeAscii.adjust_pixel b (p - 1) with
         | Ok q' => (p =? 0)%Z || (q' <=? q)%Z
         | Raise _ => (p =? 0)%Z
         end
      && (if (1.0 <=? b)%float then (p <=? q)%Z else true)
      && (if (b <=? 1.0)%float then (q <=? p)%Z else true)
  | Raise _ => false
  end.

(** Where [putText] call number [m] of [render_ascii_image] lands when the
    loop advances by [n] characters per line of height [char_size]. *)
Definition render_position (n : nat) (char_size : Z) (m : nat) : Z * Z :=
  (Z.of_nat (m mod n) * char_size, (Z.of_nat (m / n) + 1) * char_size)%Z.

(** ** Vocabulary for the keys of realtime_ascii.py *)

(** Exactly the key [k] is down. *)
Definition only (k : RealtimeAscii.key) : RealtimeAscii.key -> bool :=
  fun k' =>
    match k, k' with
    | RealtimeAscii.KeyQ, RealtimeAscii.KeyQ
    | RealtimeAscii.KeyEsc, RealtimeAscii.KeyEsc
    | RealtimeAscii.KeyS, RealtimeAscii.KeyS
    | RealtimeAscii.KeySpace, RealtimeAscii.KeySpace
    | RealtimeAscii.KeyUp, RealtimeAscii.KeyUp
    | RealtimeAscii.KeyDown, RealtimeAscii.KeyDown
    | RealtimeAscii.KeyPlus, RealtimeAscii.KeyPlus
    | RealtimeAscii.KeyEquals, RealtimeAscii.KeyEquals
    | RealtimeAscii.KeyMinus, RealtimeAscii.KeyMinus
    | RealtimeAscii.KeyR, RealtimeAscii.KeyR
    | RealtimeAscii.KeyT, RealtimeAscii.KeyT
    | RealtimeAscii.KeyH, RealtimeAscii.KeyH => true
    | _, _ => false
    end.

(** The theme fields agree with [dark_mode]: the light theme has the
    character set as written, black text on a white canvas; the dark theme
    has the reversed set, white text on a black canvas. *)
Definition theme_consistent (p : RealtimeAscii.Processor) : Prop :=
  (RealtimeAscii.dark_mode p = false
   /\ RealtimeAscii.character_set p = ASCIIVideoProcessor.character_set
   /\ RealtimeAscii.background_color p = 255%Z
   /\ RealtimeAscii.text_color p = (0, 0, 0)%Z)
  \/ (RealtimeAscii.dark_mode p = true
      /\ RealtimeAscii.character_set p = ASCIIVideoProcessor.dark_character_set
      /\ RealtimeAscii.background_color p = 0%Z
      /\ RealtimeAscii.text_color p = (255, 255, 255)%Z).

(** [is_recording] is set exactly while a video writer is open. *)
Definition recording_consistent (p : RealtimeAscii.Processor)
           (video_writer : option RealtimeAscii.VideoWriter) : Prop :=
  RealtimeAscii.is_recording p
  = match video_writer with Some _ => true | None => false end.

(** What every turn of [main] keeps. *)
Definition main_invariant (width height : nat) (p : RealtimeAscii.Processor)
           (video_writer : option RealtimeAscii.VideoWriter) : Prop :=
  RealtimeAscii.frame_width p = width
  /\ RealtimeAscii.frame_height p = height
  /\ (2 <= RealtimeAscii.char_size p <= 15)%Z
  /\ In (RealtimeAscii.brightness_level p) reachable_brightness_level
  /\ theme_consistent p
  /\ recording_consistent p video_writer.

(** Turns of [main] of realtime_ascii.py on a 2 x 2 frame: the recording
    key, the size key, the theme key and the brightness key, one per turn. *)
Definition sample_turn (k : RealtimeAscii.key) : RealtimeAscii.Input :=
  RealtimeAscii.mkInput true [0; 100; 200; 255]%Z (only k) false.

Definition sample_session : list RealtimeAscii.Input :=
  map sample_turn [RealtimeAscii.KeySpace; RealtimeAscii.KeyUp;
                   RealtimeAscii.KeyT; RealtimeAscii.KeyPlus].

(** ** simple_realtime_ascii.py: the gesture control of [run] *)
Module SimpleRealtimeASCII.

Inductive gesture : Type := brightness_up | brightness_down.

(** [detect_simple_gesture]: thumb tip against index tip, with a margin. *)
Definition detect_simple_gesture (landmarks : Hand) : result (option gesture) :=
  match landmarks with
  | [] => Ok None                       (* [if not landmarks: return None] *)
  | _ =>
      l4 <- getitem landmarks 4 ;;
      l8 <- getitem landmarks 8 ;;
      let thumb_tip_y := y l4 in
      let index_tip_y := y l8 in
      if flt thumb_tip_y (index_tip_y - 0.1) then Ok (Some brightness_up)
      else if fgt thumb_tip_y (index_tip_y + 0.1) then Ok (Some brightness_down)
      else Ok None
  end.

Record State : Type := mkState {
  brightness : float;
  show_hands : bool;
  show_ascii : bool;
  last_gesture_time : Q
}.

Definition init : State := mkState 1.0 true true 0.

(** Lines 124-136: the loop over the hands of a frame. The cooldown is
    tested once, before the loop, not for each hand. *)
Fixpoint hands_loop (current_time : Q) (st : State) (hands : list Hand)
  : result (State * list (Event gesture)) :=
  match hands with
  | [] => Ok (st, [])
  | hand_landmarks :: rest =>
      gesture <- detect_simple_gesture hand_landmarks ;;
      let '(st, evs) :=
        match gesture with
        | Some brightness_up =>
            (mkState (Py.min 2.0 (brightness st + 0.2)) (show_hands st)
                     (show_ascii st) current_time,
             [mkEvent current_time brightness_up])
        | Some brightness_down =>
            (mkState (Py.max 0.2 (brightness st - 0.2)) (show_hands st)
                     (show_ascii st) current_time,
             [mkEvent current_time brightness_down])
        | None => (st, [])
        end in
      r <- hands_loop current_time st rest ;;
      let '(st, evs') := r in
      Ok (st, evs ++ evs')
  end.

(** The keys of lines 156-164 other than the quit key, which ends the run. *)
Inductive key : Type := KeyA | KeyH.

Definition Frame : Type := (Q * list Hand * option key)%type.

(** Lines 120-164, one iteration. *)
Definition run_step (st : State) (frame : Frame)
  : result (State * list (Event gesture)) :=
  let '(current_time, multi_hand_landmarks, pressed) := frame in
  r <- (if Qgtb (current_time - last_gesture_time st) (5 # 10)
        then hands_loop current_time st multi_hand_landmarks
        else Ok (st, [])) ;;
  let '(st, evs) := r in
  let st :=
    match pressed with
    | Some KeyA => mkState (brightness st) (show_hands st)
                           (negb (show_ascii st)) (last_gesture_time st)
    | Some KeyH => mkState (brightness st) (negb (show_hands st))
                           (show_ascii st) (last_gesture_time st)
    | None => st
    end in
  Ok (st, evs).

Definition run : State -> list Frame -> list (Event gesture) * result State :=
  Loop.run run_step.

End SimpleRealtimeASCII.

(** ** debug_hand_detection.py *)
Module HandDetectionDebug.

(** A frame the camera delivered: its [shape] (height, width) and the hands
    found in it. *)
Record Frame : Type := mkFrame {
  shape : Z * Z;
  multi_hand_landmarks : list Hand
}.

(** Lines 56-63: the pixel positions of the thumb tip and the thumb IP joint,
    [(int(lm.x * w), int(lm.y * h))]. *)
Definition thumb_positions (h w : Z) (landmarks : Hand)
  : result ((Z * Z) * (Z * Z)) :=
  thumb_tip <- getitem landmarks 4 ;;
  thumb_ip <- getitem landmarks 3 ;;
  tx <- int_of_float (x thumb_tip * float_of_int w) ;;
  ty <- int_of_float (y thumb_tip * float_of_int h) ;;
  ix <- int_of_float (x thumb_ip * float_of_int w) ;;
  iy <- int_of_float (y thumb_ip * float_of_int h) ;;
  Ok ((tx, ty), (ix, iy)).

Record Counts : Type := mkCounts { frame_count : Z; detection_count : Z }.

(** Lines 39-66, the counters of one iteration. The drawing calls into the
    provider's library ([draw_landmarks], [cv2.circle]) are not modelled. *)
Definition count_frame (c : Counts) (f : Frame) : result Counts :=
  let frame_count := (frame_count c + 1)%Z in
  match multi_hand_landmarks f with
  | [] => Ok (mkCounts frame_count (detection_count c))
  | hands =>
      _ <- comprehension (thumb_positions (fst (shape f)) (snd (shape f))) hands ;;
      Ok (mkCounts frame_count (detection_count c + 1)%Z)
  end.

Fixpoint count_frames (c : Counts) (frames : list Frame) : result Counts :=
  match frames with
  | [] => Ok c
  | f :: rest => c' <- count_frame c f ;; count_frames c' rest
  end.

(** How [run] ends: with the early return of lines 23-25 when the camera
    did not open, with its final statistics printed, with an exception of
    the loop, or with the division by zero of line 100. *)
Inductive outcome : Type :=
| CameraNotFound
| Printed (c : Counts)
| Uncaught (e : exn)
| ZeroDivisionError.

(** [run]: [is_opened] is [cap.isOpened()], [frames] are the frames read
    before the stream ended or [q] was pressed. *)
Definition run (is_opened : bool) (frames : list Frame) : outcome :=
  if negb is_opened then CameraNotFound
  else
    match count_frames (mkCounts 0 0) frames with
    | Raise e => Uncaught e
    | Ok c => if (frame_count c =? 0)%Z then ZeroDivisionError else Printed c
    end.

End HandDetectionDebug.

(** ** More vocabulary *)

(** A landmark seen in a horizontally flipped frame. *)
Definition mirror (l : Landmark) : Landmark := mkLandmark (1 - x l) (y l).

(** The tests of [detect_gestures] of dual_window_ascii.py on the eleven
    coordinates. *)
Definition thumb_extended_up (f : FingerYs float) : bool :=
  flt (thumb_tip_y f) (thumb_ip_y f) && flt (thumb_tip_y f) (thumb_mcp_y f).

Definition other_fingers_down (f : FingerYs float) : bool :=
  fgt (index_tip_y f) (index_pip_y f) && fgt (middle_tip_y f) (middle_pip_y f)
  && fgt (ring_tip_y f) (ring_pip_y f) && fgt (pinky_tip_y f) (pinky_pip_y f).

Definition peace_fingers (f : FingerYs float) : bool :=
  flt (index_tip_y f) (index_pip_y f) && flt (middle_tip_y f) (middle_pip_y f)
  && fgt (ring_tip_y f) (ring_pip_y f) && fgt (pinky_tip_y f) (pinky_pip_y f).

Definition all_fingers_down (f : FingerYs float) : bool :=
  fgt (thumb_tip_y f) (thumb_ip_y f)
  && fgt (index_tip_y f) (index_pip_y f) && fgt (middle_tip_y f) (middle_pip_y f)
  && fgt (ring_tip_y f) (ring_pip_y f) && fgt (pinky_tip_y f) (pinky_pip_y f).

(** The brightness is one the gestures can reach and is not below the 1.0
    of the start. *)
Definition bright_side (b : float) : Prop :=
  In b reachable_brightness /\ in_range 1.0 2.0 b = true.

(** Any two events are fired in the same iteration, with its time stamp, or
    more than [D] apart. *)
Definition SameOrSpaced {G : Type} (D : Q) (evs : list (Event G)) : Prop :=
  StronglySorted
    (fun e1 e2 => ev_time e1 = ev_time e2 \/ D < ev_time e2 - ev_time e1) evs.

(** A frame of debug_hand_detection.py in which a hand was found. *)
Definition hands_detected (f : HandDetectionDebug.Frame) : bool :=
  match HandDetectionDebug.multi_hand_landmarks f with
  | [] => false
  | _ => true
  end.

(** ** realtime_ascii.py: [get_frame_dimensions] *)
Module FrameDimensions.







End FrameDimensions.

(** ** simple_ascii_converter.py: the keys of [run] *)
Module SimpleConverterKeys.

(** The keys of lines 78-89 other than the quit key, which ends the run. *)
Inductive key : Type :=
| KeyPlus    (* [+] or [=] *)
| KeyMinus   (* [-] *)
| KeyR.      (* [r] *)

Record State : Type := mkState { brightness : float; contrast : float }.

Definition init : State := mkState 1.0 1.0.

Definition press (st : State) (k : key) : State :=
  match k with
  | KeyPlus => mkState (Py.min 2.0 (brightness st + 0.2)) (contrast st)
  | KeyMinus => mkState (Py.max 0.2 (brightness st - 0.2)) (contrast st)
  | KeyR => mkState 1.0 1.0
  end.

End SimpleConverterKeys.

(** Frames of simple_realtime_ascii.py a second apart, each with two hands
    that show the thumb below the index finger. *)
Definition two_hands_down : list SimpleRealtimeASCII.Frame :=
  [ (1700000000, [Sample.thumbs_down_hand; Sample.thumbs_down_hand], None);
    (1700000001, [Sample.thumbs_down_hand; Sample.thumbs_down_hand], None);
    (1700000002, [Sample.thumbs_down_hand; Sample.thumbs_down_hand], None) ].

(** Frames of debug_hand_detection.py: two hands, no hand, one hand. *)
Definition detection_frames : list HandDetectionDebug.Frame :=
  [ HandDetectionDebug.mkFrame (480, 640)%Z
      [Sample.thumbs_up_hand; Sample.thumbs_down_hand];
    HandDetectionDebug.mkFrame (480, 640)%Z [];
    HandDetectionDebug.mkFrame (480, 640)%Z [Sample.thumbs_up_hand] ].

(** The settings of dual_window_ascii.py the gestures act on. *)
Definition dual_window_settings (st : DualWindowASCII.State)
  : float * float * bool :=
  (DualWindowASCII.brightness st, DualWindowASCII.contrast st,
   DualWindowASCII.show_hands st).

(** ** debug_gestures.py: the pixel positions of [run] *)
Module GestureDebuggerRun.




End GestureDebuggerRun.

(** The thumbs-down test of [detect_gesture] of quick_gesture_test.py. *)
Definition thumb_extended_down (f : FingerYs float) : bool :=
  fgt (thumb_tip_y f) (thumb_ip_y f) && fgt (thumb_tip_y f) (thumb_mcp_y f).


(** * Lemmas *)

(** ** Python primitives *)

Lemma result_Z_eqb_eq (r1 r2 : result Z) :
  result_Z_eqb r1 r2 = true -> r1 = r2.
Proof.
  destruct r1 as [a|e1], r2 as [b|e2]; simpl; try discriminate.
  intros H. apply Z.eqb_eq in H. now subst.
Qed.

Lemma Qgtb_true (a b : Q) : Qgtb a b = true -> b < a.
Proof.
  unfold Qgtb. intros H. apply negb_true_iff in H.
  apply Qnot_le_lt. intros Hle. apply Qle_bool_iff in Hle. congruence.
Qed.

Lemma Qgtb_of_lt (a b : Q) : b < a -> Qgtb a b = true.
Proof.
  intros H. unfold Qgtb. apply negb_true_iff.
  destruct (Qle_bool a b) eqn:E; [|reflexivity].
  apply Qle_bool_iff in E. exfalso. exact (Qlt_not_le _ _ H E).
Qed.

Lemma getitem_nth {A : Type} (l : list A) (i : Z) :
  (0 <= i < Z.of_nat (List.length l))%Z ->
  exists a, getitem l i = Ok a /\ nth_error l (Z.to_nat i) = Some a.
Proof.
  intros Hi. unfold getitem.
  destruct (i <? 0)%Z eqn:E; [apply Z.ltb_lt in E; lia|]. rewrite E.
  destruct (nth_error l (Z.to_nat i)) as [a|] eqn:N.
  - now exists a.
  - apply nth_error_None in N. lia.
Qed.



(** ** The quantizers *)

Lemma pixels_complete (p : Z) : (0 <= p <= 255)%Z -> In p pixels.
Proof.
  intros Hp. unfold pixels. apply in_map_iff.
  exists (Z.to_nat p). split; [lia|]. apply in_seq. lia.
Qed.

(** The binary64 computation of [pixel_to_ascii] agrees, on each of the 256
    pixel values, with the exact quotient [floor(p * 9 / 255)]. *)
Lemma ascii_index_table :
  forallb (fun p => result_Z_eqb (PixelToAscii.ascii_index p)
                                 (Ok (p * 9 / 255)%Z)) pixels = true.
Proof. vm_compute. reflexivity. Qed.

Lemma ascii_index_exact (p : Z) :
  (0 <= p <= 255)%Z -> PixelToAscii.ascii_index p = Ok (p * 9 / 255)%Z.
Proof.
  intros Hp. apply result_Z_eqb_eq.
  exact (proj1 (forallb_forall _ _) ascii_index_table p (pixels_complete p Hp)).
Qed.

Lemma ascii_index_bounds (p : Z) :
  (0 <= p <= 255)%Z -> (0 <= p * 9 / 255 <= 9)%Z.
Proof.
  intros Hp. split.
  - apply Z.div_pos; lia.
  - apply Z.div_le_upper_bound; lia.
Qed.

Lemma char_index_bounds (p : Z) :
  (0 <= p <= 255)%Z -> (0 <= ASCIIVideoProcessor.char_index p <= 11)%Z.
Proof.
  intros Hp. unfold ASCIIVideoProcessor.char_index. split.
  - apply Z.div_pos; lia.
  - apply Z.lt_succ_r. apply Z.div_lt_upper_bound; lia.
Qed.

(** C1 (as amended): for every pixel byte [p], [pixel_to_ascii] returns the
    glyph at index [floor(p / 255 * (M - 1))] of its ramp of [M = 10] symbols,
    with no clamp, and the 12-symbol quantizer returns the glyph at index
    [p // 22]; for the ramp "@%#*+=-:. ", 0 gives '@', 255 gives ' ' and 128
    gives ramp[4] = '+'. *)
Theorem quantizer_index_formula (p : Z) :
  (0 <= p <= 255)%Z ->
  (exists c,
      PixelToAscii.pixel_to_ascii p = Ok c
      /\ nth_error (list_ascii_of_string PixelToAscii.ascii_chars)
           (Z.to_nat (p * (PixelToAscii.len PixelToAscii.ascii_chars - 1) / 255))
         = Some c)
  /\ (exists c,
      ASCIIVideoProcessor.pixel_char ASCIIVideoProcessor.character_set p = Ok c
      /\ nth_error ASCIIVideoProcessor.character_set (Z.to_nat (p / 22)) = Some c)
  /\ PixelToAscii.pixel_to_ascii 0 = Ok "@"%char
  /\ PixelToAscii.pixel_to_ascii 255 = Ok " "%char
  /\ PixelToAscii.pixel_to_ascii 128 = Ok "+"%char.
Proof.
  intros Hp. repeat split; try (vm_compute; reflexivity).
  - unfold PixelToAscii.pixel_to_ascii. rewrite (ascii_index_exact p Hp).
    cbn [bind]. unfold str_getitem.
    change (PixelToAscii.len PixelToAscii.ascii_chars - 1)%Z with 9%Z.
    apply getitem_nth. pose proof (ascii_index_bounds p Hp) as B.
    change (Z.of_nat (List.length (list_ascii_of_string PixelToAscii.ascii_chars)))
      with 10%Z. lia.
  - unfold ASCIIVideoProcessor.pixel_char.
    apply getitem_nth. pose proof (char_index_bounds p Hp) as B.
    unfold ASCIIVideoProcessor.char_index in *.
    change (Z.of_nat (List.length ASCIIVideoProcessor.character_set)) with 12%Z.
    lia.
Qed.

Lemma quantizer_index_formula_witness :
  (exists c,
      PixelToAscii.pixel_to_ascii 128 = Ok c
      /\ nth_error (list_ascii_of_string PixelToAscii.ascii_chars)
           (Z.to_nat (128 * (PixelToAscii.len PixelToAscii.ascii_chars - 1) / 255))
         = Some c)
  /\ (exists c,
      ASCIIVideoProcessor.pixel_char ASCIIVideoProcessor.character_set 128 = Ok c
      /\ nth_error ASCIIVideoProcessor.character_set (Z.to_nat (128 / 22)) = Some c)
  /\ PixelToAscii.pixel_to_ascii 0 = Ok "@"%char
  /\ PixelToAscii.pixel_to_ascii 255 = Ok " "%char
  /\ PixelToAscii.pixel_to_ascii 128 = Ok "+"%char.
Proof. exact (quantizer_index_formula 128 ltac:(lia)). Defined.

(** C1 is refuted at pixel 128: the specification's [floor(p / 256 * M)]
    selects ramp[5] = '=', the code returns ramp[4] = '+'. *)
Lemma quantizer_128_is_not_equals_sign :
  SpecQuantizer.quantize PixelToAscii.ascii_chars 128 = Ok "="%char
  /\ PixelToAscii.pixel_to_ascii 128 = Ok "+"%char
  /\ PixelToAscii.pixel_to_ascii 128
     <> SpecQuantizer.quantize PixelToAscii.ascii_chars 128.
Proof.
  split; [vm_compute; reflexivity|].
  split; [vm_compute; reflexivity|].
  vm_compute. discriminate.
Qed.

(** C8: the quantizer is monotonic: for pixel values [p1 < p2] the ramp
    index computed for [p1] is at most the one computed for [p2], in
    [pixel_to_ascii] and in [convert_to_ascii]. *)
Theorem quantizer_monotonic (p1 p2 : Z) :
  (0 <= p1)%Z -> (p1 < p2)%Z -> (p2 <= 255)%Z ->
  (exists i1 i2,
      PixelToAscii.ascii_index p1 = Ok i1
      /\ PixelToAscii.ascii_index p2 = Ok i2
      /\ (i1 <= i2)%Z)
  /\ (ASCIIVideoProcessor.char_index p1 <= ASCIIVideoProcessor.char_index p2)%Z.
Proof.
  intros H0 H12 H255. split.
  - exists (p1 * 9 / 255)%Z, (p2 * 9 / 255)%Z.
    repeat split; try (apply ascii_index_exact; lia).
    apply Z.div_le_mono; lia.
  - unfold ASCIIVideoProcessor.char_index. apply Z.div_le_mono; lia.
Qed.

Lemma quantizer_monotonic_witness :
  (exists i1 i2,
      PixelToAscii.ascii_index 84 = Ok i1
      /\ PixelToAscii.ascii_index 85 = Ok i2
      /\ (i1 <= i2)%Z)
  /\ (ASCIIVideoProcessor.char_index 84 <= ASCIIVideoProcessor.char_index 85)%Z.
Proof.
  exact (quantizer_monotonic 84 85 ltac:(lia) ltac:(lia) ltac:(lia)).
Defined.

(** C10: for every pixel value in [0, 255] the index computed by either
    quantizer lies in [0, M-1], so the unguarded indexing into the ramp
    never raises; 255 // 22 = 11 = M - 1 for the 12-character set (also
    after the theme toggle has reversed it). *)
Theorem ramp_index_in_bounds (p : Z) :
  (0 <= p <= 255)%Z ->
  (exists i,
      PixelToAscii.ascii_index p = Ok i
      /\ (0 <= i <= PixelToAscii.len PixelToAscii.ascii_chars - 1)%Z)
  /\ is_ok (PixelToAscii.pixel_to_ascii p) = true
  /\ (0 <= ASCIIVideoProcessor.char_index p
      <= Z.of_nat (List.length ASCIIVideoProcessor.character_set) - 1)%Z
  /\ is_ok (ASCIIVideoProcessor.pixel_char ASCIIVideoProcessor.character_set p) = true
  /\ is_ok (ASCIIVideoProcessor.pixel_char ASCIIVideoProcessor.dark_character_set p) = true
  /\ ASCIIVideoProcessor.char_index 255 = 11%Z
  /\ (Z.of_nat (List.length ASCIIVideoProcessor.character_set) - 1 = 11)%Z.
Proof.
  intros Hp.
  pose proof (ascii_index_bounds p Hp) as B10.
  pose proof (char_index_bounds p Hp) as B12.
  assert (G : forall l : list ascii, List.length l = 12%nat ->
              is_ok (ASCIIVideoProcessor.pixel_char l p) = true).
  { intros l Hl. unfold ASCIIVideoProcessor.pixel_char.
    destruct (getitem_nth l (ASCIIVideoProcessor.char_index p)) as [c [E _]];
      [rewrite Hl; lia|].
    now rewrite E. }
  split; [|split; [|split; [|split; [|split; [|split]]]]].
  - exists (p * 9 / 255)%Z. split; [now apply ascii_index_exact|].
    change (PixelToAscii.len PixelToAscii.ascii_chars - 1)%Z with 9%Z. lia.
  - unfold PixelToAscii.pixel_to_ascii. rewrite (ascii_index_exact p Hp).
    cbn [bind]. unfold str_getitem.
    destruct (getitem_nth (list_ascii_of_string PixelToAscii.ascii_chars)
                (p * 9 / 255)%Z) as [c [E _]].
    + change (Z.of_nat (List.length (list_ascii_of_string PixelToAscii.ascii_chars)))
        with 10%Z. lia.
    + now rewrite E.
  - change (Z.of_nat (List.length ASCIIVideoProcessor.character_set)) with 12%Z. lia.
  - apply G. reflexivity.
  - apply G. reflexivity.
  - reflexivity.
  - reflexivity.
Qed.

Lemma ramp_index_in_bounds_witness :
  (exists i, PixelToAscii.ascii_index 255 = Ok i /\ (0 <= i <= 9)%Z)
  /\ is_ok (PixelToAscii.pixel_to_ascii 255) = true.
Proof.
  pose proof (ramp_index_in_bounds 255 ltac:(lia)) as H.
  exact (conj (proj1 H) (proj1 (proj2 H))).
Defined.

(** ** Order on binary64 values

    [<] on floats is a strict partial order: irreflexive parts aside, it is
    asymmetric and transitive, NaN and infinities included. *)

Lemma compare_cont_Eq (m n : positive) :
  PosDef.Pos.compare_cont Eq m n = (m ?= n)%positive.
Proof. reflexivity. Qed.

Ltac order_cases :=
  repeat match goal with
  | H : context [(?a ?= ?b)%Z] |- _ => destruct (Z.compare_spec a b)
  | |- context [(?a ?= ?b)%Z] => destruct (Z.compare_spec a b)
  | H : context [(?a ?= ?b)%positive] |- _ => destruct (Pos.compare_spec a b)
  | |- context [(?a ?= ?b)%positive] => destruct (Pos.compare_spec a b)
  end.

Lemma SFltb_asym (a b : spec_float) : SFltb a b = true -> SFltb b a = false.
Proof.
  unfold SFltb, SFcompare.
  destruct a as [sa|sa| |sa ma ea], b as [sb|sb| |sb mb eb];
    try destruct sa; try destruct sb; intros H;
    try discriminate H; try reflexivity;
    rewrite ?compare_cont_Eq in *; order_cases; simpl in *;
    try reflexivity; try discriminate; try lia.
Qed.

Lemma SFltb_trans (a b c : spec_float) :
  SFltb a b = true -> SFltb b c = true -> SFltb a c = true.
Proof.
  unfold SFltb, SFcompare.
  destruct a as [sa|sa| |sa ma ea], b as [sb|sb| |sb mb eb],
           c as [sc|sc| |sc mc ec];
    try destruct sa; try destruct sb; try destruct sc; intros H1 H2;
    try discriminate H1; try discriminate H2; try reflexivity;
    rewrite ?compare_cont_Eq in *; order_cases; simpl in *;
    try reflexivity; try discriminate; try lia.
Qed.

Lemma flt_asym (a b : float) : (a <? b)%float = true -> (b <? a)%float = false.
Proof. rewrite !ltb_spec. apply SFltb_asym. Qed.

Lemma flt_trans (a b c : float) :
  (a <? b)%float = true -> (b <? c)%float = true -> (a <? c)%float = true.
Proof. rewrite !ltb_spec. apply SFltb_trans. Qed.

Lemma Zltb_asym (a b : Z) : (a <? b)%Z = true -> (b <? a)%Z = false.
Proof. intros H. apply Z.ltb_lt in H. apply Z.ltb_ge. lia. Qed.

Lemma Zltb_trans (a b c : Z) :
  (a <? b)%Z = true -> (b <? c)%Z = true -> (a <? c)%Z = true.
Proof. rewrite !Z.ltb_lt. lia. Qed.

(** ** Reading the landmarks *)



Lemma read_hand_of (w : float) (f : FingerYs float) :
  read_landmarks y (Sample.hand_of w f) = Ok f.
Proof. destruct f. reflexivity. Qed.

(** ** The classifiers *)

(** With a single hand whose landmarks are all there, [detect_gestures] of
    dual_window_ascii.py classifies by its four [if] statements in turn. *)
Lemma dual_window_classify_single (landmarks : Hand) (f : FingerYs float) :
  read_landmarks y landmarks = Ok f ->
  DualWindowASCII.classify [landmarks]
  = DualWindowASCII.classify_hand None (Sample.hand_of 0.5 f).
Proof.
  intros R. unfold DualWindowASCII.classify. cbn [DualWindowASCII.classify_from].
  unfold DualWindowASCII.classify_hand. rewrite R, read_hand_of. cbn [bind].
  reflexivity.
Qed.

Ltac pose_facts :=
  unfold fgt, flt in *;
  repeat match goal with
  | H : _ /\ _ |- _ => destruct H
  end.

(** In the thumbs-up pose, dual_window_ascii.py assigns [brightness_up] and
    none of the three later rules overwrites it. *)
Lemma dual_window_thumbs_up (landmarks : Hand) (f : FingerYs float) :
  read_landmarks y landmarks = Ok f ->
  ThumbUpPose flt f ->
  DualWindowASCII.classify [landmarks] = Ok (Some DualWindowASCII.brightness_up).
Proof.
  intros R P. rewrite (dual_window_classify_single _ _ R).
  unfold DualWindowASCII.classify_hand. rewrite read_hand_of. cbn [bind].
  unfold ThumbUpPose in P. pose_facts.
  rewrite (flt_trans _ _ _ H H0).
  rewrite (flt_asym _ _ H), (flt_asym _ _ H1), H, H1, H2, H3, H4.
  reflexivity.
Qed.

Lemma quick_test_thumbs_up (landmarks : Hand) (f : FingerYs float) :
  read_landmarks y landmarks = Ok f ->
  ThumbUpPose flt f ->
  QuickGestureTest.classify [landmarks] = Ok (Some QuickGestureTest.thumbs_up).
Proof.
  intros R P. unfold QuickGestureTest.classify.
  cbn [QuickGestureTest.classify_from]. unfold QuickGestureTest.detect_gesture.
  destruct landmarks as [|l0 rest]; [discriminate R|].
  rewrite R. cbn [bind].
  unfold ThumbUpPose in P. pose_facts.
  rewrite (flt_trans _ _ _ H H0), H, H1, H2, H3, H4. reflexivity.
Qed.

Lemma debugger_thumbs_up (landmarks : GestureDebugger.PixelHand) (f : FingerYs Z) :
  read_landmarks snd landmarks = Ok f ->
  ThumbUpPose Z.ltb f ->
  GestureDebugger.classify landmarks = Ok GestureDebugger.THUMBS_UP.
Proof.
  intros R P. unfold GestureDebugger.classify, GestureDebugger.analyze_hand.
  rewrite R. cbn [bind]. unfold GestureDebugger.detect_gesture.
  cbn [GestureDebugger.thumb_up GestureDebugger.thumb_above_mcp
       GestureDebugger.index_up GestureDebugger.middle_up
       GestureDebugger.ring_up GestureDebugger.pinky_up].
  unfold ThumbUpPose in P. pose_facts.
  rewrite (Zltb_trans _ _ _ H H0), H.
  rewrite (Zltb_asym _ _ H1), (Zltb_asym _ _ H2), (Zltb_asym _ _ H3),
          (Zltb_asym _ _ H4).
  reflexivity.
Qed.

(** C7: for every hand whose thumb tip y is below the thumb IP y, itself
    below the thumb MCP y, and whose four other fingertips each have a y
    above their PIP joint's y, the classification is the thumbs-up label:
    [brightness_up] in dual_window_ascii.py, [thumbs_up] in
    quick_gesture_test.py, THUMBS UP in debug_gestures.py (on pixel rows). *)
Theorem thumbs_up_pose_is_ThumbsUp :
  (forall (landmarks : Hand) (f : FingerYs float),
      read_landmarks y landmarks = Ok f ->
      ThumbUpPose flt f ->
      DualWindowASCII.classify [landmarks]
      = Ok (Some DualWindowASCII.brightness_up)
      /\ QuickGestureTest.classify [landmarks]
         = Ok (Some QuickGestureTest.thumbs_up))
  /\ (forall (landmarks : GestureDebugger.PixelHand) (f : FingerYs Z),
      read_landmarks snd landmarks = Ok f ->
      ThumbUpPose Z.ltb f ->
      GestureDebugger.classify landmarks = Ok GestureDebugger.THUMBS_UP).
Proof.
  split.
  - intros landmarks f R P. split.
    + exact (dual_window_thumbs_up landmarks f R P).
    + exact (quick_test_thumbs_up landmarks f R P).
  - exact debugger_thumbs_up.
Qed.

Lemma thumbs_up_pose_is_ThumbsUp_witness :
  (DualWindowASCII.classify [Sample.thumbs_up_hand]
   = Ok (Some DualWindowASCII.brightness_up)
   /\ QuickGestureTest.classify [Sample.thumbs_up_hand]
      = Ok (Some QuickGestureTest.thumbs_up))
  /\ GestureDebugger.classify Sample.pixel_thumbs_up = Ok GestureDebugger.THUMBS_UP.
Proof.
  split.
  - apply (proj1 thumbs_up_pose_is_ThumbsUp Sample.thumbs_up_hand
             (Sample.ys 0.3 0.4 0.5  0.6 0.5  0.6 0.5  0.6 0.5  0.6 0.5)).
    + reflexivity.
    + vm_compute. repeat split.
  - apply (proj2 thumbs_up_pose_is_ThumbsUp Sample.pixel_thumbs_up
             (mkFingerYs 140 190 240  290 240  290 240  290 240  290 240)%Z).
    + reflexivity.
    + vm_compute. repeat split.
Defined.

(** C2, as dual_window_ascii.py behaves: for every hand with the thumb
    extended down and the four fingers curled, [detect_gestures] first
    assigns [brightness_down] (ThumbsDown); the fist test, which holds as
    well, then overwrites it, and the frame is classified [reset] (Fist).
    The last matching rule wins there, not the first. *)
Theorem dual_window_thumbs_down_yields_reset (landmarks : Hand) (f : FingerYs float) :
  read_landmarks y landmarks = Ok f ->
  ThumbDownCurledPose flt f ->
  DualWindowASCII.classify [landmarks] = Ok (Some DualWindowASCII.reset).
Proof.
  intros R P. rewrite (dual_window_classify_single _ _ R).
  unfold DualWindowASCII.classify_hand. rewrite read_hand_of. cbn [bind].
  unfold ThumbDownCurledPose in P. pose_facts.
  rewrite H, H1, H2, H3, H4. reflexivity.
Qed.

(** The thumbs-down sample hand is classified [reset]. *)
Lemma dual_window_thumbs_down_hand_is_reset :
  ThumbDownCurledPose flt (Sample.ys 0.9 0.8 0.7  0.6 0.5  0.6 0.5  0.6 0.5  0.6 0.5)
  /\ DualWindowASCII.classify [Sample.thumbs_down_hand]
     = Ok (Some DualWindowASCII.reset).
Proof.
  assert (P : ThumbDownCurledPose flt
                (Sample.ys 0.9 0.8 0.7  0.6 0.5  0.6 0.5  0.6 0.5  0.6 0.5))
    by (vm_compute; repeat split).
  split; [exact P|].
  exact (dual_window_thumbs_down_yields_reset Sample.thumbs_down_hand _
           eq_refl P).
Defined.

Lemma classify_hand_brightness_down (c : option DualWindowASCII.gesture)
      (landmarks : Hand) :
  DualWindowASCII.classify_hand c landmarks
  = Ok (Some DualWindowASCII.brightness_down) ->
  c = Some DualWindowASCII.brightness_down.
Proof.
  unfold DualWindowASCII.classify_hand.
  destruct (read_landmarks y landmarks) as [f|e]; cbn [bind]; [|discriminate].
  unfold fgt, flt.
  repeat match goal with
  | |- context [(?a <? ?b)%float] => destruct (a <? b)%float
  end; cbn [andb]; congruence.
Qed.

(** No input makes [detect_gestures] of dual_window_ascii.py classify a
    frame as [brightness_down]: its thumbs-down branch is dead. *)
Lemma dual_window_never_brightness_down (hands : list Hand) :
  DualWindowASCII.classify hands <> Ok (Some DualWindowASCII.brightness_down).
Proof.
  unfold DualWindowASCII.classify.
  assert (G : forall c, DualWindowASCII.classify_from c hands
                        = Ok (Some DualWindowASCII.brightness_down) ->
                        c = Some DualWindowASCII.brightness_down).
  { induction hands as [|h rest IH]; intros c E; cbn in E.
    - congruence.
    - destruct (DualWindowASCII.classify_hand c h) as [c'|e] eqn:Eh;
        cbn [bind] in E; [|discriminate].
      apply IH in E. subst c'. now apply classify_hand_brightness_down in Eh. }
  intros E. apply G in E. discriminate.
Qed.

(** The sibling classifiers return at the first rule that matches, so the
    thumbs-down pose is ThumbsDown there although the fist rule holds too. *)
Lemma debugger_thumbs_down (landmarks : GestureDebugger.PixelHand) (f : FingerYs Z) :
  read_landmarks snd landmarks = Ok f ->
  ThumbDownPose Z.ltb f ->
  GestureDebugger.classify landmarks = Ok GestureDebugger.THUMBS_DOWN.
Proof.
  intros R P. unfold GestureDebugger.classify, GestureDebugger.analyze_hand.
  rewrite R. cbn [bind]. unfold GestureDebugger.detect_gesture.
  cbn [GestureDebugger.thumb_up GestureDebugger.thumb_above_mcp
       GestureDebugger.thumb_down GestureDebugger.thumb_below_mcp
       GestureDebugger.index_up GestureDebugger.middle_up
       GestureDebugger.ring_up GestureDebugger.pinky_up].
  unfold ThumbDownPose in P. pose_facts.
  rewrite !Z.gtb_ltb, (Zltb_asym _ _ H), H, H0, H1, H2, H3, H4.
  reflexivity.
Qed.

Lemma quick_test_thumbs_down (landmarks : Hand) (f : FingerYs float) :
  read_landmarks y landmarks = Ok f ->
  ThumbDownCurledPose flt f ->
  QuickGestureTest.classify [landmarks] = Ok (Some QuickGestureTest.thumbs_down).
Proof.
  intros R P. unfold QuickGestureTest.classify.
  cbn [QuickGestureTest.classify_from]. unfold QuickGestureTest.detect_gesture.
  destruct landmarks as [|l0 rest]; [discriminate R|].
  rewrite R. cbn [bind].
  unfold ThumbDownCurledPose in P. pose_facts.
  rewrite (flt_asym _ _ H), H, H0, H1, H2, H3, H4. reflexivity.
Qed.

Lemma debugger_thumbs_down_sample :
  GestureDebugger.classify Sample.pixel_thumbs_down = Ok GestureDebugger.THUMBS_DOWN
  /\ QuickGestureTest.classify [Sample.thumbs_down_hand]
     = Ok (Some QuickGestureTest.thumbs_down).
Proof. split; vm_compute; reflexivity. Qed.


Lemma nan_ltb_l (a : float) : (nan <? a)%float = false.
Proof. rewrite ltb_spec. reflexivity. Qed.

Lemma nan_ltb_r (a : float) : (a <? nan)%float = false.
Proof. rewrite ltb_spec. destruct (Prim2SF a); reflexivity. Qed.

(** A NaN is not rejected, it only makes the comparisons it enters false:
    with a NaN thumb tip no thumb rule and no fist rule of
    dual_window_ascii.py can hold, and the hand is the peace sign or
    nothing. *)
Lemma nan_thumb_tip_classification (landmarks : Hand) (f : FingerYs float) :
  read_landmarks y landmarks = Ok f ->
  thumb_tip_y f = nan ->
  DualWindowASCII.classify [landmarks] = Ok (Some DualWindowASCII.toggle_hands)
  \/ DualWindowASCII.classify [landmarks] = Ok None.
Proof.
  intros R N. rewrite (dual_window_classify_single _ _ R).
  unfold DualWindowASCII.classify_hand. rewrite read_hand_of. cbn [bind].
  unfold fgt, flt. rewrite N, !nan_ltb_l, !nan_ltb_r. cbn [andb].
  match goal with
  | |- context [if ?b then Some DualWindowASCII.toggle_hands else _] => destruct b
  end; [left|right]; reflexivity.
Qed.

(** ** Brightness *)

Ltac in_list := repeat (first [left; reflexivity | right]).

Ltac each_member H :=
  unfold reachable_brightness, reachable_brightness_level in H;
  cbn [In] in H;
  repeat (destruct H as [H|H]; [subst|]); [..|contradiction H].

Lemma reachable_brightness_in_range (b : float) :
  In b reachable_brightness -> in_range 0.2 2.0 b = true.
Proof. intros H. each_member H; reflexivity. Qed.

Lemma reachable_brightness_level_in_range (b : float) :
  In b reachable_brightness_level -> in_range 0.3 2.0 b = true.
Proof. intros H. each_member H; reflexivity. Qed.

Lemma reachable_brightness_level_in_gesture_range (b : float) :
  In b reachable_brightness_level -> in_range 0.2 2.0 b = true.
Proof. intros H. each_member H; reflexivity. Qed.

(** The two clamped steps and the reset keep the brightness in the set. *)
Lemma reachable_brightness_up (b : float) :
  In b reachable_brightness -> In (Py.min 2.0 (b + 0.2)) reachable_brightness.
Proof. intros H. each_member H; vm_compute; in_list. Qed.

Lemma reachable_brightness_down (b : float) :
  In b reachable_brightness -> In (Py.max 0.2 (b - 0.2)) reachable_brightness.
Proof. intros H. each_member H; vm_compute; in_list. Qed.

Lemma reachable_brightness_one : In 1.0%float reachable_brightness.
Proof. vm_compute; in_list. Qed.

Lemma reachable_brightness_level_press (b : float) (k : RealtimeKeys.key) :
  In b reachable_brightness_level ->
  In (RealtimeKeys.press b k) reachable_brightness_level.
Proof. intros H. destruct k; each_member H; vm_compute; in_list. Qed.

Lemma dual_window_apply_reachable (st : DualWindowASCII.State)
      (g : DualWindowASCII.gesture) :
  In (DualWindowASCII.brightness st) reachable_brightness ->
  In (DualWindowASCII.brightness (DualWindowASCII.apply_gesture st g))
     reachable_brightness.
Proof.
  intros H. destruct g; cbn [DualWindowASCII.apply_gesture DualWindowASCII.brightness].
  - now apply reachable_brightness_up.
  - now apply reachable_brightness_down.
  - exact H.
  - exact reachable_brightness_one.
Qed.

Lemma quick_test_apply_reachable (st : QuickGestureTest.State)
      (g : QuickGestureTest.gesture) :
  In (QuickGestureTest.brightness st) reachable_brightness ->
  In (QuickGestureTest.brightness (QuickGestureTest.apply_gesture st g))
     reachable_brightness.
Proof.
  intros H. destruct g; cbn [QuickGestureTest.apply_gesture QuickGestureTest.brightness].
  - now apply reachable_brightness_up.
  - now apply reachable_brightness_down.
Qed.

Lemma fold_left_invariant {S E : Type} (P : S -> Prop) (step : S -> E -> S) :
  (forall s e, P s -> P (step s e)) ->
  forall (es : list E) (s : S), P s -> P (fold_left step es s).
Proof.
  intros Hstep es. induction es as [|e es IH]; intros s Hs; cbn.
  - exact Hs.
  - apply IH, Hstep, Hs.
Qed.

(** C3: for every sequence of confirmed gesture events (brightness-up,
    brightness-down, toggle and reset, in any number and order) applied
    from the initial settings, the brightness stays within [0.2, 2.0]; the
    same holds for the two-gesture loop of quick_gesture_test.py, and the
    brightness keys of realtime_ascii.py stay within [0.3, 2.0], hence
    within [0.2, 2.0]. *)
Theorem brightness_stays_clamped
        (gs : list DualWindowASCII.gesture)
        (qs : list QuickGestureTest.gesture)
        (ks : list RealtimeKeys.key) :
  in_range 0.2 2.0
    (DualWindowASCII.brightness
       (fold_left DualWindowASCII.apply_gesture gs DualWindowASCII.init)) = true
  /\ in_range 0.2 2.0
       (QuickGestureTest.brightness
          (fold_left QuickGestureTest.apply_gesture qs QuickGestureTest.init)) = true
  /\ in_range 0.3 2.0 (fold_left RealtimeKeys.press ks RealtimeKeys.init) = true
  /\ in_range 0.2 2.0 (fold_left RealtimeKeys.press ks RealtimeKeys.init) = true.
Proof.
  assert (K : In (fold_left RealtimeKeys.press ks RealtimeKeys.init)
                 reachable_brightness_level).
  { apply (fold_left_invariant (fun b => In b reachable_brightness_level)).
    - intros b k. apply reachable_brightness_level_press.
    - vm_compute; in_list. }
  split; [|split; [|split]].
  - apply reachable_brightness_in_range.
    apply (fold_left_invariant
             (fun st => In (DualWindowASCII.brightness st) reachable_brightness)).
    + exact dual_window_apply_reachable.
    + exact reachable_brightness_one.
  - apply reachable_brightness_in_range.
    apply (fold_left_invariant
             (fun st => In (QuickGestureTest.brightness st) reachable_brightness)).
    + exact quick_test_apply_reachable.
    + exact reachable_brightness_one.
  - now apply reachable_brightness_level_in_range.
  - now apply reachable_brightness_level_in_gesture_range.
Qed.

(** The clamps are reached: six thumbs-up in a row from 1.0 give exactly 2.0
    and any further ones leave it there; five thumbs-down give exactly 0.2. *)
Lemma brightness_saturates (n : nat) :
  DualWindowASCII.brightness
    (fold_left DualWindowASCII.apply_gesture
       (repeat DualWindowASCII.brightness_up (6 + n)) DualWindowASCII.init)
  = 2.0%float
  /\ DualWindowASCII.brightness
       (fold_left DualWindowASCII.apply_gesture
          (repeat DualWindowASCII.brightness_down (5 + n)) DualWindowASCII.init)
     = 0.2%float.
Proof.
  split.
  - rewrite repeat_app, fold_left_app.
    set (st := fold_left _ (repeat _ 6) _).
    assert (E : DualWindowASCII.brightness st = 2.0%float) by reflexivity.
    clearbody st. revert st E.
    induction n as [|n IH]; intros st E; cbn [repeat fold_left]; [exact E|].
    apply IH. cbn. rewrite E. reflexivity.
  - rewrite repeat_app, fold_left_app.
    set (st := fold_left _ (repeat _ 5) _).
    assert (E : DualWindowASCII.brightness st = 0.2%float) by reflexivity.
    clearbody st. revert st E.
    induction n as [|n IH]; intros st E; cbn [repeat fold_left]; [exact E|].
    apply IH. cbn. rewrite E. reflexivity.
Qed.

(** The brightness of the running loop is one of the reachable values,
    whatever the frames: only the confirmed gestures change it. *)
Lemma dual_window_run_brightness (frames : list DualWindowASCII.Frame) :
  forall st,
    In (DualWindowASCII.brightness st) reachable_brightness ->
    match snd (DualWindowASCII.run st frames) with
    | Ok st' => in_range 0.2 2.0 (DualWindowASCII.brightness st') = true
    | Raise _ => True
    end.
Proof.
  unfold DualWindowASCII.run.
  induction frames as [|f rest IH]; intros st Hst; cbn [Loop.run].
  - cbn [snd]. now apply reachable_brightness_in_range.
  - destruct (DualWindowASCII.run_step st f) as [[st1 evs]|e] eqn:E;
      [|exact I].
    specialize (IH st1).
    destruct (Loop.run DualWindowASCII.run_step st1 rest) as [evs' r].
    cbn [snd] in *. apply IH. clear IH.
    destruct f as [current_time hands]. unfold DualWindowASCII.run_step in E.
    destruct (Qgtb _ _); [|inversion E; subst; exact Hst].
    destruct (DualWindowASCII.detect_gestures _ hands) as [[buf [g|]]|x];
      cbn [bind] in E; inversion E; subst; clear E.
    + apply dual_window_apply_reachable. exact Hst.
    + exact Hst.
Qed.

(** ** The cooldown *)

Lemma Chain_app (D a b c : Q) (l1 l2 : list Q) :
  Chain D a l1 b -> Chain D b l2 c -> Chain D a (l1 ++ l2) c.
Proof.
  intros H1 H2. induction H1 as [a|a t ts b Hat Hts IH]; cbn.
  - exact H2.
  - apply Chain_cons; [exact Hat|]. apply IH, H2.
Qed.

Lemma Chain_after (D a b : Q) (l : list Q) :
  0 <= D -> Chain D a l b -> Forall (fun t => a + D < t) l.
Proof.
  intros HD H. induction H as [a|a t ts b Hat Hts IH]; constructor.
  - exact Hat.
  - apply Forall_impl with (2 := IH). intros u Hu. lra.
Qed.

Lemma Chain_Spaced {G : Type} (D : Q) (evs : list (Event G)) :
  0 <= D -> forall a b, Chain D a (map ev_time evs) b -> Spaced D evs.
Proof.
  intros HD. unfold Spaced.
  induction evs as [|e evs IH]; intros a b H; cbn in H.
  - constructor.
  - inversion H as [|a' t ts b' Hat Hts]; subst.
    constructor; [exact (IH _ _ Hts)|].
    pose proof (Chain_after D _ _ _ HD Hts) as F.
    rewrite Forall_map in F.
    apply Forall_impl with (2 := F). intros e' He'. lra.
Qed.

Lemma Spaced_pair {G : Type} (D : Q) (l1 l2 l3 : list (Event G)) (e1 e2 : Event G) :
  Spaced D (l1 ++ e1 :: l2 ++ e2 :: l3) -> D < ev_time e2 - ev_time e1.
Proof.
  unfold Spaced. induction l1 as [|e l1 IH]; cbn; intros H.
  - apply StronglySorted_inv in H. destruct H as [_ F].
    rewrite Forall_forall in F. apply F.
    apply in_or_app. right. left. reflexivity.
  - apply StronglySorted_inv in H. exact (IH (proj1 H)).
Qed.

Section Cooldown.
Context {State Frame G : Type}.
Variable step : State -> Frame -> result (State * list (Event G)).
Variable last : State -> Q.
Variable D : Q.
Hypothesis D_nonneg : 0 <= D.

(** What a loop body guarantees: the events of one iteration continue the
    chain from the stored [last_gesture_time], which is left at the time of
    the last of them. *)
Hypothesis step_chain :
  forall st f st' evs,
    step st f = Ok (st', evs) ->
    Chain D (last st) (map ev_time evs) (last st').

Lemma run_chain (frames : list Frame) :
  forall st, exists b,
    Chain D (last st) (map ev_time (fst (Loop.run step st frames))) b.
Proof.
  induction frames as [|f rest IH]; intros st; cbn [Loop.run].
  - exists (last st). constructor.
  - destruct (step st f) as [[st' evs]|e] eqn:E.
    + destruct (IH st') as [b Hb].
      destruct (Loop.run step st' rest) as [evs' r]. cbn [fst] in *.
      exists b. rewrite map_app.
      exact (Chain_app _ _ _ _ _ _ (step_chain _ _ _ _ E) Hb).
    + exists (last st). constructor.
Qed.

Lemma run_spaced (st : State) (frames : list Frame) :
  Spaced D (fst (Loop.run step st frames)).
Proof.
  destruct (run_chain frames st) as [b Hb].
  exact (Chain_Spaced D _ D_nonneg _ _ Hb).
Qed.

End Cooldown.

Lemma Chain_single (D a t : Q) : D < t - a -> Chain D a [t] t.
Proof. intros H. apply Chain_cons; [lra|constructor]. Qed.

Lemma dual_window_step_chain (st : DualWindowASCII.State)
      (f : DualWindowASCII.Frame) (st' : DualWindowASCII.State)
      (evs : list (Event DualWindowASCII.gesture)) :
  DualWindowASCII.run_step st f = Ok (st', evs) ->
  Chain DualWindowASCII.gesture_cooldown (DualWindowASCII.last_gesture_time st)
        (map ev_time evs) (DualWindowASCII.last_gesture_time st').
Proof.
  destruct f as [current_time hands]. unfold DualWindowASCII.run_step.
  destruct (Qgtb _ _) eqn:Gate.
  - destruct (DualWindowASCII.detect_gestures _ hands) as [[buf [g|]]|e];
      cbn [bind]; intros E; inversion E; subst; clear E.
    + destruct g; cbn; apply Chain_single; exact (Qgtb_true _ _ Gate).
    + cbn. constructor.
  - intros E; inversion E; subst. constructor.
Qed.

Lemma quick_test_step_chain (st : QuickGestureTest.State)
      (f : QuickGestureTest.Frame) (st' : QuickGestureTest.State)
      (evs : list (Event QuickGestureTest.gesture)) :
  QuickGestureTest.run_step st f = Ok (st', evs) ->
  Chain 1 (QuickGestureTest.last_gesture_time st)
        (map ev_time evs) (QuickGestureTest.last_gesture_time st').
Proof.
  destruct f as [current_time hands]. unfold QuickGestureTest.run_step.
  destruct (QuickGestureTest.classify hands) as [c|e]; cbn [bind]; [|discriminate].
  destruct (QuickGestureTest.smooth _ c) as [buf [g|]].
  - cbn [QuickGestureTest.last_gesture_time].
    destruct (Qgtb _ _) eqn:Gate; intros E; inversion E; subst; clear E.
    + cbn. apply Chain_single. exact (Qgtb_true _ _ Gate).
    + cbn. constructor.
  - intros E; inversion E; subst. cbn. constructor.
Qed.

Lemma gesture_only_hand_chain (current_time : Q) (st : SimpleGestureControl.State)
      (landmarks : Hand) (st' : SimpleGestureControl.State)
      (evs : list (Event SimpleGestureControl.gesture)) :
  SimpleGestureControl.hand_step current_time st landmarks = Ok (st', evs) ->
  Chain 1 (SimpleGestureControl.last_gesture_time st)
        (map ev_time evs) (SimpleGestureControl.last_gesture_time st').
Proof.
  unfold SimpleGestureControl.hand_step.
  destruct (Qgtb _ _) eqn:Gate.
  - destruct (SimpleGestureControl.is_thumb_up landmarks) as [[|]|e];
      cbn [bind]; try discriminate.
    + intros E; inversion E; subst. cbn. apply Chain_single.
      exact (Qgtb_true _ _ Gate).
    + destruct (SimpleGestureControl.is_thumb_down landmarks) as [[|]|e];
        cbn [bind]; try discriminate; intros E; inversion E; subst; cbn.
      * apply Chain_single. exact (Qgtb_true _ _ Gate).
      * constructor.
  - intros E; inversion E; subst. constructor.
Qed.

Lemma gesture_only_step_chain (st : SimpleGestureControl.State)
      (f : SimpleGestureControl.Frame) (st' : SimpleGestureControl.State)
      (evs : list (Event SimpleGestureControl.gesture)) :
  SimpleGestureControl.run_step st f = Ok (st', evs) ->
  Chain 1 (SimpleGestureControl.last_gesture_time st)
        (map ev_time evs) (SimpleGestureControl.last_gesture_time st').
Proof.
  destruct f as [current_time hands]. unfold SimpleGestureControl.run_step.
  revert st st' evs.
  induction hands as [|h rest IH]; intros st st' evs;
    cbn [SimpleGestureControl.hands_loop].
  - intros E; inversion E; subst. constructor.
  - destruct (SimpleGestureControl.hand_step current_time st h)
      as [[st1 evs1]|e] eqn:E1; cbn [bind]; [|discriminate].
    destruct (SimpleGestureControl.hands_loop current_time st1 rest)
      as [[st2 evs2]|e] eqn:E2; cbn [bind]; [|discriminate].
    intros E; inversion E; subst. rewrite map_app.
    eapply Chain_app.
    + exact (gesture_only_hand_chain _ _ _ _ _ E1).
    + exact (IH _ _ _ E2).
Qed.

(** C4: for every stream of frames (time stamps and hands, hence per-frame
    symbols), any two gesture events a main loop fires are more than the
    cooldown apart: 0.5 s in dual_window_ascii.py, 1.0 s in
    quick_gesture_test.py and gesture_only.py. *)
Theorem events_respect_cooldown
        (st : DualWindowASCII.State) (frames : list DualWindowASCII.Frame)
        (qst : QuickGestureTest.State) (qframes : list QuickGestureTest.Frame)
        (sst : SimpleGestureControl.State)
        (sframes : list SimpleGestureControl.Frame) :
  Spaced DualWindowASCII.gesture_cooldown (fst (DualWindowASCII.run st frames))
  /\ Spaced 1 (fst (QuickGestureTest.run qst qframes))
  /\ Spaced 1 (fst (SimpleGestureControl.run sst sframes)).
Proof.
  split; [|split].
  - apply (run_spaced DualWindowASCII.run_step DualWindowASCII.last_gesture_time).
    + unfold DualWindowASCII.gesture_cooldown. lra.
    + exact dual_window_step_chain.
  - apply (run_spaced QuickGestureTest.run_step QuickGestureTest.last_gesture_time).
    + lra.
    + exact quick_test_step_chain.
  - apply (run_spaced SimpleGestureControl.run_step
                      SimpleGestureControl.last_gesture_time).
    + lra.
    + exact gesture_only_step_chain.
Qed.

(** A held gesture fires again and again, each time more than the cooldown
    after the last: the spacing of C4 on a stream with several events. *)
Lemma held_gesture_events :
  map ev_time (fst (DualWindowASCII.run DualWindowASCII.init Sample.held_up))
  = [1700000000.5; 1700000001.5].
Proof. vm_compute. reflexivity. Qed.

(** ** The smoothing buffer *)

Lemma dual_opt_eqb_eq (a b : option DualWindowASCII.gesture) :
  DualWindowASCII.opt_eqb a b = true -> a = b.
Proof. destruct a as [[]|], b as [[]|]; cbn; congruence. Qed.

Lemma quick_opt_eqb_eq (a b : option QuickGestureTest.gesture) :
  QuickGestureTest.opt_eqb a b = true -> a = b.
Proof. destruct a as [[]|], b as [[]|]; cbn; congruence. Qed.

Lemma last_n_split {A : Type} (n : nat) (l : list A) :
  (n <= List.length l)%nat ->
  l = firstn (List.length l - n) l ++ last_n n l
  /\ List.length (last_n n l) = n.
Proof.
  intros Hn. unfold last_n. split.
  - symmetry. apply firstn_skipn.
  - rewrite length_skipn. lia.
Qed.

Lemma append_bounded_last {A : Type} (size : nat) (l : list A) (a : A) :
  (1 <= size)%nat -> exists pre, append_bounded size l a = pre ++ [a].
Proof.
  intros Hs. unfold append_bounded.
  destruct (size <? List.length (l ++ [a]))%nat eqn:E.
  - apply Nat.ltb_lt in E. rewrite length_app in E. cbn in E.
    destruct l as [|b l]; [cbn in E; lia|]. exists l. reflexivity.
  - exists l. reflexivity.
Qed.

Lemma append_bounded_length {A : Type} (size : nat) (l : list A) (a : A) :
  (List.length l <= size)%nat ->
  (List.length (append_bounded size l a) <= size)%nat.
Proof.
  intros Hl. unfold append_bounded.
  destruct (size <? List.length (l ++ [a]))%nat eqn:E.
  - destruct l as [|b l]; cbn in *; [lia|].
    rewrite length_app in *. cbn in *. lia.
  - apply Nat.ltb_ge in E. exact E.
Qed.

(** The buffer of dual_window_ascii.py never holds more than
    [buffer_size] entries, whatever the iteration does. *)
Lemma dual_window_buffer_bounded (st st' : DualWindowASCII.State)
      (f : DualWindowASCII.Frame) (evs : list (Event DualWindowASCII.gesture)) :
  (List.length (DualWindowASCII.gesture_buffer st)
   <= DualWindowASCII.buffer_size)%nat ->
  DualWindowASCII.run_step st f = Ok (st', evs) ->
  (List.length (DualWindowASCII.gesture_buffer st')
   <= DualWindowASCII.buffer_size)%nat.
Proof.
  intros Hlen E. destruct f as [current_time hands].
  unfold DualWindowASCII.run_step in E.
  destruct (Qgtb _ _); [|inversion E; subst; exact Hlen].
  unfold DualWindowASCII.detect_gestures in E.
  destruct (DualWindowASCII.classify hands) as [c|x]; cbn [bind] in E;
    [|discriminate E].
  pose proof (append_bounded_length DualWindowASCII.buffer_size _ c Hlen) as B.
  unfold DualWindowASCII.smooth in E.
  set (b := append_bounded DualWindowASCII.buffer_size
              (DualWindowASCII.gesture_buffer st) c) in *.
  destruct (2 <=? List.length b)%nat;
    [destruct (forallb _ _); [destruct (hd None _) as [g|]|]|];
    inversion E; subst; clear E; try exact B.
  destruct g; exact B.
Qed.

(** When the smoothing of dual_window_ascii.py returns a gesture, the
    buffer ends with two copies of it, the later one being the symbol of
    the current frame. *)
Lemma dual_window_smooth_Some (buf buf' : list (option DualWindowASCII.gesture))
      (c : option DualWindowASCII.gesture) (g : DualWindowASCII.gesture) :
  DualWindowASCII.smooth buf c = (buf', Some g) ->
  c = Some g /\ exists older, buf' = older ++ [Some g; Some g].
Proof.
  unfold DualWindowASCII.smooth.
  destruct (append_bounded_last DualWindowASCII.buffer_size buf c) as [pre Hpre];
    [unfold DualWindowASCII.buffer_size; lia|].
  set (b := append_bounded DualWindowASCII.buffer_size buf c) in *.
  destruct (2 <=? List.length b)%nat eqn:L; [|intros E; discriminate E].
  apply Nat.leb_le in L.
  destruct (last_n_split 2 b L) as [Hsplit Hlen].
  destruct (last_n 2 b) as [|r1 [|r2 [|r3 rest]]]; try discriminate Hlen.
  cbn [hd forallb].
  destruct (DualWindowASCII.opt_eqb r1 r1 && DualWindowASCII.is_not_None r1
            && (DualWindowASCII.opt_eqb r2 r1 && DualWindowASCII.is_not_None r2
                && true)) eqn:F; intros E; inversion E; subst; clear E.
  apply andb_prop in F. destruct F as [_ F].
  apply andb_prop in F. destruct F as [F _].
  apply andb_prop in F. destruct F as [F _].
  apply dual_opt_eqb_eq in F. subst r2.
  assert (Hc : c = Some g).
  { rewrite Hsplit in Hpre.
    change [Some g; Some g] with ([Some g] ++ [Some g]) in Hpre.
    rewrite !app_assoc in Hpre. apply app_inj_tail in Hpre.
    symmetry. exact (proj2 Hpre). }
  split; [exact Hc|].
  eexists. exact Hsplit.
Qed.

(** The same for quick_gesture_test.py, with three copies. *)
Lemma quick_test_smooth_Some (buf buf' : list (option QuickGestureTest.gesture))
      (c : option QuickGestureTest.gesture) (g : QuickGestureTest.gesture) :
  QuickGestureTest.smooth buf c = (buf', Some g) ->
  c = Some g /\ exists older, buf' = older ++ [Some g; Some g; Some g].
Proof.
  unfold QuickGestureTest.smooth.
  destruct (append_bounded_last QuickGestureTest.buffer_size buf c) as [pre Hpre];
    [unfold QuickGestureTest.buffer_size; lia|].
  set (b := append_bounded QuickGestureTest.buffer_size buf c) in *.
  destruct (3 <=? List.length b)%nat eqn:L; [|intros E; discriminate E].
  apply Nat.leb_le in L.
  destruct (last_n_split 3 b L) as [Hsplit Hlen].
  destruct (last_n 3 b) as [|r1 [|r2 [|r3 [|r4 rest]]]]; try discriminate Hlen.
  cbn [hd forallb].
  destruct (QuickGestureTest.opt_eqb r1 r1 && QuickGestureTest.is_not_None r1
            && (QuickGestureTest.opt_eqb r2 r1 && QuickGestureTest.is_not_None r2
                && (QuickGestureTest.opt_eqb r3 r1
                    && QuickGestureTest.is_not_None r3 && true))) eqn:F;
    intros E; inversion E; subst; clear E.
  apply andb_prop in F. destruct F as [_ F].
  apply andb_prop in F. destruct F as [F2 F].
  apply andb_prop in F2. destruct F2 as [F2 _].
  apply andb_prop in F. destruct F as [F3 _].
  apply andb_prop in F3. destruct F3 as [F3 _].
  apply quick_opt_eqb_eq in F2, F3. subst r2 r3.
  assert (Hc : c = Some g).
  { rewrite Hsplit in Hpre.
    change [Some g; Some g; Some g] with ([Some g; Some g] ++ [Some g]) in Hpre.
    rewrite !app_assoc in Hpre. apply app_inj_tail in Hpre.
    symmetry. exact (proj2 Hpre). }
  split; [exact Hc|].
  eexists. exact Hsplit.
Qed.

Lemma dual_window_event_tail (st st' : DualWindowASCII.State)
      (f : DualWindowASCII.Frame) (evs : list (Event DualWindowASCII.gesture))
      (e : Event DualWindowASCII.gesture) :
  DualWindowASCII.run_step st f = Ok (st', evs) -> In e evs ->
  exists older,
    DualWindowASCII.gesture_buffer st'
    = older ++ [Some (ev_gesture e); Some (ev_gesture e)].
Proof.
  intros E He.
  destruct f as [current_time hands]. unfold DualWindowASCII.run_step in E.
  destruct (Qgtb _ _); [|inversion E; subst; contradiction He].
  unfold DualWindowASCII.detect_gestures in E.
  destruct (DualWindowASCII.classify hands) as [c|x]; cbn [bind] in E;
    [|discriminate E].
  destruct (DualWindowASCII.smooth _ c) as [buf [g|]] eqn:S;
    inversion E; subst; clear E; [|contradiction He].
  destruct He as [<-|[]]. cbn [ev_gesture].
  destruct (dual_window_smooth_Some _ _ _ _ S) as [_ [older Ho]].
  exists older. destruct g; exact Ho.
Qed.

Lemma quick_test_event_tail (st st' : QuickGestureTest.State)
      (f : QuickGestureTest.Frame) (evs : list (Event QuickGestureTest.gesture))
      (e : Event QuickGestureTest.gesture) :
  QuickGestureTest.run_step st f = Ok (st', evs) -> In e evs ->
  exists older,
    QuickGestureTest.gesture_buffer st'
    = older ++ [Some (ev_gesture e); Some (ev_gesture e); Some (ev_gesture e)].
Proof.
  intros E He.
  destruct f as [current_time hands]. unfold QuickGestureTest.run_step in E.
  destruct (QuickGestureTest.classify hands) as [c|x]; cbn [bind] in E;
    [|discriminate E].
  destruct (QuickGestureTest.smooth _ c) as [buf [g|]] eqn:S;
    [|inversion E; subst; contradiction He].
  cbn [QuickGestureTest.last_gesture_time] in E.
  destruct (Qgtb _ _); inversion E; subst; clear E; [|contradiction He].
  destruct He as [<-|[]]. cbn [ev_gesture].
  destruct (quick_test_smooth_Some _ _ _ _ S) as [_ [older Ho]].
  exists older. destruct g; exact Ho.
Qed.

(** C6 (as amended): a gesture event fires only when the most recent C
    entries of the debounce buffer (C = 2 of K = 3 in dual_window_ascii.py,
    C = 3 of K = 5 in quick_gesture_test.py) are equal to the fired symbol,
    hence equal to each other and not None, at the moment of confirmation;
    older entries of the buffer are not looked at. *)
Theorem event_needs_stable_tail :
  (forall (st st' : DualWindowASCII.State) (f : DualWindowASCII.Frame)
          (evs : list (Event DualWindowASCII.gesture))
          (e : Event DualWindowASCII.gesture),
      DualWindowASCII.run_step st f = Ok (st', evs) -> In e evs ->
      exists older,
        DualWindowASCII.gesture_buffer st'
        = older ++ [Some (ev_gesture e); Some (ev_gesture e)])
  /\ (forall (st st' : QuickGestureTest.State) (f : QuickGestureTest.Frame)
          (evs : list (Event QuickGestureTest.gesture))
          (e : Event QuickGestureTest.gesture),
      QuickGestureTest.run_step st f = Ok (st', evs) -> In e evs ->
      exists older,
        QuickGestureTest.gesture_buffer st'
        = older ++ [Some (ev_gesture e); Some (ev_gesture e);
                    Some (ev_gesture e)]).
Proof.
  split.
  - exact dual_window_event_tail.
  - exact quick_test_event_tail.
Qed.

(** C6 is refuted: after a frame without a hand and two frames with the
    thumbs-up hand, dual_window_ascii.py fires although its buffer of
    K = 3 entries holds a None. *)
Lemma event_fires_with_None_in_buffer :
  exists st,
    DualWindowASCII.run DualWindowASCII.init Sample.none_up_up
    = ([mkEvent 1700000000.2 DualWindowASCII.brightness_up], Ok st)
    /\ DualWindowASCII.gesture_buffer st
       = [None; Some DualWindowASCII.brightness_up;
          Some DualWindowASCII.brightness_up]
    /\ List.length (DualWindowASCII.gesture_buffer st)
       = DualWindowASCII.buffer_size
    /\ In None (DualWindowASCII.gesture_buffer st).
Proof.
  eexists. split; [vm_compute; reflexivity|].
  split; [reflexivity|]. split; [reflexivity|]. left. reflexivity.
Qed.

Lemma event_needs_stable_tail_witness :
  exists older,
    [None; Some DualWindowASCII.brightness_up; Some DualWindowASCII.brightness_up]
    = older ++ [Some DualWindowASCII.brightness_up;
                Some DualWindowASCII.brightness_up].
Proof.
  exact (proj1 event_needs_stable_tail
           (DualWindowASCII.mkState [None; Some DualWindowASCII.brightness_up]
              1.0 1.0 true 0)
           _ (1700000000.2, [Sample.thumbs_up_hand]) _
           (mkEvent 1700000000.2 DualWindowASCII.brightness_up)
           eq_refl (or_introl eq_refl)).
Defined.

(** ** Exactly C identical symbols from a fresh state *)

(** One iteration of dual_window_ascii.py outside the cooldown. *)
Lemma dual_window_step_open (st : DualWindowASCII.State) (current_time : Q)
      (hands : list Hand) (c : option DualWindowASCII.gesture) :
  DualWindowASCII.gesture_cooldown
  < current_time - DualWindowASCII.last_gesture_time st ->
  DualWindowASCII.classify hands = Ok c ->
  DualWindowASCII.run_step st (current_time, hands)
  = let '(buf, gesture) := DualWindowASCII.smooth (DualWindowASCII.gesture_buffer st) c in
    let st1 := DualWindowASCII.mkState buf (DualWindowASCII.brightness st)
                 (DualWindowASCII.contrast st) (DualWindowASCII.show_hands st)
                 (DualWindowASCII.last_gesture_time st) in
    match gesture with
    | Some g =>
        Ok (DualWindowASCII.apply_gesture
              (DualWindowASCII.mkState buf (DualWindowASCII.brightness st)
                 (DualWindowASCII.contrast st) (DualWindowASCII.show_hands st)
                 current_time) g,
            [mkEvent current_time g])
    | None => Ok (st1, [])
    end.
Proof.
  intros Gate C. unfold DualWindowASCII.run_step.
  rewrite (Qgtb_of_lt _ _ Gate). unfold DualWindowASCII.detect_gestures.
  rewrite C. cbn [bind].
  destruct (DualWindowASCII.smooth _ c) as [buf [g|]]; reflexivity.
Qed.

Lemma dual_window_two_frames (t1 t2 : Q) (r1 r2 : list Hand)
      (g : DualWindowASCII.gesture) :
  DualWindowASCII.gesture_cooldown < t1 ->
  DualWindowASCII.gesture_cooldown < t2 ->
  DualWindowASCII.classify r1 = Ok (Some g) ->
  DualWindowASCII.classify r2 = Ok (Some g) ->
  fst (DualWindowASCII.run DualWindowASCII.init [(t1, r1); (t2, r2)])
  = [mkEvent t2 g].
Proof.
  intros H1 H2 C1 C2. unfold DualWindowASCII.run. cbn [Loop.run].
  rewrite (dual_window_step_open _ t1 r1 (Some g)); [|cbn; lra|exact C1].
  replace (DualWindowASCII.smooth
             (DualWindowASCII.gesture_buffer DualWindowASCII.init) (Some g))
    with ([Some g], @None DualWindowASCII.gesture) by (destruct g; reflexivity).
  cbv iota beta. cbn [Loop.run].
  rewrite (dual_window_step_open _ t2 r2 (Some g)); [|cbn; lra|exact C2].
  replace (DualWindowASCII.smooth _ (Some g))
    with ([Some g; Some g], Some g) by (destruct g; reflexivity).
  reflexivity.
Qed.

Lemma quick_test_three_frames (t1 t2 t3 : Q) (r1 r2 r3 : list Hand)
      (g : QuickGestureTest.gesture) :
  1 < t3 ->
  QuickGestureTest.classify r1 = Ok (Some g) ->
  QuickGestureTest.classify r2 = Ok (Some g) ->
  QuickGestureTest.classify r3 = Ok (Some g) ->
  fst (QuickGestureTest.run QuickGestureTest.init
         [(t1, r1); (t2, r2); (t3, r3)])
  = [mkEvent t3 g].
Proof.
  intros H3 C1 C2 C3. unfold QuickGestureTest.run. cbn [Loop.run].
  unfold QuickGestureTest.run_step at 1. rewrite C1. cbn [bind].
  replace (QuickGestureTest.smooth
             (QuickGestureTest.gesture_buffer QuickGestureTest.init) (Some g))
    with ([Some g], @None QuickGestureTest.gesture) by (destruct g; reflexivity).
  cbv iota beta. cbn [Loop.run].
  unfold QuickGestureTest.run_step at 1. rewrite C2. cbn [bind].
  replace (QuickGestureTest.smooth _ (Some g))
    with ([Some g; Some g], @None QuickGestureTest.gesture)
    by (destruct g; reflexivity).
  cbv iota beta. cbn [Loop.run].
  unfold QuickGestureTest.run_step at 1. rewrite C3. cbn [bind].
  replace (QuickGestureTest.smooth _ (Some g))
    with ([Some g; Some g; Some g], Some g) by (destruct g; reflexivity).
  cbv iota beta. cbn [QuickGestureTest.last_gesture_time QuickGestureTest.init].
  rewrite (Qgtb_of_lt (t3 - 0) 1) by lra.
  reflexivity.
Qed.

(** C5: from the fresh state, exactly C identical non-None symbols in a row
    (C = 2 with a buffer of 3 in dual_window_ascii.py, C = 3 with a buffer
    of 5 in quick_gesture_test.py) fire exactly one event, at the last of
    the C frames. The time stamps are wall-clock seconds since the epoch,
    so they exceed the cooldown counted from the initial
    [last_gesture_time = 0]. *)
Theorem stable_symbols_fire_once :
  (forall (t1 t2 : Q) (r1 r2 : list Hand) (g : DualWindowASCII.gesture),
      DualWindowASCII.gesture_cooldown < t1 ->
      DualWindowASCII.gesture_cooldown < t2 ->
      DualWindowASCII.classify r1 = Ok (Some g) ->
      DualWindowASCII.classify r2 = Ok (Some g) ->
      fst (DualWindowASCII.run DualWindowASCII.init [(t1, r1); (t2, r2)])
      = [mkEvent t2 g])
  /\ (forall (t1 t2 t3 : Q) (r1 r2 r3 : list Hand) (g : QuickGestureTest.gesture),
      1 < t3 ->
      QuickGestureTest.classify r1 = Ok (Some g) ->
      QuickGestureTest.classify r2 = Ok (Some g) ->
      QuickGestureTest.classify r3 = Ok (Some g) ->
      fst (QuickGestureTest.run QuickGestureTest.init
             [(t1, r1); (t2, r2); (t3, r3)])
      = [mkEvent t3 g]).
Proof.
  split.
  - exact dual_window_two_frames.
  - exact quick_test_three_frames.
Qed.

Lemma stable_symbols_fire_once_witness :
  fst (DualWindowASCII.run DualWindowASCII.init Sample.up_up)
  = [mkEvent 1700000000.1 DualWindowASCII.brightness_up]
  /\ fst (QuickGestureTest.run QuickGestureTest.init Sample.up_up_up)
     = [mkEvent 1700000000.2 QuickGestureTest.thumbs_up].
Proof.
  split.
  - apply (proj1 stable_symbols_fire_once).
    + reflexivity.
    + reflexivity.
    + vm_compute. reflexivity.
    + vm_compute. reflexivity.
  - apply (proj2 stable_symbols_fire_once).
    + reflexivity.
    + vm_compute. reflexivity.
    + vm_compute. reflexivity.
    + vm_compute. reflexivity.
Defined.

(** * Further properties of the scripts *)

(** ** Comprehensions *)

Lemma comprehension_Forall2 {A B : Type} (f : A -> result B) (l : list A)
      (bs : list B) :
  comprehension f l = Ok bs -> Forall2 (fun a b => f a = Ok b) l bs.
Proof.
  revert bs. induction l as [|a l IH]; intros bs E; cbn in E.
  - inversion E. constructor.
  - destruct (f a) as [b|e] eqn:Fa; cbn [bind] in E; [|discriminate].
    destruct (comprehension f l) as [bs'|e]; cbn [bind] in E; [|discriminate].
    inversion E; subst. constructor; [exact Fa|]. now apply IH.
Qed.

Lemma comprehension_ok {A B : Type} (f : A -> result B) (l : list A) :
  Forall (fun a => exists b, f a = Ok b) l ->
  exists bs, comprehension f l = Ok bs.
Proof.
  induction 1 as [|a l [b Fa] _ [bs IH]]; cbn.
  - now exists [].
  - rewrite Fa, IH. cbn [bind]. now exists (b :: bs).
Qed.

Lemma Forall2_Forall_r {A B : Type} (R : A -> B -> Prop) (P : A -> Prop)
      (Q : B -> Prop) (l : list A) (bs : list B) :
  Forall2 R l bs -> Forall P l -> (forall a b, P a -> R a b -> Q b) ->
  Forall Q bs.
Proof.
  intros F HP HQ. induction F as [|a b l bs Rab _ IH]; constructor.
  - exact (HQ a b (Forall_inv HP) Rab).
  - apply IH. exact (Forall_inv_tail HP).
Qed.

Lemma comprehension_length {A B : Type} (f : A -> result B) (l : list A)
      (bs : list B) :
  comprehension f l = Ok bs -> List.length bs = List.length l.
Proof.
  intros E. symmetry.
  exact (Forall2_length (comprehension_Forall2 f l bs E)).
Qed.

(** ** Glyphs of the quantizers *)

Lemma pixel_to_ascii_nth (p : Z) :
  (0 <= p <= 255)%Z ->
  exists c, PixelToAscii.pixel_to_ascii p = Ok c
            /\ nth_error (list_ascii_of_string PixelToAscii.ascii_chars)
                 (Z.to_nat (p * 9 / 255)) = Some c.
Proof.
  intros Hp. unfold PixelToAscii.pixel_to_ascii.
  rewrite (ascii_index_exact p Hp). cbn [bind]. unfold str_getitem.
  apply getitem_nth. pose proof (ascii_index_bounds p Hp) as B.
  change (Z.of_nat (List.length (list_ascii_of_string PixelToAscii.ascii_chars)))
    with 10%Z. lia.
Qed.

Lemma pixel_to_ascii_in_ramp (p : Z) :
  (0 <= p <= 255)%Z ->
  exists c, PixelToAscii.pixel_to_ascii p = Ok c
            /\ In c (list_ascii_of_string PixelToAscii.ascii_chars).
Proof.
  intros Hp. destruct (pixel_to_ascii_nth p Hp) as [c [E N]].
  exists c. split; [exact E|]. exact (nth_error_In _ _ N).
Qed.

Lemma pixel_char_in_set (charset : list ascii) (p : Z) :
  List.length charset = 12%nat -> (0 <= p <= 255)%Z ->
  exists c, ASCIIVideoProcessor.pixel_char charset p = Ok c /\ In c charset.
Proof.
  intros Hl Hp. unfold ASCIIVideoProcessor.pixel_char.
  pose proof (char_index_bounds p Hp) as B.
  destruct (getitem_nth charset (ASCIIVideoProcessor.char_index p)) as [c [E N]];
    [rewrite Hl; lia|].
  exists c. split; [exact E|]. exact (nth_error_In _ _ N).
Qed.

(** The glyph of a pixel is the blank exactly when the predicate says so:
    checked on each of the 256 bytes. *)
Lemma blank_glyph_table :
  forallb (fun p =>
             match PixelToAscii.pixel_to_ascii p,
                   ASCIIVideoProcessor.pixel_char
                     ASCIIVideoProcessor.character_set p with
             | Ok c, Ok d =>
                 Bool.eqb (Ascii.eqb c " ") (p =? 255)%Z
                 && Bool.eqb (Ascii.eqb d " ") (242 <=? p)%Z
             | _, _ => false
             end) pixels = true.
Proof. vm_compute. reflexivity. Qed.

(** X1: [pixel_to_ascii] gives the lightest glyph of its ramp, the blank, for
    pixel 255 alone (its other nine glyphs share the bytes 0..254), while the
    12-symbol quantizer of realtime_ascii.py gives the blank for the 14 bytes
    242..255 (its other glyphs get 22 bytes each). *)
Theorem blank_glyph_pixels (p : Z) :
  (0 <= p <= 255)%Z ->
  (PixelToAscii.pixel_to_ascii p = Ok " "%char <-> p = 255%Z)
  /\ (ASCIIVideoProcessor.pixel_char ASCIIVideoProcessor.character_set p
      = Ok " "%char <-> (242 <= p)%Z).
Proof.
  intros Hp.
  pose proof (proj1 (forallb_forall _ _) blank_glyph_table p
                    (pixels_complete p Hp)) as T.
  cbv beta in T.
  destruct (PixelToAscii.pixel_to_ascii p) as [c|e]; [|discriminate T].
  destruct (ASCIIVideoProcessor.pixel_char _ p) as [d|e]; [|discriminate T].
  apply andb_prop in T. destruct T as [T1 T2].
  apply Bool.eqb_prop in T1, T2. split.
  - rewrite <- Z.eqb_eq, <- T1, Ascii.eqb_eq. split; congruence.
  - rewrite <- Z.leb_le, <- T2, Ascii.eqb_eq. split; congruence.
Qed.

Lemma blank_glyph_pixels_witness :
  (PixelToAscii.pixel_to_ascii 254 = Ok " "%char <-> 254%Z = 255%Z)
  /\ (ASCIIVideoProcessor.pixel_char ASCIIVideoProcessor.character_set 254
      = Ok " "%char <-> (242 <= 254)%Z).
Proof. exact (blank_glyph_pixels 254 ltac:(lia)). Defined.

(** ** Frames as text *)

(** ** The glyph grid of dual_window_ascii.py *)

Lemma gray_at_ok (gray : list (list Z)) (w h y x : nat) :
  List.length gray = h ->
  Forall (fun row => List.length row = w /\ Forall is_byte row) gray ->
  (y < h)%nat -> (x < w)%nat ->
  exists p, DualWindowImage.gray_at gray y x = Ok p /\ is_byte p.
Proof.
  intros Hh Hrows Hy Hx. unfold DualWindowImage.gray_at.
  destruct (getitem_nth gray (Z.of_nat y)) as [row [Er Nr]]; [lia|].
  rewrite Er. cbn [bind].
  rewrite Forall_forall in Hrows.
  destruct (Hrows row (nth_error_In _ _ Nr)) as [Hw Hb].
  destruct (getitem_nth row (Z.of_nat x)) as [p [Ep Np]]; [lia|].
  exists p. split; [exact Ep|].
  rewrite Forall_forall in Hb. exact (Hb p (nth_error_In _ _ Np)).
Qed.

Lemma in_cells (w h : nat) (cell : nat * nat) :
  In cell (DualWindowImage.cells w h) ->
  (fst cell < h)%nat /\ (snd cell < w)%nat.
Proof.
  unfold DualWindowImage.cells. rewrite in_flat_map.
  intros [y [Hy Hc]]. apply in_map_iff in Hc. destruct Hc as [x [<- Hx]].
  apply in_seq in Hy, Hx. cbn. lia.
Qed.

Lemma cells_length (w h : nat) :
  List.length (DualWindowImage.cells w h) = (w * h)%nat.
Proof.
  unfold DualWindowImage.cells.
  assert (G : forall a, List.length
                (flat_map (fun y => map (fun x => (y, x)) (seq 0 w)) (seq a h))
              = (w * h)%nat).
  { induction h as [|h IH]; intros a; cbn [seq flat_map].
    - cbn. lia.
    - rewrite length_app, length_map, length_seq, IH. lia. }
  apply G.
Qed.

(** X3: given the scaled grayscale array of [ascii_height] rows of
    [ascii_width] bytes, [frame_to_ascii_image] raises nothing and draws
    exactly one glyph per cell; every glyph is a ramp symbol whose text
    origin lies on the canvas (one character cell of 8 x 16 pixels inside
    its right and top edges) and whose grey level is a byte. *)
Theorem frame_to_ascii_image_draws_grid (w h : nat) (gray : list (list Z)) :
  List.length gray = h ->
  Forall (fun row => List.length row = w /\ Forall is_byte row) gray ->
  exists calls,
    DualWindowImage.frame_to_ascii_image w h gray = Ok calls
    /\ List.length calls = (w * h)%nat
    /\ Forall (fun c =>
                 In (DualWindowImage.glyph c)
                    (list_ascii_of_string PixelToAscii.ascii_chars)
                 /\ (0 <= fst (DualWindowImage.org c)
                     <= DualWindowImage.ascii_img_width w
                        - DualWindowImage.char_width)%Z
                 /\ (DualWindowImage.char_height - 4
                     <= snd (DualWindowImage.org c)
                     < DualWindowImage.ascii_img_height h)%Z
                 /\ is_byte (DualWindowImage.color_intensity c))
              calls.
Proof.
  intros Hh Hrows. unfold DualWindowImage.frame_to_ascii_image.
  assert (Cell : forall cell, In cell (DualWindowImage.cells w h) ->
            exists c, DualWindowImage.draw_cell gray cell = Ok c
              /\ In (DualWindowImage.glyph c)
                    (list_ascii_of_string PixelToAscii.ascii_chars)
              /\ (0 <= fst (DualWindowImage.org c)
                  <= DualWindowImage.ascii_img_width w
                     - DualWindowImage.char_width)%Z
              /\ (DualWindowImage.char_height - 4
                  <= snd (DualWindowImage.org c)
                  < DualWindowImage.ascii_img_height h)%Z
              /\ is_byte (DualWindowImage.color_intensity c)).
  { intros [y x] Hin. apply in_cells in Hin. cbn [fst snd] in Hin.
    destruct Hin as [Hy Hx].
    destruct (gray_at_ok gray w h y x Hh Hrows Hy Hx) as [p [Ep Hp]].
    destruct (pixel_to_ascii_in_ramp p Hp) as [c [Ec Hc]].
    unfold DualWindowImage.draw_cell. rewrite Ep. cbn [bind].
    rewrite Ec. cbn [bind]. eexists. split; [reflexivity|].
    cbn [DualWindowImage.glyph DualWindowImage.org
         DualWindowImage.color_intensity fst snd].
    unfold DualWindowImage.ascii_img_width, DualWindowImage.ascii_img_height,
      DualWindowImage.char_width, DualWindowImage.char_height, is_byte in *.
    split; [exact Hc|].
    repeat split; try lia.
    - apply Z.mod_pos_bound. lia.
    - pose proof (Z.mod_pos_bound (255 - p) 256). lia. }
  destruct (comprehension_ok (DualWindowImage.draw_cell gray)
                             (DualWindowImage.cells w h)) as [calls E].
  { apply Forall_forall. intros cell Hin.
    destruct (Cell cell Hin) as [c [Ec _]]. now exists c. }
  exists calls. split; [exact E|]. split.
  - rewrite (comprehension_length _ _ _ E). apply cells_length.
  - apply comprehension_Forall2 in E.
    apply (Forall2_Forall_r _ (fun cell => In cell (DualWindowImage.cells w h))
             _ _ _ E).
    + apply Forall_forall. auto.
    + intros cell c Hin Ec.
      destruct (Cell cell Hin) as [c' [Ec' P]].
      assert (c' = c) by congruence. subst c'. exact P.
Qed.

Lemma frame_to_ascii_image_draws_grid_witness :
  exists calls,
    DualWindowImage.frame_to_ascii_image 2 1 [[0; 255]]%Z = Ok calls
    /\ List.length calls = 2%nat.
Proof.
  destruct (frame_to_ascii_image_draws_grid 2 1 [[0; 255]]%Z eq_refl)
    as [calls [E [L _]]].
  - repeat constructor; unfold is_byte; lia.
  - exists calls. split; assumption.
Defined.

(** ** The brightness step of realtime_ascii.py *)

Lemma adjust_table :
  forallb (fun b => forallb (adjust_check b) pixels) reachable_brightness_level
  = true.
Proof. vm_compute. reflexivity. Qed.

Lemma adjust_check_true (b : float) (p : Z) :
  In b reachable_brightness_level -> (0 <= p <= 255)%Z ->
  adjust_check b p = true.
Proof.
  intros Hb Hp.
  pose proof (proj1 (forallb_forall _ _) adjust_table b Hb) as T.
  exact (proj1 (forallb_forall _ _) T p (pixels_complete p Hp)).
Qed.

Lemma adjust_pixel_byte (b : float) (p : Z) :
  In b reachable_brightness_level -> (0 <= p <= 255)%Z ->
  exists q, RealtimeAscii.adjust_pixel b p = Ok q /\ (0 <= q <= 255)%Z.
Proof.
  intros Hb Hp. pose proof (adjust_check_true b p Hb Hp) as T.
  unfold adjust_check in T.
  destruct (RealtimeAscii.adjust_pixel b p) as [q|e]; [|discriminate T].
  exists q. split; [reflexivity|].
  repeat (apply andb_prop in T; destruct T as [T ?]).
  repeat match goal with
  | H : (_ <=? _)%Z = true |- _ => apply Z.leb_le in H
  end. lia.
Qed.

Lemma adjust_pixel_step (b : float) (p q q' : Z) :
  In b reachable_brightness_level -> (0 < p <= 255)%Z ->
  RealtimeAscii.adjust_pixel b (p - 1) = Ok q' ->
  RealtimeAscii.adjust_pixel b p = Ok q ->
  (q' <= q)%Z.
Proof.
  intros Hb Hp E' E. pose proof (adjust_check_true b p Hb ltac:(lia)) as T.
  unfold adjust_check in T. rewrite E, E' in T.
  repeat (apply andb_prop in T; destruct T as [T ?]).
  match goal with
  | H : (_ =? 0)%Z || _ = true |- _ =>
      apply orb_prop in H; destruct H as [H|H];
      [apply Z.eqb_eq in H; lia|apply Z.leb_le in H; exact H]
  end.
Qed.

Lemma adjust_pixel_monotone (b : float) (n : nat) :
  In b reachable_brightness_level ->
  forall p1 q1 q2,
    (0 <= p1)%Z -> (p1 + Z.of_nat n <= 255)%Z ->
    RealtimeAscii.adjust_pixel b p1 = Ok q1 ->
    RealtimeAscii.adjust_pixel b (p1 + Z.of_nat n) = Ok q2 ->
    (q1 <= q2)%Z.
Proof.
  intros Hb. induction n as [|n IH]; intros p1 q1 q2 H0 H255 E1 E2.
  - replace (p1 + Z.of_nat 0)%Z with p1 in E2 by lia.
    assert (q1 = q2) by congruence. lia.
  - destruct (adjust_pixel_byte b (p1 + Z.of_nat n) Hb ltac:(lia)) as [q [E _]].
    pose proof (IH p1 q1 q H0 ltac:(lia) E1 E) as L.
    replace (p1 + Z.of_nat n)%Z with (p1 + Z.of_nat (S n) - 1)%Z in E by lia.
    pose proof (adjust_pixel_step b (p1 + Z.of_nat (S n))%Z q2 q Hb
                  ltac:(lia) E E2). lia.
Qed.

(** X4: at every brightness level the keys of realtime_ascii.py can reach, the
    brightness step [np.clip(pixel * level, 0, 255).astype(np.uint8)] maps
    bytes to bytes and keeps their order; it never darkens a pixel when the
    level is at least 1.0, never lightens one when the level is at most 1.0,
    and leaves every pixel as it is at level 1.0. *)
Theorem brightness_step_on_bytes (b : float) (p1 p2 : Z) :
  In b reachable_brightness_level ->
  (0 <= p1)%Z -> (p1 <= p2)%Z -> (p2 <= 255)%Z ->
  exists q1 q2,
    RealtimeAscii.adjust_pixel b p1 = Ok q1
    /\ RealtimeAscii.adjust_pixel b p2 = Ok q2
    /\ (0 <= q1)%Z /\ (q1 <= q2)%Z /\ (q2 <= 255)%Z
    /\ ((1.0 <=? b)%float = true -> (p1 <= q1)%Z)
    /\ ((b <=? 1.0)%float = true -> (q1 <= p1)%Z)
    /\ RealtimeAscii.adjust_pixel 1.0 p1 = Ok p1.
Proof.
  intros Hb H0 H12 H255.
  destruct (adjust_pixel_byte b p1 Hb ltac:(lia)) as [q1 [E1 B1]].
  destruct (adjust_pixel_byte b p2 Hb ltac:(lia)) as [q2 [E2 B2]].
  exists q1, q2. split; [exact E1|]. split; [exact E2|].
  split; [lia|]. split.
  { apply (adjust_pixel_monotone b (Z.to_nat (p2 - p1)) Hb p1 q1 q2);
      try lia; try assumption.
    replace (p1 + Z.of_nat (Z.to_nat (p2 - p1)))%Z with p2 by lia. exact E2. }
  split; [lia|].
  pose proof (adjust_check_true b p1 Hb ltac:(lia)) as T.
  unfold adjust_check in T. rewrite E1 in T.
  apply andb_prop in T. destruct T as [T Tle].
  apply andb_prop in T. destruct T as [T Tge].
  split; [|split].
  - intros Hge. rewrite Hge in Tge. now apply Z.leb_le.
  - intros Hle. rewrite Hle in Tle. now apply Z.leb_le.
  - assert (H1 : In 1.0%float reachable_brightness_level)
      by (vm_compute; in_list).
    destruct (adjust_pixel_byte 1.0 p1 H1 ltac:(lia)) as [q [E B]].
    pose proof (adjust_check_true 1.0 p1 H1 ltac:(lia)) as T1.
    unfold adjust_check in T1. rewrite E in T1.
    apply andb_prop in T1. destruct T1 as [T1 T1le].
    apply andb_prop in T1. destruct T1 as [_ T1ge].
    change (1.0 <=? 1.0)%float with true in *.
    apply Z.leb_le in T1le, T1ge. rewrite E. f_equal. lia.
Qed.

Lemma brightness_step_on_bytes_witness :
  exists q1 q2,
    RealtimeAscii.adjust_pixel 2.0 100 = Ok q1
    /\ RealtimeAscii.adjust_pixel 2.0 200 = Ok q2
    /\ (0 <= q1)%Z /\ (q1 <= q2)%Z /\ (q2 <= 255)%Z.
Proof.
  destruct (brightness_step_on_bytes 2.0 100 200) as [q1 [q2 H]];
    try lia; [vm_compute; in_list|].
  exists q1, q2. repeat split; apply H.
Defined.

(** ** Slices, ranges and joins *)

Lemma range_step_bound (n step k : nat) :
  (k < (n + step - 1) / step)%nat -> (0 < step)%nat -> (k * step < n)%nat.
Proof.
  intros Hk Hs.
  pose proof (Nat.Div0.mul_div_le (n + step - 1) step) as D. nia.
Qed.

Lemma range_step_pos (n step : nat) :
  (0 < step)%nat ->
  range_step n step
  = Ok (map (fun k => k * step)%nat (seq 0 ((n + step - 1) / step))).
Proof. intros H. unfold range_step. destruct step; [lia|reflexivity]. Qed.

Lemma range_step_exact (h w : nat) :
  (0 < w)%nat ->
  range_step (h * w) w = Ok (map (fun k => k * w)%nat (seq 0 h)).
Proof.
  intros Hw. unfold range_step. destruct w as [|w']; [lia|].
  do 3 f_equal. symmetry. apply (Nat.div_unique _ _ _ w'); lia.
Qed.

Lemma firstn_plus {A : Type} (a n : nat) (l : list A) :
  firstn (a + n) l = firstn a l ++ firstn n (skipn a l).
Proof.
  revert l. induction a as [|a IH]; intros l; cbn.
  - reflexivity.
  - destruct l as [|x l]; cbn.
    + now rewrite firstn_nil.
    + now rewrite IH.
Qed.

Lemma skipn_plus {A : Type} (a b : nat) (l : list A) :
  skipn (a + b) l = skipn b (skipn a l).
Proof.
  revert l. induction a as [|a IH]; intros l; cbn.
  - reflexivity.
  - destruct l as [|x l]; cbn.
    + now rewrite skipn_nil.
    + apply IH.
Qed.

Lemma seq_from (a n : nat) : seq a n = map (Nat.add a) (seq 0 n).
Proof.
  revert a. induction n as [|n IH]; intros a; cbn [seq map].
  - reflexivity.
  - rewrite Nat.add_0_r. f_equal.
    rewrite (IH (S a)), <- seq_shift, map_map.
    apply map_ext. intros j. lia.
Qed.

Lemma map_seq_from {B : Type} (f : nat -> B) (a n : nat) :
  map f (seq a n) = map (fun j => f (a + j)%nat) (seq 0 n).
Proof. rewrite seq_from, map_map. reflexivity. Qed.

(** Cutting a string of [h * w] characters into pieces of [w]. *)
Lemma chunks_of_rows {A : Type} (w : nat) :
  (0 < w)%nat ->
  forall (h : nat) (l : list A),
    List.length l = (h * w)%nat ->
    let rows := map (fun idx => slice l idx (idx + w))
                    (map (fun k => k * w)%nat (seq 0 h)) in
    List.concat rows = l /\ List.length rows = h
    /\ Forall (fun r => List.length r = w) rows.
Proof.
  intros Hw h. induction h as [|h IH]; intros l Hl; cbn zeta.
  - destruct l; [|discriminate Hl]. cbn. repeat split. constructor.
  - rewrite <- cons_seq, <- seq_shift, !map_cons, !map_map.
    specialize (IH (skipn w l)). cbn zeta in IH.
    rewrite map_map in IH.
    assert (Hs : List.length (skipn w l) = (h * w)%nat)
      by (rewrite length_skipn; lia).
    destruct (IH Hs) as [C [L F]]. clear IH.
    assert (E : map (fun k => slice l (S k * w) (S k * w + w)) (seq 0 h)
                = map (fun k => slice (skipn w l) (k * w) (k * w + w)) (seq 0 h)).
    { apply map_ext. intros k. unfold slice.
      replace (S k * w)%nat with (w + k * w)%nat by lia.
      rewrite skipn_plus. f_equal. lia. }
    rewrite E. cbn [List.concat List.length]. unfold slice at 1. cbn [skipn].
    replace (0 * w + w - 0 * w)%nat with w by lia.
    rewrite C, L. split; [apply firstn_skipn|]. split; [reflexivity|].
    constructor; [|exact F].
    unfold slice. rewrite length_firstn, length_skipn. lia.
Qed.

Lemma join_no_sep {A : Type} (keep : A -> bool) (sep : A) (rows : list (list A)) :
  keep sep = false ->
  Forall (Forall (fun c => keep c = true)) rows ->
  filter keep (join [sep] rows) = List.concat rows.
Proof.
  intros Hsep. induction 1 as [|r rows Hr _ IH]; [reflexivity|].
  assert (Fr : filter keep r = r).
  { clear IH. induction Hr as [|c r Hc _ IHr]; cbn; [reflexivity|].
    now rewrite Hc, IHr. }
  destruct rows as [|r' rows'].
  - cbn. now rewrite app_nil_r.
  - change (join [sep] (r :: r' :: rows'))
      with (r ++ [sep] ++ join [sep] (r' :: rows')).
    rewrite !filter_app, Fr, IH. cbn [filter]. rewrite Hsep. reflexivity.
Qed.

Lemma join_length {A : Type} (sep : A) (w : nat) (rows : list (list A)) :
  Forall (fun r => List.length r = w) rows ->
  List.length (join [sep] rows) = (List.length rows * (w + 1) - 1)%nat.
Proof.
  induction 1 as [|r rows Hr _ IH]; [reflexivity|].
  destruct rows as [|r' rows'].
  - cbn. lia.
  - change (join [sep] (r :: r' :: rows'))
      with (r ++ [sep] ++ join [sep] (r' :: rows')).
    rewrite !length_app, IH. cbn [List.length]. lia.
Qed.

(** ** The text of realtime_ascii.py *)

Lemma theme_character_set (charset : list ascii) :
  charset = ASCIIVideoProcessor.character_set
  \/ charset = ASCIIVideoProcessor.dark_character_set ->
  List.length charset = 12%nat
  /\ Forall (fun c => negb (Ascii.eqb c newline) = true) charset.
Proof.
  intros [->| ->]; split; try reflexivity; repeat constructor.
Qed.

Lemma pixel_data_of_bytes (level : float) (charset : list ascii) (gray : list Z) :
  In level reachable_brightness_level ->
  List.length charset = 12%nat ->
  Forall is_byte gray ->
  exists brightness_array pixel_data,
    comprehension (RealtimeAscii.adjust_pixel level) gray = Ok brightness_array
    /\ comprehension (ASCIIVideoProcessor.pixel_char charset) brightness_array
       = Ok pixel_data
    /\ List.length pixel_data = List.length gray
    /\ Forall (fun c => In c charset) pixel_data.
Proof.
  intros Hl Hc Hb.
  destruct (comprehension_ok (RealtimeAscii.adjust_pixel level) gray) as [ba Eba].
  { apply Forall_impl with (2 := Hb). intros p Hp.
    destruct (adjust_pixel_byte level p Hl Hp) as [q [E _]]. now exists q. }
  assert (Bba : Forall is_byte ba).
  { apply (Forall2_Forall_r _ is_byte _ _ _
             (comprehension_Forall2 _ _ _ Eba) Hb).
    intros p q Hp E.
    destruct (adjust_pixel_byte level p Hl Hp) as [q' [E' B]].
    assert (q' = q) by congruence. subst. exact B. }
  destruct (comprehension_ok (ASCIIVideoProcessor.pixel_char charset) ba)
    as [pd Epd].
  { apply Forall_impl with (2 := Bba). intros p Hp.
    destruct (pixel_char_in_set charset p Hc Hp) as [c [E _]]. now exists c. }
  exists ba, pd. split; [exact Eba|]. split; [exact Epd|]. split.
  - rewrite (comprehension_length _ _ _ Epd).
    exact (comprehension_length _ _ _ Eba).
  - apply (Forall2_Forall_r _ is_byte _ _ _
             (comprehension_Forall2 _ _ _ Epd) Bba).
    intros p c Hp E.
    destruct (pixel_char_in_set charset p Hc Hp) as [c' [E' Hin]].
    assert (c' = c) by congruence. subst. exact Hin.
Qed.

(** X5: for a frame of [h] rows of [frame_width] bytes, [convert_to_ascii]
    raises nothing and returns [h] lines of [frame_width] glyphs joined by
    line feeds; the lines, put end to end, are the glyphs of the pixels in
    order, so taking the line feeds out of the text gives them back. *)
Theorem convert_to_ascii_rows (self : RealtimeAscii.Processor) (gray : list Z)
        (h : nat) :
  (0 < RealtimeAscii.frame_width self)%nat ->
  List.length gray = (h * RealtimeAscii.frame_width self)%nat ->
  Forall is_byte gray ->
  In (RealtimeAscii.brightness_level self) reachable_brightness_level ->
  (RealtimeAscii.character_set self = ASCIIVideoProcessor.character_set
   \/ RealtimeAscii.character_set self = ASCIIVideoProcessor.dark_character_set) ->
  exists brightness_array pixel_data rows,
    comprehension (RealtimeAscii.adjust_pixel (RealtimeAscii.brightness_level self))
                  gray = Ok brightness_array
    /\ comprehension (ASCIIVideoProcessor.pixel_char
                        (RealtimeAscii.character_set self)) brightness_array
       = Ok pixel_data
    /\ RealtimeAscii.convert_to_ascii self gray = Ok (join [newline] rows)
    /\ List.length rows = h
    /\ Forall (fun r => List.length r = RealtimeAscii.frame_width self) rows
    /\ List.concat rows = pixel_data
    /\ filter (fun c => negb (Ascii.eqb c newline)) (join [newline] rows)
       = pixel_data.
Proof.
  intros Hw Hlen Hb Hl Hc.
  destruct (theme_character_set _ Hc) as [H12 Hnl].
  destruct (pixel_data_of_bytes _ _ gray Hl H12 Hb) as [ba [pd [Eba [Epd [Lpd Ipd]]]]].
  rewrite Hlen in Lpd.
  destruct (chunks_of_rows (RealtimeAscii.frame_width self) Hw h pd Lpd)
    as [C [L F]].
  set (rows := map (fun idx => slice pd idx (idx + RealtimeAscii.frame_width self))
                   (map (fun k => (k * RealtimeAscii.frame_width self)%nat)
                        (seq 0 h))) in *.
  exists ba, pd, rows. split; [exact Eba|]. split; [exact Epd|].
  split; [|split; [exact L|split; [exact F|split; [exact C|]]]].
  - unfold RealtimeAscii.convert_to_ascii. rewrite Eba. cbn [bind].
    rewrite Epd. cbn [bind]. rewrite Lpd, (range_step_exact _ _ Hw).
    cbn [bind]. reflexivity.
  - rewrite <- C. apply join_no_sep; [reflexivity|].
    assert (Hpd : Forall (fun c => negb (Ascii.eqb c newline) = true) pd).
    { apply Forall_impl with (2 := Ipd). intros c Hin.
      rewrite Forall_forall in Hnl. exact (Hnl c Hin). }
    rewrite <- C in Hpd. clear - Hpd.
    induction rows as [|r rows IH]; constructor.
    + cbn in Hpd. apply Forall_app in Hpd. tauto.
    + apply IH. cbn in Hpd. apply Forall_app in Hpd. tauto.
Qed.

Lemma convert_to_ascii_rows_witness :
  exists rows,
    RealtimeAscii.convert_to_ascii (RealtimeAscii.new_processor 2 2)
                                   [0; 100; 200; 255]%Z
    = Ok (join [newline] rows)
    /\ List.length rows = 2%nat.
Proof.
  destruct (convert_to_ascii_rows (RealtimeAscii.new_processor 2 2)
              [0; 100; 200; 255]%Z 2)
    as [ba [pd [rows [_ [_ [E [L _]]]]]]].
  - cbn. lia.
  - reflexivity.
  - repeat constructor; unfold is_byte; lia.
  - vm_compute; in_list.
  - left. reflexivity.
  - exists rows. split; assumption.
Defined.

(** ** [render_ascii_image] *)

Lemma combine_app {A B : Type} (l1 l2 : list A) (r1 r2 : list B) :
  List.length l1 = List.length r1 ->
  combine (l1 ++ l2) (r1 ++ r2) = combine l1 r1 ++ combine l2 r2.
Proof.
  revert r1. induction l1 as [|a l1 IH]; intros [|b r1] H; cbn in *;
    try discriminate; [reflexivity|].
  f_equal. apply IH. lia.
Qed.

Lemma map_fst_combine {A B : Type} (l : list A) (r : list B) :
  List.length l = List.length r -> map fst (combine l r) = l.
Proof.
  revert r. induction l as [|a l IH]; intros [|b r] H; cbn in *;
    try discriminate; [reflexivity|].
  f_equal. apply IH. lia.
Qed.

Lemma map_snd_combine {A B : Type} (l : list A) (r : list B) :
  List.length l = List.length r -> map snd (combine l r) = r.
Proof.
  revert r. induction l as [|a l IH]; intros [|b r] H; cbn in *;
    try discriminate; [reflexivity|].
  f_equal. apply IH. lia.
Qed.

Lemma draw_line_combine (cs y : Z) (line : list ascii) :
  forall x0,
    RealtimeAscii.draw_line cs y x0 line
    = combine line (map (fun j => (x0 + Z.of_nat j * cs, y)%Z)
                        (seq 0 (List.length line))).
Proof.
  induction line as [|c line IH]; intros x0; cbn [RealtimeAscii.draw_line].
  - reflexivity.
  - cbn [List.length seq map combine]. f_equal.
    + f_equal. f_equal. lia.
    + rewrite IH, <- seq_shift, map_map. f_equal.
      apply map_ext. intros j. f_equal. lia.
Qed.

(** The calls made once the loop has drawn the first [L] characters. *)
Lemma drawn_prefix_extend (n : nat) (cs : Z) (s : list ascii) (k : nat) :
  (0 < n)%nat -> (k * n + n <= List.length s)%nat ->
  combine (firstn (k * n) s) (map (render_position n cs) (seq 0 (k * n)))
  ++ RealtimeAscii.draw_line cs ((Z.of_nat k + 1) * cs) 0
       (slice s (k * n) (k * n + n))
  = combine (firstn (k * n + n) s)
            (map (render_position n cs) (seq 0 (k * n + n))).
Proof.
  intros Hn Hlen.
  rewrite firstn_plus, seq_app, map_app, combine_app.
  2:{ rewrite length_firstn, length_map, length_seq. lia. }
  f_equal. rewrite draw_line_combine. unfold slice.
  replace (k * n + n - k * n)%nat with n by lia.
  f_equal.
  assert (Ln : List.length (firstn n (skipn (k * n) s)) = n)
    by (rewrite length_firstn, length_skipn; lia).
  rewrite Ln. cbn [Nat.add]. rewrite (map_seq_from _ (k * n) n).
  apply map_ext_in. intros j Hj. apply in_seq in Hj.
  unfold render_position.
  assert (Hd : ((k * n + j) / n = k)%nat)
    by (symmetry; apply (Nat.div_unique _ _ _ j); lia).
  assert (Hm : ((k * n + j) mod n = j)%nat)
    by (symmetry; apply (Nat.mod_unique _ _ k j); lia).
  rewrite Hd, Hm. f_equal; lia.
Qed.

Lemma render_fold (n : nat) (cs : Z) (s : list ascii) (K : nat) :
  (0 < n)%nat -> (K * n < List.length s)%nat ->
  fold_left (RealtimeAscii.render_iteration cs s)
            (map (fun k => k * n)%nat (seq 0 (S K)))
            (RealtimeAscii.mkRenderState 0 0 [])
  = RealtimeAscii.mkRenderState
      ((Z.of_nat K + 1) * cs) (K * n)
      (combine (firstn (K * n) s)
               (map (render_position n cs) (seq 0 (K * n)))).
Proof.
  intros Hn. induction K as [|K IH]; intros Hlen.
  - cbn. unfold RealtimeAscii.render_iteration, slice. cbn.
    f_equal. destruct cs; reflexivity.
  - rewrite seq_S, map_app, fold_left_app, IH by lia.
    cbn [map fold_left Nat.add].
    unfold RealtimeAscii.render_iteration.
    cbn [RealtimeAscii.y_position RealtimeAscii.string_index RealtimeAscii.calls].
    replace (S K * n)%nat with (K * n + n)%nat by lia.
    rewrite drawn_prefix_extend by lia.
    f_equal. lia.
Qed.

Lemma render_calls_closed_form (self : RealtimeAscii.Processor)
        (ascii_string : list ascii) :
  let n := (RealtimeAscii.frame_width self + 1)%nat in
  let drawn := ((List.length ascii_string - 1) / n * n)%nat in
  exists calls,
    RealtimeAscii.render_ascii_image self ascii_string = Ok calls
    /\ map fst calls = firstn drawn ascii_string
    /\ map snd calls
       = map (render_position n (RealtimeAscii.char_size self)) (seq 0 drawn).
Proof.
  intros n drawn. unfold RealtimeAscii.render_ascii_image.
  assert (Hn : (0 < n)%nat) by (unfold n; lia).
  fold n. rewrite (range_step_pos _ n Hn). cbn [bind].
  eexists. split; [reflexivity|].
  destruct (List.length ascii_string) as [|len'] eqn:El.
  - assert (Z0 : ((0 + n - 1) / n = 0)%nat) by (apply Nat.div_small; lia).
    rewrite Z0. cbn [seq map fold_left RealtimeAscii.calls].
    assert (Hd : drawn = 0%nat)
      by (unfold drawn; rewrite (Nat.div_small (0 - 1) n) by (cbn; lia);
          reflexivity).
    rewrite Hd. split; reflexivity.
  - assert (Hk : ((S len' + n - 1) / n = S (len' / n))%nat).
    { replace (S len' + n - 1)%nat with (len' + 1 * n)%nat by lia.
      rewrite Nat.div_add by lia. lia. }
    rewrite Hk.
    assert (Hd : drawn = (len' / n * n)%nat).
    { unfold drawn. rewrite ?El.
      replace (S len' - 1)%nat with len' by lia. reflexivity. }
    rewrite render_fold.
    + cbn [RealtimeAscii.calls]. rewrite Hd.
      assert (Lf : List.length (firstn (len' / n * n) ascii_string)
                   = (len' / n * n)%nat).
      { rewrite length_firstn, El.
        pose proof (Nat.Div0.mul_div_le len' n). lia. }
      split.
      * apply map_fst_combine. now rewrite Lf, length_map, length_seq.
      * apply map_snd_combine. now rewrite Lf, length_map, length_seq.
    + exact Hn.
    + rewrite El. pose proof (Nat.Div0.mul_div_le len' n). lia.
Qed.

(** X6: for any text, [render_ascii_image] draws the characters of the text
    in order, [frame_width + 1] per line, but only up to the start of the
    last line: call number [m] shows character [m] of the text at column
    [m mod (frame_width + 1)] of line [m / (frame_width + 1) + 1] (in units
    of [char_size]), and there are [(len - 1) / (frame_width + 1)] full
    lines of calls. The line at height 0 stays empty. *)
Theorem render_ascii_image_calls (self : RealtimeAscii.Processor)
        (ascii_string : list ascii) :
  let n := (RealtimeAscii.frame_width self + 1)%nat in
  let drawn := ((List.length ascii_string - 1) / n * n)%nat in
  exists calls,
    RealtimeAscii.render_ascii_image self ascii_string = Ok calls
    /\ map fst calls = firstn drawn ascii_string
    /\ map snd calls
       = map (render_position n (RealtimeAscii.char_size self)) (seq 0 drawn).
Proof. exact (render_calls_closed_form self ascii_string). Qed.


Lemma join_split_last {A : Type} (sep : A) (rows : list (list A)) :
  rows <> [] ->
  join [sep] rows
  = flat_map (fun r => r ++ [sep]) (removelast rows) ++ last rows [].
Proof.
  induction rows as [|r rows IH]; intros Hne; [contradiction|].
  destruct rows as [|r' rows'].
  - reflexivity.
  - change (join [sep] (r :: r' :: rows'))
      with (r ++ [sep] ++ join [sep] (r' :: rows')).
    rewrite IH by discriminate.
    change (removelast (r :: r' :: rows')) with (r :: removelast (r' :: rows')).
    change (last (r :: r' :: rows') []) with (last (r' :: rows') []).
    cbn [flat_map]. now rewrite <- !app_assoc.
Qed.

Lemma flat_map_rows_length {A : Type} (sep : A) (w : nat) (rows : list (list A)) :
  Forall (fun r => List.length r = w) rows ->
  List.length (flat_map (fun r => r ++ [sep]) rows)
  = (List.length rows * (w + 1))%nat.
Proof.
  induction 1 as [|r rows Hr _ IH]; [reflexivity|].
  cbn [flat_map List.length]. rewrite !length_app, IH. cbn. lia.
Qed.

Lemma removelast_Forall {A : Type} (P : A -> Prop) (l : list A) :
  Forall P l -> Forall P (removelast l).
Proof.
  induction 1 as [|a l Ha Hl IH]; [constructor|].
  destruct l as [|b l']; [constructor|].
  change (removelast (a :: b :: l')) with (a :: removelast (b :: l')).
  constructor; assumption.
Qed.

Lemma removelast_length {A : Type} (l : list A) :
  List.length (removelast l) = (List.length l - 1)%nat.
Proof.
  induction l as [|a l IH]; [reflexivity|].
  destruct l as [|b l']; [reflexivity|].
  change (removelast (a :: b :: l')) with (a :: removelast (b :: l')).
  cbn [List.length] in *. lia.
Qed.

(** X7: the text [convert_to_ascii] returns never shows its last line.
    For a text of lines of [frame_width] glyphs joined by line feeds,
    [render_ascii_image] draws every line but the last, each followed by
    the line feed it ends with, and nothing of the last line. *)
Theorem render_never_draws_last_line (self : RealtimeAscii.Processor)
        (rows : list (list ascii)) :
  (0 < RealtimeAscii.frame_width self)%nat ->
  rows <> [] ->
  Forall (fun r => List.length r = RealtimeAscii.frame_width self) rows ->
  exists calls,
    RealtimeAscii.render_ascii_image self (join [newline] rows) = Ok calls
    /\ map fst calls = flat_map (fun r => r ++ [newline]) (removelast rows)
    /\ List.length calls
       = ((List.length rows - 1) * (RealtimeAscii.frame_width self + 1))%nat.
Proof.
  intros Hw Hne Hrows.
  destruct (render_calls_closed_form self (join [newline] rows))
    as [calls [E [Hc _]]].
  cbv zeta in Hc.
  set (w := RealtimeAscii.frame_width self) in *.
  assert (Hh : (1 <= List.length rows)%nat)
    by (destruct rows; [contradiction|cbn; lia]).
  assert (Lp : List.length (flat_map (fun r => r ++ [newline]) (removelast rows))
               = ((List.length rows - 1) * (w + 1))%nat).
  { rewrite (flat_map_rows_length newline w).
    - now rewrite removelast_length.
    - now apply removelast_Forall. }
  assert (Hd : ((List.length (join [newline] rows) - 1) / (w + 1) * (w + 1)
                = (List.length rows - 1) * (w + 1))%nat).
  { rewrite (join_length newline w rows Hrows). f_equal.
    symmetry. apply (Nat.div_unique _ _ _ (w - 1)); nia. }
  rewrite Hd in Hc.
  assert (Hf : map fst calls
               = flat_map (fun r => r ++ [newline]) (removelast rows)).
  { rewrite Hc, (join_split_last newline rows Hne), <- Lp.
    rewrite firstn_app, Nat.sub_diag, firstn_all. cbn [firstn].
    now rewrite app_nil_r. }
  exists calls. split; [exact E|]. split; [exact Hf|].
  rewrite <- Lp, <- Hf. symmetry. apply length_map.
Qed.

Lemma render_never_draws_last_line_witness :
  exists calls,
    RealtimeAscii.render_ascii_image (RealtimeAscii.new_processor 2 2)
      (join [newline] [["a"; "b"]; ["c"; "d"]]%char) = Ok calls
    /\ map fst calls = ["a"; "b"; newline]%char.
Proof.
  destruct (render_never_draws_last_line (RealtimeAscii.new_processor 2 2)
              [["a"; "b"]; ["c"; "d"]]%char) as [calls [E [F _]]].
  - cbn. lia.
  - discriminate.
  - repeat constructor.
  - exists calls. split; assumption.
Defined.

(** ** The keys of realtime_ascii.py *)

Lemma new_processor_invariant (w h : nat) :
  main_invariant w h (RealtimeAscii.new_processor w h) None.
Proof.
  unfold main_invariant, RealtimeAscii.new_processor. cbn.
  repeat split; try lia.
  - vm_compute; in_list.
  - left. repeat split.
Qed.

Lemma int_min_15 (c : Z) : (2 <= c <= 15)%Z -> (2 <= int_min 15 (c + 1) <= 15)%Z.
Proof.
  intros H. unfold int_min. destruct (c + 1 <? 15)%Z eqn:E.
  - apply Z.ltb_lt in E. lia.
  - lia.
Qed.

Lemma int_max_2 (c : Z) : (2 <= c <= 15)%Z -> (2 <= int_max 2 (c - 1) <= 15)%Z.
Proof.
  intros H. unfold int_max. destruct (2 <? c - 1)%Z eqn:E.
  - apply Z.ltb_lt in E. lia.
  - lia.
Qed.

Lemma handle_keys_invariant (w h : nat) (pressed : RealtimeAscii.key -> bool)
      (p p' : RealtimeAscii.Processor)
      (vw vw' : option RealtimeAscii.VideoWriter) (c : RealtimeAscii.control) :
  RealtimeAscii.handle_keys pressed p vw = (p', vw', c) ->
  main_invariant w h p vw -> main_invariant w h p' vw'.
Proof.
  intros E [Hw [Hh [Hc [Hb [Ht Hr]]]]].
  unfold RealtimeAscii.handle_keys in E.
  repeat match type of E with
  | context [if ?b then _ else _] => destruct b eqn:?
  end; inversion E; subst; clear E;
    unfold main_invariant, recording_consistent, theme_consistent in *;
    cbn [RealtimeAscii.with_char_size RealtimeAscii.with_brightness_level
         RealtimeAscii.with_is_recording
         RealtimeAscii.frame_width RealtimeAscii.frame_height
         RealtimeAscii.char_size RealtimeAscii.brightness_level
         RealtimeAscii.dark_mode RealtimeAscii.character_set
         RealtimeAscii.background_color RealtimeAscii.text_color
         RealtimeAscii.is_recording];
    repeat match goal with
    | |- _ /\ _ => split
    end;
    try assumption; try reflexivity; try lia;
    try (apply int_min_15; assumption);
    try (apply int_max_2; assumption);
    try (apply reachable_brightness_level_press; assumption).
  - exact (reachable_brightness_level_press _ RealtimeKeys.KeyPlus Hb).
  - exact (reachable_brightness_level_press _ RealtimeKeys.KeyMinus Hb).
  - exact (reachable_brightness_level_press _ RealtimeKeys.KeyR Hb).
  - destruct Ht as [[Hd [Hs _]]|[Hd _]];
      match goal with
      | H : negb (RealtimeAscii.dark_mode p) = true |- _ => rewrite Hd in H
      end; [|discriminate].
    right. rewrite Hs. repeat split.
  - destruct Ht as [[Hd _]|[Hd [Hs _]]];
      match goal with
      | H : negb (RealtimeAscii.dark_mode p) = false |- _ => rewrite Hd in H
      end; [discriminate|].
    left. rewrite Hs. repeat split.
Qed.

Lemma iteration_invariant (w h : nat) (inp : RealtimeAscii.Input)
      (p p' : RealtimeAscii.Processor)
      (vw vw' : option RealtimeAscii.VideoWriter) (c : RealtimeAscii.control) :
  RealtimeAscii.iteration p vw inp = Ok (p', vw', c) ->
  main_invariant w h p vw -> main_invariant w h p' vw'.
Proof.
  unfold RealtimeAscii.iteration. intros E Hinv.
  destruct (RealtimeAscii.success inp).
  - destruct (RealtimeAscii.convert_to_ascii p _) as [text|e]; cbn [bind] in E;
      [|discriminate].
    destruct (RealtimeAscii.render_ascii_image p text) as [img|e];
      cbn [bind] in E; [|discriminate].
    destruct (RealtimeAscii.handle_keys _ p vw) as [[p1 vw1] c1] eqn:K.
    pose proof (handle_keys_invariant w h _ _ _ _ _ _ K Hinv) as Hinv1.
    destruct c1; inversion E; subst; exact Hinv1.
  - inversion E; subst. exact Hinv.
Qed.

Lemma main_loop_invariant (w h : nat) (inputs : list RealtimeAscii.Input) :
  forall (p p' : RealtimeAscii.Processor)
         (vw vw' : option RealtimeAscii.VideoWriter),
    RealtimeAscii.main_loop p vw inputs = Ok (p', vw') ->
    main_invariant w h p vw -> main_invariant w h p' vw'.
Proof.
  induction inputs as [|inp rest IH]; intros p p' vw vw' E Hinv;
    cbn [RealtimeAscii.main_loop] in E.
  - inversion E; subst. exact Hinv.
  - destruct (RealtimeAscii.iteration p vw inp) as [[[p1 vw1] c]|e] eqn:It;
      cbn [bind] in E; [|discriminate].
    pose proof (iteration_invariant w h _ _ _ _ _ _ It Hinv) as Hinv1.
    destruct c.
    + exact (IH _ _ _ _ E Hinv1).
    + inversion E; subst. exact Hinv1.
Qed.

(** X8: whatever keys are pressed in [main] of realtime_ascii.py, the
    character size stays within [2, 15], the brightness level within
    [0.3, 2.0], and the frame dimensions entered at the start are kept. *)
Theorem main_settings_stay_clamped (w h : nat) (inputs : list RealtimeAscii.Input)
        (p : RealtimeAscii.Processor) (vw : option RealtimeAscii.VideoWriter) :
  RealtimeAscii.main_loop (RealtimeAscii.new_processor w h) None inputs
  = Ok (p, vw) ->
  (2 <= RealtimeAscii.char_size p <= 15)%Z
  /\ in_range 0.3 2.0 (RealtimeAscii.brightness_level p) = true
  /\ RealtimeAscii.frame_width p = w
  /\ RealtimeAscii.frame_height p = h.
Proof.
  intros E.
  destruct (main_loop_invariant w h inputs _ _ _ _ E
              (new_processor_invariant w h)) as [Hw [Hh [Hc [Hb _]]]].
  split; [exact Hc|]. split; [|split; assumption].
  now apply reachable_brightness_level_in_range.
Qed.

(** Two turns with the theme key down bring a consistent processor back. *)
Lemma theme_toggle_twice (p : RealtimeAscii.Processor)
      (vw : option RealtimeAscii.VideoWriter) :
  theme_consistent p ->
  fst (RealtimeAscii.handle_keys (only RealtimeAscii.KeyT)
         (fst (fst (RealtimeAscii.handle_keys (only RealtimeAscii.KeyT) p vw)))
         vw)
  = (p, vw).
Proof.
  intros Ht. destruct p as [cs sz fs tc bg dm rec bl sh fw fh].
  unfold theme_consistent in Ht. cbn in Ht. cbn.
  destruct Ht as [[-> [-> [-> ->]]]|[-> [-> [-> ->]]]]; reflexivity.
Qed.

(** X9: in [main] of realtime_ascii.py the theme never gets out of step:
    after any keys, [dark_mode] is set exactly when the character set is
    the reversed one and the canvas is black with white text. Pressing the
    theme key on two turns restores the processor, and the writer is left
    alone. *)
Theorem main_theme_stays_consistent (w h : nat)
        (inputs : list RealtimeAscii.Input)
        (p : RealtimeAscii.Processor) (vw : option RealtimeAscii.VideoWriter) :
  RealtimeAscii.main_loop (RealtimeAscii.new_processor w h) None inputs
  = Ok (p, vw) ->
  theme_consistent p
  /\ fst (RealtimeAscii.handle_keys (only RealtimeAscii.KeyT)
            (fst (fst (RealtimeAscii.handle_keys (only RealtimeAscii.KeyT) p vw)))
            vw)
     = (p, vw).
Proof.
  intros E.
  destruct (main_loop_invariant w h inputs _ _ _ _ E
              (new_processor_invariant w h)) as [_ [_ [_ [_ [Ht _]]]]].
  split; [exact Ht|]. now apply theme_toggle_twice.
Qed.

(** X10: in [main] of realtime_ascii.py, [is_recording] is set exactly
    while a video writer is open, whatever keys were pressed. *)
Theorem recording_flag_matches_writer (w h : nat)
        (inputs : list RealtimeAscii.Input)
        (p : RealtimeAscii.Processor) (vw : option RealtimeAscii.VideoWriter) :
  RealtimeAscii.main_loop (RealtimeAscii.new_processor w h) None inputs
  = Ok (p, vw) ->
  (RealtimeAscii.is_recording p = true <-> vw <> None).
Proof.
  intros E.
  destruct (main_loop_invariant w h inputs _ _ _ _ E
              (new_processor_invariant w h)) as [_ [_ [_ [_ [_ Hr]]]]].
  unfold recording_consistent in Hr. rewrite Hr.
  destruct vw; split; congruence.
Qed.

Lemma iteration_ok (w h : nat) (inp : RealtimeAscii.Input)
      (p : RealtimeAscii.Processor) (vw : option RealtimeAscii.VideoWriter) :
  (0 < w)%nat -> main_invariant w h p vw ->
  Forall is_byte (RealtimeAscii.gray inp) ->
  exists r, RealtimeAscii.iteration p vw inp = Ok r.
Proof.
  intros Hpos [Hw [Hh [Hc [Hb [Ht Hr]]]]] Hbytes.
  unfold RealtimeAscii.iteration.
  destruct (RealtimeAscii.success inp); [|eexists; reflexivity].
  assert (H12 : List.length (RealtimeAscii.character_set p) = 12%nat).
  { destruct Ht as [[_ [-> _]]|[_ [-> _]]]; reflexivity. }
  destruct (pixel_data_of_bytes _ _ _ Hb H12 Hbytes) as [ba [pd [Eba [Epd _]]]].
  unfold RealtimeAscii.convert_to_ascii. rewrite Eba. cbn [bind].
  rewrite Epd. cbn [bind].
  rewrite range_step_pos by lia. cbn [bind].
  unfold RealtimeAscii.render_ascii_image.
  rewrite range_step_pos by lia. cbn [bind].
  destruct (RealtimeAscii.handle_keys _ p vw) as [[p1 vw1] [|]];
    eexists; reflexivity.
Qed.

(** X11: [main] of realtime_ascii.py raises nothing: for a positive frame
    width and any turns whose frames are made of bytes, whatever keys are
    down, every turn completes (no index out of range in the character set,
    no zero step in the row cutting). *)
Theorem main_never_raises (w h : nat) (inputs : list RealtimeAscii.Input) :
  (0 < w)%nat ->
  Forall (fun inp => Forall is_byte (RealtimeAscii.gray inp)) inputs ->
  exists st,
    RealtimeAscii.main_loop (RealtimeAscii.new_processor w h) None inputs = Ok st.
Proof.
  intros Hpos Hall.
  assert (G : forall p vw, main_invariant w h p vw ->
                exists st, RealtimeAscii.main_loop p vw inputs = Ok st).
  { induction Hall as [|inp rest Hinp _ IH]; intros p vw Hinv;
      cbn [RealtimeAscii.main_loop].
    - eexists; reflexivity.
    - destruct (iteration_ok w h inp p vw Hpos Hinv Hinp) as [[[p1 vw1] c] It].
      rewrite It. cbn [bind].
      destruct c; [|eexists; reflexivity].
      apply IH. exact (iteration_invariant w h _ _ _ _ _ _ It Hinv). }
  apply G, new_processor_invariant.
Qed.

Lemma main_settings_stay_clamped_witness :
  exists p vw,
    RealtimeAscii.main_loop (RealtimeAscii.new_processor 2 2) None sample_session
    = Ok (p, vw)
    /\ (2 <= RealtimeAscii.char_size p <= 15)%Z.
Proof.
  eexists. eexists. split.
  - vm_compute. reflexivity.
  - eapply (main_settings_stay_clamped 2 2 sample_session).
    vm_compute. reflexivity.
Defined.

Lemma main_theme_stays_consistent_witness :
  exists p vw,
    RealtimeAscii.main_loop (RealtimeAscii.new_processor 2 2) None sample_session
    = Ok (p, vw)
    /\ theme_consistent p.
Proof.
  eexists. eexists. split.
  - vm_compute. reflexivity.
  - eapply (main_theme_stays_consistent 2 2 sample_session).
    vm_compute. reflexivity.
Defined.

Lemma recording_flag_matches_writer_witness :
  exists p vw,
    RealtimeAscii.main_loop (RealtimeAscii.new_processor 2 2) None sample_session
    = Ok (p, vw)
    /\ (RealtimeAscii.is_recording p = true <-> vw <> None).
Proof.
  eexists. eexists. split.
  - vm_compute. reflexivity.
  - eapply (recording_flag_matches_writer 2 2 sample_session).
    vm_compute. reflexivity.
Defined.

Lemma main_never_raises_witness :
  exists st,
    RealtimeAscii.main_loop (RealtimeAscii.new_processor 2 2) None sample_session
    = Ok st.
Proof.
  apply main_never_raises.
  - lia.
  - repeat constructor; unfold is_byte; cbn; lia.
Defined.

(** With the frame width left at the 0 of [__init__], the first frame makes
    [convert_to_ascii] raise: [range] refuses a zero step. *)
Lemma zero_width_raises (inp : RealtimeAscii.Input) :
  RealtimeAscii.success inp = true ->
  Forall is_byte (RealtimeAscii.gray inp) ->
  RealtimeAscii.iteration (RealtimeAscii.new_processor 0 0) None inp
  = Raise ValueError.
Proof.
  intros Hs Hb. unfold RealtimeAscii.iteration. rewrite Hs.
  destruct (pixel_data_of_bytes 1.0 ASCIIVideoProcessor.character_set
              (RealtimeAscii.gray inp)) as [ba [pd [Eba [Epd _]]]];
    [vm_compute; in_list|reflexivity|exact Hb|].
  unfold RealtimeAscii.convert_to_ascii.
  cbn [RealtimeAscii.new_processor RealtimeAscii.brightness_level
       RealtimeAscii.character_set RealtimeAscii.frame_width].
  rewrite Eba. cbn [bind]. rewrite Epd. cbn [bind]. reflexivity.
Qed.

(** ** The rules of [detect_gestures] *)

(** dual_window_ascii.py on one hand, as a chain in which the last of its
    four tests comes first. *)
Lemma dual_window_classify_rules (landmarks : Hand) (f : FingerYs float) :
  read_landmarks y landmarks = Ok f ->
  DualWindowASCII.classify [landmarks]
  = Ok (if all_fingers_down f then Some DualWindowASCII.reset
        else if peace_fingers f then Some DualWindowASCII.toggle_hands
        else if thumb_extended_up f && other_fingers_down f
             then Some DualWindowASCII.brightness_up
             else None).
Proof.
  intros R. rewrite (dual_window_classify_single _ _ R).
  unfold DualWindowASCII.classify_hand. rewrite read_hand_of. cbn [bind].
  unfold all_fingers_down, peace_fingers, thumb_extended_up, other_fingers_down,
    fgt, flt.
  repeat match goal with
  | |- context [(?a <? ?b)%float] => destruct (a <? b)%float
  end; reflexivity.
Qed.

Lemma peace_excludes_fist (f : FingerYs float) :
  peace_fingers f = true -> all_fingers_down f = false.
Proof.
  unfold peace_fingers, all_fingers_down, fgt, flt. intros P.
  repeat (apply andb_prop in P; destruct P as [P ?]).
  rewrite (flt_asym _ _ P).
  now rewrite andb_false_r.
Qed.

Lemma thumbs_up_excludes_others (f : FingerYs float) :
  thumb_extended_up f && other_fingers_down f = true ->
  all_fingers_down f = false /\ peace_fingers f = false.
Proof.
  unfold thumb_extended_up, other_fingers_down, peace_fingers, all_fingers_down,
    fgt, flt. intros P.
  repeat match goal with
  | H : _ && _ = true |- _ => apply andb_prop in H; destruct H
  end.
  split.
  - match goal with
    | H : (thumb_tip_y f <? thumb_ip_y f)%float = true |- _ =>
        now rewrite (flt_asym _ _ H)
    end.
  - match goal with
    | H : (index_pip_y f <? index_tip_y f)%float = true |- _ =>
        now rewrite (flt_asym _ _ H)
    end.
Qed.

(** X12: the four tests of [detect_gestures] of dual_window_ascii.py decide
    the classification of a hand as follows: it is [reset] exactly when the
    fist test holds, [toggle_hands] exactly when the peace test holds,
    [brightness_up] exactly when the thumbs-up test holds, never
    [brightness_down], and nothing exactly when none of the three holds. *)
Theorem dual_window_decision_table (landmarks : Hand) (f : FingerYs float) :
  read_landmarks y landmarks = Ok f ->
  (DualWindowASCII.classify [landmarks] = Ok (Some DualWindowASCII.reset)
   <-> all_fingers_down f = true)
  /\ (DualWindowASCII.classify [landmarks] = Ok (Some DualWindowASCII.toggle_hands)
      <-> peace_fingers f = true)
  /\ (DualWindowASCII.classify [landmarks] = Ok (Some DualWindowASCII.brightness_up)
      <-> thumb_extended_up f && other_fingers_down f = true)
  /\ DualWindowASCII.classify [landmarks]
     <> Ok (Some DualWindowASCII.brightness_down)
  /\ (DualWindowASCII.classify [landmarks] = Ok None
      <-> all_fingers_down f = false /\ peace_fingers f = false
          /\ thumb_extended_up f && other_fingers_down f = false).
Proof.
  intros R. rewrite (dual_window_classify_rules _ _ R).
  pose proof (peace_excludes_fist f) as PF.
  pose proof (thumbs_up_excludes_others f) as TU.
  destruct (all_fingers_down f), (peace_fingers f),
    (thumb_extended_up f && other_fingers_down f);
    repeat split; intros; try congruence; try tauto;
    try (specialize (PF eq_refl); discriminate);
    try (destruct (TU eq_refl); discriminate);
    repeat match goal with
    | H : _ /\ _ |- _ => destruct H
    end; discriminate.
Qed.

Lemma dual_window_decision_table_witness :
  DualWindowASCII.classify [Sample.thumbs_up_hand]
  = Ok (Some DualWindowASCII.brightness_up)
  <-> thumb_extended_up (Sample.ys 0.3 0.4 0.5  0.6 0.5  0.6 0.5  0.6 0.5  0.6 0.5)
      && other_fingers_down (Sample.ys 0.3 0.4 0.5  0.6 0.5  0.6 0.5  0.6 0.5  0.6 0.5)
      = true.
Proof.
  exact (proj1 (proj2 (proj2 (dual_window_decision_table
                                Sample.thumbs_up_hand _ eq_refl)))).
Defined.

(** ** What the loop of dual_window_ascii.py never does *)

Lemma bright_side_up (b : float) :
  bright_side b -> bright_side (Py.min 2.0 (b + 0.2)).
Proof.
  intros [H R]. split; [now apply reachable_brightness_up|].
  revert R. each_member H; vm_compute; congruence.
Qed.

Lemma bright_side_one : bright_side 1.0.
Proof. split; [exact reachable_brightness_one|reflexivity]. Qed.

Lemma dual_window_step_events (st st' : DualWindowASCII.State)
      (f : DualWindowASCII.Frame) (evs : list (Event DualWindowASCII.gesture)) :
  DualWindowASCII.run_step st f = Ok (st', evs) ->
  Forall (fun e => ev_gesture e <> DualWindowASCII.brightness_down) evs
  /\ (bright_side (DualWindowASCII.brightness st) ->
      bright_side (DualWindowASCII.brightness st')).
Proof.
  intros E. destruct f as [current_time hands].
  unfold DualWindowASCII.run_step in E.
  destruct (Qgtb _ _); [|inversion E; subst; split; [constructor|tauto]].
  unfold DualWindowASCII.detect_gestures in E.
  destruct (DualWindowASCII.classify hands) as [c|x] eqn:C; cbn [bind] in E;
    [|discriminate E].
  destruct (DualWindowASCII.smooth _ c) as [buf [g|]] eqn:S;
    inversion E; subst; clear E; [|split; [constructor|tauto]].
  destruct (dual_window_smooth_Some _ _ _ _ S) as [Hc _]. subst c.
  assert (Hg : g <> DualWindowASCII.brightness_down).
  { intros ->. exact (dual_window_never_brightness_down hands C). }
  split.
  - constructor; [exact Hg|constructor].
  - intros B. destruct g; cbn; try exact B.
    + now apply bright_side_up.
    + contradiction.
    + exact bright_side_one.
Qed.

Lemma dual_window_run_events (frames : list DualWindowASCII.Frame) :
  forall st,
    Forall (fun e => ev_gesture e <> DualWindowASCII.brightness_down)
           (fst (DualWindowASCII.run st frames))
    /\ (bright_side (DualWindowASCII.brightness st) ->
        forall st', snd (DualWindowASCII.run st frames) = Ok st' ->
                    bright_side (DualWindowASCII.brightness st')).
Proof.
  unfold DualWindowASCII.run.
  induction frames as [|f rest IH]; intros st; cbn [Loop.run].
  - cbn [fst snd]. split; [constructor|]. intros B st' E.
    inversion E; subst. exact B.
  - destruct (DualWindowASCII.run_step st f) as [[st1 evs]|e] eqn:E.
    + destruct (dual_window_step_events _ _ _ _ E) as [F1 B1].
      destruct (IH st1) as [F2 B2].
      destruct (Loop.run DualWindowASCII.run_step st1 rest) as [evs' r].
      cbn [fst snd] in *. split.
      * apply Forall_app. split; assumption.
      * intros B st' Er. exact (B2 (B1 B) st' Er).
    + cbn [fst snd]. split; [constructor|]. intros _ st' Er. discriminate Er.
Qed.

(** X13: the loop of dual_window_ascii.py never fires a [brightness_down]
    event, whatever the frames, so its brightness never goes below the 1.0
    it starts with: after any run it lies in [1.0, 2.0]. *)
Theorem dual_window_never_dims (frames : list DualWindowASCII.Frame)
        (st : DualWindowASCII.State) :
  snd (DualWindowASCII.run DualWindowASCII.init frames) = Ok st ->
  Forall (fun e => ev_gesture e <> DualWindowASCII.brightness_down)
         (fst (DualWindowASCII.run DualWindowASCII.init frames))
  /\ in_range 1.0 2.0 (DualWindowASCII.brightness st) = true.
Proof.
  intros E.
  destruct (dual_window_run_events frames DualWindowASCII.init) as [F B].
  split; [exact F|]. exact (proj2 (B bright_side_one st E)).
Qed.

Lemma dual_window_never_dims_witness :
  exists st,
    snd (DualWindowASCII.run DualWindowASCII.init Sample.held_up) = Ok st
    /\ in_range 1.0 2.0 (DualWindowASCII.brightness st) = true.
Proof.
  eexists. split.
  - vm_compute. reflexivity.
  - eapply (dual_window_never_dims Sample.held_up). vm_compute. reflexivity.
Defined.

(** ** The smoothing buffers, continued *)

Lemma quick_test_buffer_bounded (st st' : QuickGestureTest.State)
      (f : QuickGestureTest.Frame) (evs : list (Event QuickGestureTest.gesture)) :
  (List.length (QuickGestureTest.gesture_buffer st)
   <= QuickGestureTest.buffer_size)%nat ->
  QuickGestureTest.run_step st f = Ok (st', evs) ->
  (List.length (QuickGestureTest.gesture_buffer st')
   <= QuickGestureTest.buffer_size)%nat.
Proof.
  intros Hlen E. destruct f as [current_time hands].
  unfold QuickGestureTest.run_step in E.
  destruct (QuickGestureTest.classify hands) as [c|x]; cbn [bind] in E;
    [|discriminate E].
  pose proof (append_bounded_length QuickGestureTest.buffer_size _ c Hlen) as B.
  unfold QuickGestureTest.smooth in E.
  set (b := append_bounded QuickGestureTest.buffer_size
              (QuickGestureTest.gesture_buffer st) c) in *.
  destruct (3 <=? List.length b)%nat;
    [destruct (forallb _ _); [destruct (hd None _) as [g|]|]|];
    cbn [QuickGestureTest.last_gesture_time] in E;
    try (destruct (Qgtb _ _));
    inversion E; subst; clear E; try exact B.
  destruct g; exact B.
Qed.

Lemma run_state_invariant {State Frame G : Type}
      (step : State -> Frame -> result (State * list (Event G)))
      (P : State -> Prop) :
  (forall st f st' evs, P st -> step st f = Ok (st', evs) -> P st') ->
  forall frames st st',
    P st -> snd (Loop.run step st frames) = Ok st' -> P st'.
Proof.
  intros Hstep. induction frames as [|f rest IH]; intros st st' Hst E;
    cbn [Loop.run] in E.
  - inversion E; subst. exact Hst.
  - destruct (step st f) as [[st1 evs]|e] eqn:S; [|discriminate E].
    specialize (IH st1 st' (Hstep _ _ _ _ Hst S)).
    destruct (Loop.run step st1 rest) as [evs' r]. cbn [snd] in *.
    exact (IH E).
Qed.

(** X14: the smoothing buffers never grow past their capacity: after any
    run from the initial state, the buffer of dual_window_ascii.py holds at
    most 3 entries and the buffer of quick_gesture_test.py at most 5. *)
Theorem gesture_buffers_stay_bounded :
  (forall (frames : list DualWindowASCII.Frame) (st : DualWindowASCII.State),
      snd (DualWindowASCII.run DualWindowASCII.init frames) = Ok st ->
      (List.length (DualWindowASCII.gesture_buffer st) <= 3)%nat)
  /\ (forall (frames : list QuickGestureTest.Frame) (st : QuickGestureTest.State),
      snd (QuickGestureTest.run QuickGestureTest.init frames) = Ok st ->
      (List.length (QuickGestureTest.gesture_buffer st) <= 5)%nat).
Proof.
  split; intros frames st E.
  - apply (run_state_invariant DualWindowASCII.run_step
             (fun s => (List.length (DualWindowASCII.gesture_buffer s) <= 3)%nat))
      with (frames := frames) (st := DualWindowASCII.init).
    + intros s f s' evs Hs S.
      exact (dual_window_buffer_bounded s s' f evs Hs S).
    + cbn. lia.
    + exact E.
  - apply (run_state_invariant QuickGestureTest.run_step
             (fun s => (List.length (QuickGestureTest.gesture_buffer s) <= 5)%nat))
      with (frames := frames) (st := QuickGestureTest.init).
    + intros s f s' evs Hs S.
      exact (quick_test_buffer_bounded s s' f evs Hs S).
    + cbn. lia.
    + exact E.
Qed.

Lemma gesture_buffers_stay_bounded_witness :
  exists st,
    snd (DualWindowASCII.run DualWindowASCII.init Sample.held_up) = Ok st
    /\ (List.length (DualWindowASCII.gesture_buffer st) <= 3)%nat.
Proof.
  eexists. split.
  - vm_compute. reflexivity.
  - eapply (proj1 gesture_buffers_stay_bounded Sample.held_up).
    vm_compute. reflexivity.
Defined.

(** ** Frames with several hands *)

Lemma dual_window_classify_hand_from (cur : option DualWindowASCII.gesture)
      (h : Hand) :
  DualWindowASCII.classify_hand cur h
  = (r <- DualWindowASCII.classify_hand None h ;;
     Ok (match r with Some g => Some g | None => cur end)).
Proof.
  unfold DualWindowASCII.classify_hand.
  destruct (read_landmarks y h) as [f|e]; cbn [bind]; [|reflexivity].
  cbv zeta.
  repeat match goal with
         | |- context [if ?b then _ else _] => destruct b
         end; reflexivity.
Qed.

Lemma dual_window_classify_from_app (hands : list Hand) (h : Hand) :
  forall cur,
    DualWindowASCII.classify_from cur (hands ++ [h])
    = (c <- DualWindowASCII.classify_from cur hands ;;
       DualWindowASCII.classify_hand c h).
Proof.
  induction hands as [|h0 rest IH]; intros cur;
    cbn [app DualWindowASCII.classify_from bind].
  - destruct (DualWindowASCII.classify_hand cur h); reflexivity.
  - destruct (DualWindowASCII.classify_hand cur h0) as [c|e]; cbn [bind];
      [apply IH|reflexivity].
Qed.

Lemma quick_test_classify_from_app (hands : list Hand) (h : Hand) :
  forall cur,
    QuickGestureTest.classify_from cur (hands ++ [h])
    = (c <- QuickGestureTest.classify_from cur hands ;;
       QuickGestureTest.detect_gesture h).
Proof.
  induction hands as [|h0 rest IH]; intros cur;
    cbn [app QuickGestureTest.classify_from bind].
  - destruct (QuickGestureTest.detect_gesture h); reflexivity.
  - destruct (QuickGestureTest.detect_gesture h0) as [c|e]; cbn [bind];
      [apply IH|reflexivity].
Qed.

(** X15: with several hands in a frame, dual_window_ascii.py keeps the
    gesture of the last hand that shows one (a hand without a gesture leaves
    the gesture of the hands before it), while quick_gesture_test.py takes
    the result of the last hand alone, gesture or not. *)
Theorem last_hand_decides :
  (forall (hands : list Hand) (h : Hand) (c : option DualWindowASCII.gesture),
      DualWindowASCII.classify hands = Ok c ->
      DualWindowASCII.classify (hands ++ [h])
      = (r <- DualWindowASCII.classify [h] ;;
         Ok (match r with Some g => Some g | None => c end)))
  /\ (forall (hands : list Hand) (h : Hand) (c : option QuickGestureTest.gesture),
      QuickGestureTest.classify hands = Ok c ->
      QuickGestureTest.classify (hands ++ [h])
      = QuickGestureTest.detect_gesture h).
Proof.
  split; intros hands h c E.
  - unfold DualWindowASCII.classify in *.
    rewrite dual_window_classify_from_app, E. cbn [bind].
    rewrite dual_window_classify_hand_from.
    cbn [DualWindowASCII.classify_from].
    destruct (DualWindowASCII.classify_hand None h); reflexivity.
  - unfold QuickGestureTest.classify in *.
    rewrite quick_test_classify_from_app, E. reflexivity.
Qed.

Lemma last_hand_decides_witness :
  DualWindowASCII.classify ([Sample.thumbs_up_hand] ++ [Sample.short_hand])
  = Raise IndexError
  /\ QuickGestureTest.classify ([Sample.thumbs_up_hand] ++ [Sample.thumbs_down_hand])
     = Ok (Some QuickGestureTest.thumbs_down).
Proof.
  split.
  - rewrite (proj1 last_hand_decides [Sample.thumbs_up_hand] Sample.short_hand
               (Some DualWindowASCII.brightness_up));
      vm_compute; reflexivity.
  - rewrite (proj2 last_hand_decides [Sample.thumbs_up_hand]
               Sample.thumbs_down_hand (Some QuickGestureTest.thumbs_up));
      vm_compute; reflexivity.
Defined.

(** ** simple_realtime_ascii.py: one cooldown test for all hands of a frame *)

Lemma StronglySorted_app {A : Type} (R : A -> A -> Prop) (l1 l2 : list A) :
  StronglySorted R l1 -> StronglySorted R l2 ->
  (forall a b, In a l1 -> In b l2 -> R a b) ->
  StronglySorted R (l1 ++ l2).
Proof.
  intros H1 H2 H. induction H1 as [|a l1 S1 IH F1]; cbn; [exact H2|].
  constructor.
  - apply IH. intros a' b Ha' Hb. apply H; [right; exact Ha'|exact Hb].
  - apply Forall_app. split; [exact F1|].
    apply Forall_forall. intros b Hb. apply H; [left; reflexivity|exact Hb].
Qed.

Lemma same_time_sorted {G : Type} (D t : Q) (evs : list (Event G)) :
  Forall (fun e => ev_time e = t) evs -> SameOrSpaced D evs.
Proof.
  unfold SameOrSpaced. induction 1 as [|e evs He F IH]; constructor.
  - exact IH.
  - apply Forall_impl with (2 := F). intros e' He'. left. congruence.
Qed.

Lemma Qgtb_refl_false (t D : Q) : 0 <= D -> Qgtb (t - t) D = false.
Proof.
  intros HD. unfold Qgtb. apply negb_false_iff, Qle_bool_iff. lra.
Qed.

(** The loop over the hands: every event carries the frame's time stamp,
    there is at most one per hand, and [last_gesture_time] is the frame's
    time stamp as soon as one fired. *)
Lemma simple_realtime_hands_loop (current_time : Q) (hands : list Hand) :
  forall (st st' : SimpleRealtimeASCII.State)
         (evs : list (Event SimpleRealtimeASCII.gesture)),
    SimpleRealtimeASCII.hands_loop current_time st hands = Ok (st', evs) ->
    Forall (fun e => ev_time e = current_time) evs
    /\ (List.length evs <= List.length hands)%nat
    /\ SimpleRealtimeASCII.show_hands st' = SimpleRealtimeASCII.show_hands st
    /\ SimpleRealtimeASCII.show_ascii st' = SimpleRealtimeASCII.show_ascii st
    /\ (In (SimpleRealtimeASCII.brightness st) reachable_brightness ->
        In (SimpleRealtimeASCII.brightness st') reachable_brightness)
    /\ ((evs = [] /\ st' = st)
        \/ (evs <> []
            /\ SimpleRealtimeASCII.last_gesture_time st' = current_time)).
Proof.
  induction hands as [|h rest IH]; intros st st' evs E;
    cbn [SimpleRealtimeASCII.hands_loop] in E.
  - inversion E; subst.
    split; [constructor|]. split; [cbn; lia|].
    split; [reflexivity|]. split; [reflexivity|].
    split; [tauto|]. left. split; reflexivity.
  - destruct (SimpleRealtimeASCII.detect_simple_gesture h) as [g|x];
      cbn [bind] in E; [|discriminate E].
    destruct g as [[|]|];
      match type of E with
      | (r <- SimpleRealtimeASCII.hands_loop _ ?s _ ;; _) = _ =>
          destruct (SimpleRealtimeASCII.hands_loop current_time s rest)
            as [[st2 evs2]|x] eqn:E2; cbn [bind] in E; [|discriminate E];
          inversion E; subst; clear E;
          destruct (IH _ _ _ E2) as (F & L & SH & SA & B & C)
      end; cbn [SimpleRealtimeASCII.show_hands SimpleRealtimeASCII.show_ascii
                SimpleRealtimeASCII.brightness
                SimpleRealtimeASCII.last_gesture_time] in *.
    + repeat split.
      * constructor; [reflexivity|exact F].
      * cbn. lia.
      * exact SH.
      * exact SA.
      * intros Hb. apply B. now apply reachable_brightness_up.
      * right. split; [discriminate|].
        destruct C as [[_ ->]|[_ C]]; [reflexivity|exact C].
    + repeat split.
      * constructor; [reflexivity|exact F].
      * cbn. lia.
      * exact SH.
      * exact SA.
      * intros Hb. apply B. now apply reachable_brightness_down.
      * right. split; [discriminate|].
        destruct C as [[_ ->]|[_ C]]; [reflexivity|exact C].
    + repeat split; try assumption. cbn. lia.
Qed.

Lemma simple_realtime_step (st st' : SimpleRealtimeASCII.State)
      (current_time : Q) (hands : list Hand)
      (pressed : option SimpleRealtimeASCII.key)
      (evs : list (Event SimpleRealtimeASCII.gesture)) :
  SimpleRealtimeASCII.run_step st (current_time, hands, pressed) = Ok (st', evs) ->
  Forall (fun e => ev_time e = current_time) evs
  /\ (List.length evs <= List.length hands)%nat
  /\ (In (SimpleRealtimeASCII.brightness st) reachable_brightness ->
      In (SimpleRealtimeASCII.brightness st') reachable_brightness)
  /\ ((evs = []
       /\ SimpleRealtimeASCII.last_gesture_time st'
          = SimpleRealtimeASCII.last_gesture_time st)
      \/ (evs <> []
          /\ SimpleRealtimeASCII.last_gesture_time st' = current_time
          /\ 5 # 10 < current_time - SimpleRealtimeASCII.last_gesture_time st)).
Proof.
  unfold SimpleRealtimeASCII.run_step. intros E.
  destruct (Qgtb _ _) eqn:Q.
  - destruct (SimpleRealtimeASCII.hands_loop current_time st hands)
      as [[st1 evs1]|x] eqn:E1; cbn [bind] in E; [|discriminate E].
    destruct (simple_realtime_hands_loop _ _ _ _ _ E1) as (F & L & _ & _ & B & C).
    apply Qgtb_true in Q.
    assert (T : SimpleRealtimeASCII.last_gesture_time st'
                = SimpleRealtimeASCII.last_gesture_time st1
              /\ SimpleRealtimeASCII.brightness st'
                 = SimpleRealtimeASCII.brightness st1 /\ evs = evs1).
    { destruct pressed as [[|]|]; inversion E; subst; cbn; auto. }
    destruct T as (T1 & T2 & ->). rewrite T1, T2.
    split; [exact F|]. split; [exact L|]. split; [exact B|].
    destruct C as [[-> ->]|[N C]].
    + left. split; reflexivity.
    + right. split; [exact N|]. split; [exact C|exact Q].
  - cbn [bind] in E.
    assert (T : SimpleRealtimeASCII.last_gesture_time st'
                = SimpleRealtimeASCII.last_gesture_time st
              /\ SimpleRealtimeASCII.brightness st'
                 = SimpleRealtimeASCII.brightness st /\ evs = []).
    { destruct pressed as [[|]|]; inversion E; subst; cbn; auto. }
    destruct T as (T1 & T2 & ->). rewrite T1, T2.
    split; [constructor|]. split; [cbn; lia|]. split; [tauto|].
    left. split; reflexivity.
Qed.

Lemma simple_realtime_run_sorted (frames : list SimpleRealtimeASCII.Frame) :
  forall st,
    SameOrSpaced (5 # 10) (fst (SimpleRealtimeASCII.run st frames))
    /\ Forall (fun e => 5 # 10 < ev_time e - SimpleRealtimeASCII.last_gesture_time st)
              (fst (SimpleRealtimeASCII.run st frames)).
Proof.
  unfold SimpleRealtimeASCII.run.
  induction frames as [|[[t hands] k] rest IH]; intros st; cbn [Loop.run].
  - cbn [fst]. split; constructor.
  - destruct (SimpleRealtimeASCII.run_step st (t, hands, k))
      as [[st1 evs]|x] eqn:E; [|cbn [fst]; split; constructor].
    destruct (simple_realtime_step _ _ _ _ _ _ E) as (F & _ & _ & C).
    destruct (IH st1) as [S1 F1].
    destruct (Loop.run SimpleRealtimeASCII.run_step st1 rest) as [evs' r].
    cbn [fst] in *.
    destruct C as [[-> C]|(N & C & Q)].
    + cbn [app]. rewrite C in F1. split; assumption.
    + rewrite C in F1. split.
      * apply StronglySorted_app.
        -- exact (same_time_sorted _ t _ F).
        -- exact S1.
        -- intros a b Ha Hb. right.
           rewrite Forall_forall in F, F1.
           rewrite (F a Ha). exact (F1 b Hb).
      * apply Forall_app. split.
        -- apply Forall_impl with (2 := F). intros e He. rewrite He. exact Q.
        -- apply Forall_impl with (2 := F1). intros e He. lra.
Qed.

Lemma simple_realtime_step_chain (st st' : SimpleRealtimeASCII.State)
      (f : SimpleRealtimeASCII.Frame)
      (evs : list (Event SimpleRealtimeASCII.gesture)) :
  (List.length (snd (fst f)) <= 1)%nat ->
  SimpleRealtimeASCII.run_step st f = Ok (st', evs) ->
  Chain (5 # 10) (SimpleRealtimeASCII.last_gesture_time st) (map ev_time evs)
        (SimpleRealtimeASCII.last_gesture_time st').
Proof.
  destruct f as [[t hands] k]. cbn [fst snd]. intros H1 E.
  destruct (simple_realtime_step _ _ _ _ _ _ E) as (F & L & _ & C).
  destruct C as [[-> ->]|(N & -> & Q)]; [constructor|].
  destruct evs as [|e [|e' evs]]; [contradiction N; reflexivity| |cbn in L; lia].
  apply Forall_inv in F. cbn [map]. rewrite F.
  apply Chain_single. exact Q.
Qed.

Section CooldownOn.
Context {State Frame G : Type}.
Variable step : State -> Frame -> result (State * list (Event G)).
Variable last : State -> Q.
Variable D : Q.
Variable P : Frame -> Prop.
Hypothesis D_nonneg : 0 <= D.
Hypothesis step_chain :
  forall st f st' evs,
    P f -> step st f = Ok (st', evs) ->
    Chain D (last st) (map ev_time evs) (last st').

Lemma run_spaced_on (frames : list Frame) :
  Forall P frames -> forall st, Spaced D (fst (Loop.run step st frames)).
Proof.
  intros HP.
  assert (C : forall st, exists b,
               Chain D (last st) (map ev_time (fst (Loop.run step st frames))) b).
  { induction HP as [|f rest Hf _ IH]; intros st; cbn [Loop.run].
    - exists (last st). constructor.
    - destruct (step st f) as [[st' evs]|e] eqn:E.
      + destruct (IH st') as [b Hb].
        destruct (Loop.run step st' rest) as [evs' r]. cbn [fst] in *.
        exists b. rewrite map_app.
        exact (Chain_app _ _ _ _ _ _ (step_chain _ _ _ _ Hf E) Hb).
      + exists (last st). constructor. }
  intros st. destruct (C st) as [b Hb].
  exact (Chain_Spaced D _ D_nonneg _ _ Hb).
Qed.

End CooldownOn.

(** X16: in simple_realtime_ascii.py any two brightness events of a run
    carry the same time stamp (they were fired for two hands of one frame)
    or are more than 0.5 s apart; when no frame holds more than one hand,
    any two events are more than 0.5 s apart. *)
Theorem simple_realtime_events_spacing
        (st : SimpleRealtimeASCII.State)
        (frames : list SimpleRealtimeASCII.Frame) :
  SameOrSpaced (5 # 10) (fst (SimpleRealtimeASCII.run st frames))
  /\ (Forall (fun f => (List.length (snd (fst f)) <= 1)%nat) frames ->
      Spaced (5 # 10) (fst (SimpleRealtimeASCII.run st frames))).
Proof.
  split.
  - exact (proj1 (simple_realtime_run_sorted frames st)).
  - intros H1.
    apply (run_spaced_on SimpleRealtimeASCII.run_step
             SimpleRealtimeASCII.last_gesture_time (5 # 10)
             (fun f => (List.length (snd (fst f)) <= 1)%nat)).
    + lra.
    + intros s f s' evs Hf E. exact (simple_realtime_step_chain s s' f evs Hf E).
    + exact H1.
Qed.

Lemma simple_realtime_events_spacing_witness :
  Spaced (5 # 10)
    (fst (SimpleRealtimeASCII.run SimpleRealtimeASCII.init
            [ (1700000000, [Sample.thumbs_up_hand], None);
              (1700000000.3, [Sample.thumbs_up_hand], Some SimpleRealtimeASCII.KeyA);
              (1700000000.6, [Sample.thumbs_down_hand], None) ])).
Proof.
  apply (proj2 (simple_realtime_events_spacing SimpleRealtimeASCII.init _)).
  repeat constructor.
Defined.

Lemma simple_realtime_all_hands (current_time : Q) (hands : list Hand)
      (gs : list SimpleRealtimeASCII.gesture) :
  Forall2 (fun h g => SimpleRealtimeASCII.detect_simple_gesture h = Ok (Some g))
          hands gs ->
  forall st, exists st',
    SimpleRealtimeASCII.hands_loop current_time st hands
    = Ok (st', map (mkEvent current_time) gs)
    /\ SimpleRealtimeASCII.show_hands st' = SimpleRealtimeASCII.show_hands st
    /\ SimpleRealtimeASCII.show_ascii st' = SimpleRealtimeASCII.show_ascii st.
Proof.
  induction 1 as [|h g hands gs Hg _ IH]; intros st;
    cbn [SimpleRealtimeASCII.hands_loop map].
  - exists st. auto.
  - rewrite Hg. cbn [bind].
    destruct g;
      match goal with
      | |- context [SimpleRealtimeASCII.hands_loop _ ?s _] =>
          destruct (IH s) as (st' & E & SH & SA)
      end; rewrite E; cbn [bind]; exists st'; auto.
Qed.

(** X17: the cooldown of simple_realtime_ascii.py is tested once per frame,
    before the loop over the hands: once it has passed, a frame in which
    every hand shows a gesture fires one event per hand, all with the
    frame's time stamp. *)
Theorem simple_realtime_fires_per_hand
        (st : SimpleRealtimeASCII.State) (current_time : Q)
        (hands : list Hand) (gs : list SimpleRealtimeASCII.gesture)
        (pressed : option SimpleRealtimeASCII.key) :
  5 # 10 < current_time - SimpleRealtimeASCII.last_gesture_time st ->
  Forall2 (fun h g => SimpleRealtimeASCII.detect_simple_gesture h = Ok (Some g))
          hands gs ->
  exists st',
    SimpleRealtimeASCII.run_step st (current_time, hands, pressed)
    = Ok (st', map (mkEvent current_time) gs).
Proof.
  intros Q F. unfold SimpleRealtimeASCII.run_step.
  rewrite (Qgtb_of_lt _ _ Q).
  destruct (simple_realtime_all_hands current_time hands gs F st) as (st' & E & _).
  rewrite E. cbn [bind]. eexists. reflexivity.
Qed.

Lemma simple_realtime_fires_per_hand_witness :
  exists st',
    SimpleRealtimeASCII.run_step SimpleRealtimeASCII.init
      (1700000000, [Sample.thumbs_up_hand; Sample.thumbs_down_hand], None)
    = Ok (st', [mkEvent 1700000000 SimpleRealtimeASCII.brightness_up;
                mkEvent 1700000000 SimpleRealtimeASCII.brightness_down]).
Proof.
  apply (simple_realtime_fires_per_hand SimpleRealtimeASCII.init 1700000000
           [Sample.thumbs_up_hand; Sample.thumbs_down_hand]
           [SimpleRealtimeASCII.brightness_up; SimpleRealtimeASCII.brightness_down]
           None).
  - vm_compute. reflexivity.
  - repeat constructor.
Defined.

(** ** The brightness of the other loops *)

Lemma gesture_only_hand_brightness (current_time : Q)
      (st st' : SimpleGestureControl.State) (landmarks : Hand)
      (evs : list (Event SimpleGestureControl.gesture)) :
  SimpleGestureControl.hand_step current_time st landmarks = Ok (st', evs) ->
  In (SimpleGestureControl.brightness st) reachable_brightness ->
  In (SimpleGestureControl.brightness st') reachable_brightness.
Proof.
  unfold SimpleGestureControl.hand_step. intros E Hb.
  destruct (Qgtb _ _); [|inversion E; subst; exact Hb].
  destruct (SimpleGestureControl.is_thumb_up landmarks) as [[|]|x];
    cbn [bind] in E; try discriminate E.
  - inversion E; subst. cbn. now apply reachable_brightness_up.
  - destruct (SimpleGestureControl.is_thumb_down landmarks) as [[|]|x];
      cbn [bind] in E; try discriminate E; inversion E; subst.
    + cbn. now apply reachable_brightness_down.
    + exact Hb.
Qed.

Lemma gesture_only_step_brightness (st st' : SimpleGestureControl.State)
      (f : SimpleGestureControl.Frame)
      (evs : list (Event SimpleGestureControl.gesture)) :
  In (SimpleGestureControl.brightness st) reachable_brightness ->
  SimpleGestureControl.run_step st f = Ok (st', evs) ->
  In (SimpleGestureControl.brightness st') reachable_brightness.
Proof.
  destruct f as [current_time hands]. unfold SimpleGestureControl.run_step.
  revert st st' evs.
  induction hands as [|h rest IH]; intros st st' evs Hb;
    cbn [SimpleGestureControl.hands_loop].
  - intros E; inversion E; subst. exact Hb.
  - destruct (SimpleGestureControl.hand_step current_time st h)
      as [[st1 evs1]|e] eqn:E1; cbn [bind]; [|discriminate].
    destruct (SimpleGestureControl.hands_loop current_time st1 rest)
      as [[st2 evs2]|e] eqn:E2; cbn [bind]; [|discriminate].
    intros E; inversion E; subst.
    exact (IH _ _ _ (gesture_only_hand_brightness _ _ _ _ _ E1 Hb) E2).
Qed.

Lemma simple_converter_press_reachable (st : SimpleConverterKeys.State)
      (k : SimpleConverterKeys.key) :
  In (SimpleConverterKeys.brightness st) reachable_brightness ->
  In (SimpleConverterKeys.brightness (SimpleConverterKeys.press st k))
     reachable_brightness.
Proof.
  intros Hb. destruct k; cbn.
  - now apply reachable_brightness_up.
  - now apply reachable_brightness_down.
  - exact reachable_brightness_one.
Qed.

(** X18: the brightness stays within [0.2, 2.0] in the remaining loops too:
    after any run of gesture_only.py and of simple_realtime_ascii.py,
    whatever the frames, hands and keys, and after any sequence of the
    brightness keys of simple_ascii_converter.py. *)
Theorem other_loops_keep_brightness_clamped :
  (forall (frames : list SimpleGestureControl.Frame)
          (st : SimpleGestureControl.State),
      snd (SimpleGestureControl.run SimpleGestureControl.init frames) = Ok st ->
      in_range 0.2 2.0 (SimpleGestureControl.brightness st) = true)
  /\ (forall (frames : list SimpleRealtimeASCII.Frame)
             (st : SimpleRealtimeASCII.State),
      snd (SimpleRealtimeASCII.run SimpleRealtimeASCII.init frames) = Ok st ->
      in_range 0.2 2.0 (SimpleRealtimeASCII.brightness st) = true)
  /\ (forall ks : list SimpleConverterKeys.key,
      in_range 0.2 2.0
        (SimpleConverterKeys.brightness
           (fold_left SimpleConverterKeys.press ks SimpleConverterKeys.init))
      = true).
Proof.
  split; [|split].
  - intros frames st E. apply reachable_brightness_in_range.
    apply (run_state_invariant SimpleGestureControl.run_step
             (fun s => In (SimpleGestureControl.brightness s) reachable_brightness))
      with (frames := frames) (st := SimpleGestureControl.init).
    + intros s f s' evs Hs S. exact (gesture_only_step_brightness s s' f evs Hs S).
    + exact reachable_brightness_one.
    + exact E.
  - intros frames st E. apply reachable_brightness_in_range.
    apply (run_state_invariant SimpleRealtimeASCII.run_step
             (fun s => In (SimpleRealtimeASCII.brightness s) reachable_brightness))
      with (frames := frames) (st := SimpleRealtimeASCII.init).
    + intros s [[t hands] k] s' evs Hs S.
      exact (proj1 (proj2 (proj2 (simple_realtime_step _ _ _ _ _ _ S))) Hs).
    + exact reachable_brightness_one.
    + exact E.
  - intros ks. apply reachable_brightness_in_range.
    apply (fold_left_invariant
             (fun st => In (SimpleConverterKeys.brightness st) reachable_brightness)).
    + exact simple_converter_press_reachable.
    + exact reachable_brightness_one.
Qed.

Lemma other_loops_keep_brightness_clamped_witness :
  exists st,
    snd (SimpleRealtimeASCII.run SimpleRealtimeASCII.init two_hands_down) = Ok st
    /\ in_range 0.2 2.0 (SimpleRealtimeASCII.brightness st) = true.
Proof.
  eexists. split.
  - vm_compute. reflexivity.
  - eapply (proj1 (proj2 other_loops_keep_brightness_clamped) two_hands_down).
    vm_compute. reflexivity.
Defined.

(** ** debug_hand_detection.py: the counters and the final statistics *)

Lemma count_frames_counts (frames : list HandDetectionDebug.Frame) :
  forall c c',
    HandDetectionDebug.count_frames c frames = Ok c' ->
    HandDetectionDebug.frame_count c'
    = (HandDetectionDebug.frame_count c + Z.of_nat (List.length frames))%Z
    /\ HandDetectionDebug.detection_count c'
       = (HandDetectionDebug.detection_count c
          + Z.of_nat (List.length (filter hands_detected frames)))%Z.
Proof.
  induction frames as [|f rest IH]; intros c c' E;
    cbn [HandDetectionDebug.count_frames] in E.
  - inversion E; subst. cbn. lia.
  - destruct (HandDetectionDebug.count_frame c f) as [c1|x] eqn:E1;
      cbn [bind] in E; [|discriminate E].
    destruct (IH _ _ E) as [F D]. rewrite F, D. clear IH E F D.
    unfold HandDetectionDebug.count_frame in E1.
    cbn [filter].
    assert (Hd : hands_detected f
                 = match HandDetectionDebug.multi_hand_landmarks f with
                   | [] => false
                   | _ => true
                   end) by reflexivity.
    rewrite Hd. clear Hd.
    destruct (HandDetectionDebug.multi_hand_landmarks f) as [|h hs].
    + inversion E1; subst. cbn [HandDetectionDebug.frame_count
                                 HandDetectionDebug.detection_count List.length].
      lia.
    + destruct (comprehension _ _) as [ps|x]; cbn [bind] in E1;
        [|discriminate E1].
      inversion E1; subst. cbn [HandDetectionDebug.frame_count
                                 HandDetectionDebug.detection_count List.length].
      lia.
Qed.

Lemma filter_length_le {A : Type} (f : A -> bool) (l : list A) :
  (List.length (filter f l) <= List.length l)%nat.
Proof.
  induction l as [|a l IH]; cbn; [lia|]. destruct (f a); cbn; lia.
Qed.

(** X19: when [run] of debug_hand_detection.py prints its final statistics,
    the frame count is the number of frames read, the detection count is
    the number of those frames in which a hand was found (a frame with
    several hands counts once), and so 0 <= detections <= frames with at
    least one frame read. *)
Theorem hand_detection_final_stats (is_opened : bool)
        (frames : list HandDetectionDebug.Frame)
        (c : HandDetectionDebug.Counts) :
  HandDetectionDebug.run is_opened frames = HandDetectionDebug.Printed c ->
  HandDetectionDebug.frame_count c = Z.of_nat (List.length frames)
  /\ HandDetectionDebug.detection_count c
     = Z.of_nat (List.length (filter hands_detected frames))
  /\ (0 <= HandDetectionDebug.detection_count c
      <= HandDetectionDebug.frame_count c)%Z
  /\ (1 <= HandDetectionDebug.frame_count c)%Z.
Proof.
  unfold HandDetectionDebug.run. intros E.
  destruct is_opened; cbn [negb] in E; [|discriminate E].
  destruct (HandDetectionDebug.count_frames _ frames) as [c'|x] eqn:C;
    [|discriminate E].
  destruct (HandDetectionDebug.frame_count c' =? 0)%Z eqn:Z0; [discriminate E|].
  inversion E; subst. apply Z.eqb_neq in Z0.
  destruct (count_frames_counts _ _ _ C) as [F D].
  cbn [HandDetectionDebug.frame_count HandDetectionDebug.detection_count] in F, D.
  pose proof (filter_length_le hands_detected frames).
  repeat split; lia.
Qed.

Lemma hand_detection_final_stats_witness :
  HandDetectionDebug.run true detection_frames
  = HandDetectionDebug.Printed (HandDetectionDebug.mkCounts 3 2)
  /\ HandDetectionDebug.detection_count (HandDetectionDebug.mkCounts 3 2)
     = Z.of_nat (List.length (filter hands_detected detection_frames)).
Proof.
  split.
  - vm_compute. reflexivity.
  - apply (hand_detection_final_stats true detection_frames
             (HandDetectionDebug.mkCounts 3 2)).
    vm_compute. reflexivity.
Defined.

(** X20: [run] of debug_hand_detection.py ends in the [ZeroDivisionError]
    of its last line exactly when the camera opened and the loop read no
    frame at all (the first [cap.read()] failed): the rate shown inside the
    loop is guarded, the final one is not. When the camera did not open,
    [run] returns before the loop and raises nothing, whatever follows. *)
Theorem hand_detection_zero_division (is_opened : bool)
        (frames : list HandDetectionDebug.Frame) :
  (HandDetectionDebug.run is_opened frames = HandDetectionDebug.ZeroDivisionError
   <-> is_opened = true /\ frames = [])
  /\ (HandDetectionDebug.run is_opened frames = HandDetectionDebug.CameraNotFound
      <-> is_opened = false).
Proof.
  unfold HandDetectionDebug.run.
  destruct is_opened; cbn [negb].
  - split.
    + split.
      * intros E.
        destruct (HandDetectionDebug.count_frames _ frames) as [c'|x] eqn:C;
          [|discriminate E].
        destruct (HandDetectionDebug.frame_count c' =? 0)%Z eqn:Z0;
          [|discriminate E].
        apply Z.eqb_eq in Z0.
        destruct (count_frames_counts _ _ _ C) as [F _].
        cbn [HandDetectionDebug.frame_count] in F.
        split; [reflexivity|].
        destruct frames; [reflexivity|cbn [List.length] in F; lia].
      * intros [_ ->]. reflexivity.
    + split; [|discriminate].
      destruct (HandDetectionDebug.count_frames _ frames) as [c'|x];
        [destruct (_ =? _)%Z|]; discriminate.
  - split.
    + split; [discriminate|]. intros [E _]. discriminate E.
    + split; reflexivity.
Qed.

(** ** The classifiers read the [y] coordinates only *)

Lemma getitem_map {A B : Type} (f : A -> B) (l : list A) (i : Z) :
  getitem (map f l) i = (a <- getitem l i ;; Ok (f a)).
Proof.
  unfold getitem. rewrite length_map.
  destruct (_ <? 0)%Z; [reflexivity|].
  rewrite nth_error_map.
  destruct (nth_error l _); reflexivity.
Qed.

Lemma read_landmarks_map {A L T : Type} (f : A -> L) (coord : L -> T)
      (landmarks : list A) :
  read_landmarks coord (map f landmarks)
  = read_landmarks (fun a => coord (f a)) landmarks.
Proof.
  unfold read_landmarks. rewrite !getitem_map.
  repeat match goal with
         | |- context [getitem landmarks ?i] =>
             destruct (getitem landmarks i); cbn [bind]; [|reflexivity]
         end.
  reflexivity.
Qed.

Lemma read_landmarks_mirror (landmarks : Hand) :
  read_landmarks y (map mirror landmarks) = read_landmarks y landmarks.
Proof. rewrite read_landmarks_map. reflexivity. Qed.

Lemma dual_window_classify_from_mirror (hands : list Hand) :
  forall cur,
    DualWindowASCII.classify_from cur (map (map mirror) hands)
    = DualWindowASCII.classify_from cur hands.
Proof.
  induction hands as [|h rest IH]; intros cur;
    cbn [map DualWindowASCII.classify_from]; [reflexivity|].
  unfold DualWindowASCII.classify_hand.
  rewrite read_landmarks_mirror.
  destruct (read_landmarks y h) as [f|e]; cbn [bind]; [apply IH|reflexivity].
Qed.

Lemma quick_test_detect_mirror (landmarks : Hand) :
  QuickGestureTest.detect_gesture (map mirror landmarks)
  = QuickGestureTest.detect_gesture landmarks.
Proof.
  destruct landmarks as [|l rest]; [reflexivity|].
  unfold QuickGestureTest.detect_gesture.
  rewrite read_landmarks_mirror. reflexivity.
Qed.

Lemma quick_test_classify_from_mirror (hands : list Hand) :
  forall cur,
    QuickGestureTest.classify_from cur (map (map mirror) hands)
    = QuickGestureTest.classify_from cur hands.
Proof.
  induction hands as [|h rest IH]; intros cur;
    cbn [map QuickGestureTest.classify_from]; [reflexivity|].
  rewrite quick_test_detect_mirror.
  destruct (QuickGestureTest.detect_gesture h) as [c|e]; cbn [bind];
    [apply IH|reflexivity].
Qed.

(** X21: the gesture of a hand does not depend on the [x] coordinates, so
    a hand and its mirror image (the scripts flip the camera frame before
    the detection) give the same result in every classifier: the frame
    classifiers of dual_window_ascii.py and quick_gesture_test.py, the two
    tests of gesture_only.py and [detect_simple_gesture] of
    simple_realtime_ascii.py; exceptions included. *)
Theorem gestures_ignore_mirroring (hands : list Hand) (landmarks : Hand) :
  DualWindowASCII.classify (map (map mirror) hands)
  = DualWindowASCII.classify hands
  /\ QuickGestureTest.classify (map (map mirror) hands)
     = QuickGestureTest.classify hands
  /\ SimpleGestureControl.is_thumb_up (map mirror landmarks)
     = SimpleGestureControl.is_thumb_up landmarks
  /\ SimpleGestureControl.is_thumb_down (map mirror landmarks)
     = SimpleGestureControl.is_thumb_down landmarks
  /\ SimpleRealtimeASCII.detect_simple_gesture (map mirror landmarks)
     = SimpleRealtimeASCII.detect_simple_gesture landmarks.
Proof.
  split; [apply dual_window_classify_from_mirror|].
  split; [apply quick_test_classify_from_mirror|].
  split; [|split].
  - unfold SimpleGestureControl.is_thumb_up. rewrite !getitem_map.
    repeat match goal with
           | |- context [getitem landmarks ?i] =>
               destruct (getitem landmarks i); cbn [bind]; [|reflexivity]
           end.
    reflexivity.
  - unfold SimpleGestureControl.is_thumb_down. rewrite !getitem_map.
    repeat match goal with
           | |- context [getitem landmarks ?i] =>
               destruct (getitem landmarks i); cbn [bind]; [|reflexivity]
           end.
    reflexivity.
  - destruct landmarks as [|l rest]; [reflexivity|].
    unfold SimpleRealtimeASCII.detect_simple_gesture.
    change (map mirror (l :: rest)) with (mirror l :: map mirror rest).
    cbv iota.
    change (mirror l :: map mirror rest) with (map mirror (l :: rest)).
    rewrite !getitem_map.
    repeat match goal with
           | |- context [getitem (l :: rest) ?i] =>
               destruct (getitem (l :: rest) i); cbn [bind]; [|reflexivity]
           end.
    reflexivity.
Qed.

(** ** realtime_ascii.py: the frame dimensions *)








(** ** debug_gestures.py: the labels *)

(** X23: the label debug_gestures.py shows for a hand of 21 pixel
    positions, in terms of the pixel rows: THUMBS UP and THUMBS DOWN need
    the thumb tip strictly above (below) both thumb joints and no finger tip
    above its PIP joint; PEACE SIGN needs index and middle tip above their
    PIP joints and ring and pinky not; FIST is what the thumb-down rule
    leaves of the hands with no finger up: the thumb tip not above the IP
    joint and not below both joints. A tie between a tip and its joint
    counts as a finger that is down. The label is never the one for a
    missing hand. *)
Theorem debugger_decision_table (landmarks : GestureDebugger.PixelHand)
        (f : FingerYs Z) :
  read_landmarks snd landmarks = Ok f ->
  let curled :=
    (index_pip_y f <= index_tip_y f /\ middle_pip_y f <= middle_tip_y f
     /\ ring_pip_y f <= ring_tip_y f /\ pinky_pip_y f <= pinky_tip_y f)%Z in
  (GestureDebugger.classify landmarks = Ok GestureDebugger.THUMBS_UP
   <-> (thumb_tip_y f < thumb_ip_y f /\ thumb_tip_y f < thumb_mcp_y f)%Z
       /\ curled)
  /\ (GestureDebugger.classify landmarks = Ok GestureDebugger.THUMBS_DOWN
      <-> (thumb_ip_y f < thumb_tip_y f /\ thumb_mcp_y f < thumb_tip_y f)%Z
          /\ curled)
  /\ (GestureDebugger.classify landmarks = Ok GestureDebugger.PEACE_SIGN
      <-> (index_tip_y f < index_pip_y f /\ middle_tip_y f < middle_pip_y f
           /\ ring_pip_y f <= ring_tip_y f /\ pinky_pip_y f <= pinky_tip_y f)%Z)
  /\ (GestureDebugger.classify landmarks = Ok GestureDebugger.FIST
      <-> (thumb_ip_y f <= thumb_tip_y f
           /\ thumb_tip_y f <= Z.max (thumb_ip_y f) (thumb_mcp_y f))%Z
          /\ curled)
  /\ GestureDebugger.classify landmarks <> Ok GestureDebugger.NoHandDetected.
Proof.
  intros R curled. subst curled.
  unfold GestureDebugger.classify, GestureDebugger.analyze_hand.
  rewrite R. cbn [bind]. unfold GestureDebugger.detect_gesture.
  cbn [GestureDebugger.thumb_up GestureDebugger.thumb_above_mcp
       GestureDebugger.thumb_down GestureDebugger.thumb_below_mcp
       GestureDebugger.index_up GestureDebugger.middle_up
       GestureDebugger.ring_up GestureDebugger.pinky_up].
  rewrite !Z.gtb_ltb.
  destruct (Z.ltb_spec (thumb_tip_y f) (thumb_ip_y f));
    destruct (Z.ltb_spec (thumb_tip_y f) (thumb_mcp_y f));
    destruct (Z.ltb_spec (thumb_ip_y f) (thumb_tip_y f));
    destruct (Z.ltb_spec (thumb_mcp_y f) (thumb_tip_y f));
    try lia;
    destruct (Z.ltb_spec (index_tip_y f) (index_pip_y f));
    destruct (Z.ltb_spec (middle_tip_y f) (middle_pip_y f));
    destruct (Z.ltb_spec (ring_tip_y f) (ring_pip_y f));
    destruct (Z.ltb_spec (pinky_tip_y f) (pinky_pip_y f));
    cbn [andb negb];
    repeat split; try discriminate; try lia; intros; try discriminate;
    try reflexivity; try lia.
Qed.

Lemma debugger_decision_table_witness :
  GestureDebugger.classify Sample.pixel_thumbs_down
  <> Ok GestureDebugger.NoHandDetected.
Proof.
  eapply (debugger_decision_table Sample.pixel_thumbs_down).
  vm_compute. reflexivity.
Defined.

(** ** The events of a run account for its settings *)

Lemma dual_window_apply_settings (s1 s2 : DualWindowASCII.State)
      (g : DualWindowASCII.gesture) :
  dual_window_settings s1 = dual_window_settings s2 ->
  dual_window_settings (DualWindowASCII.apply_gesture s1 g)
  = dual_window_settings (DualWindowASCII.apply_gesture s2 g).
Proof.
  unfold dual_window_settings. intros E. inversion E as [[B C S]].
  destruct g; cbn; rewrite ?B, ?C, ?S; reflexivity.
Qed.

Lemma dual_window_fold_settings (gs : list DualWindowASCII.gesture) :
  forall s1 s2,
    dual_window_settings s1 = dual_window_settings s2 ->
    dual_window_settings (fold_left DualWindowASCII.apply_gesture gs s1)
    = dual_window_settings (fold_left DualWindowASCII.apply_gesture gs s2).
Proof.
  induction gs as [|g gs IH]; intros s1 s2 E; cbn [fold_left]; [exact E|].
  apply IH, dual_window_apply_settings, E.
Qed.

Lemma dual_window_step_settings (st st' : DualWindowASCII.State)
      (f : DualWindowASCII.Frame) (evs : list (Event DualWindowASCII.gesture)) :
  DualWindowASCII.run_step st f = Ok (st', evs) ->
  dual_window_settings st'
  = dual_window_settings
      (fold_left DualWindowASCII.apply_gesture (map ev_gesture evs) st).
Proof.
  intros E. destruct f as [current_time hands].
  unfold DualWindowASCII.run_step in E.
  destruct (Qgtb _ _); [|inversion E; subst; reflexivity].
  destruct (DualWindowASCII.detect_gestures _ hands) as [[buf [g|]]|x];
    cbn [bind] in E; inversion E; subst; clear E; [|reflexivity].
  cbn [map ev_gesture fold_left].
  apply dual_window_apply_settings. reflexivity.
Qed.

Lemma quick_test_fold_brightness (gs : list QuickGestureTest.gesture) :
  forall s1 s2,
    QuickGestureTest.brightness s1 = QuickGestureTest.brightness s2 ->
    QuickGestureTest.brightness (fold_left QuickGestureTest.apply_gesture gs s1)
    = QuickGestureTest.brightness (fold_left QuickGestureTest.apply_gesture gs s2).
Proof.
  induction gs as [|g gs IH]; intros s1 s2 E; cbn [fold_left]; [exact E|].
  apply IH. destruct g; cbn; rewrite E; reflexivity.
Qed.

Lemma quick_test_step_brightness (st st' : QuickGestureTest.State)
      (f : QuickGestureTest.Frame) (evs : list (Event QuickGestureTest.gesture)) :
  QuickGestureTest.run_step st f = Ok (st', evs) ->
  QuickGestureTest.brightness st'
  = QuickGestureTest.brightness
      (fold_left QuickGestureTest.apply_gesture (map ev_gesture evs) st).
Proof.
  intros E. destruct f as [current_time hands].
  unfold QuickGestureTest.run_step in E.
  destruct (QuickGestureTest.classify hands) as [c|x]; cbn [bind] in E;
    [|discriminate E].
  destruct (QuickGestureTest.smooth _ c) as [buf [g|]];
    cbn [QuickGestureTest.last_gesture_time] in E;
    try (destruct (Qgtb _ _));
    inversion E; subst; clear E; try reflexivity.
  cbn [map ev_gesture fold_left]. destruct g; reflexivity.
Qed.

(** X24: the gesture events of a run account for all of its effect on the
    settings: after a run of dual_window_ascii.py the brightness, the
    contrast and the landmark switch are what applying the gestures of the
    fired events, in order, to the settings at the start gives, and
    likewise the brightness of quick_gesture_test.py. Frames that fire no
    event change no setting. *)
Theorem events_account_for_settings :
  (forall (frames : list DualWindowASCII.Frame) (st st' : DualWindowASCII.State),
      snd (DualWindowASCII.run st frames) = Ok st' ->
      dual_window_settings st'
      = dual_window_settings
          (fold_left DualWindowASCII.apply_gesture
             (map ev_gesture (fst (DualWindowASCII.run st frames))) st))
  /\ (forall (frames : list QuickGestureTest.Frame)
             (st st' : QuickGestureTest.State),
      snd (QuickGestureTest.run st frames) = Ok st' ->
      QuickGestureTest.brightness st'
      = QuickGestureTest.brightness
          (fold_left QuickGestureTest.apply_gesture
             (map ev_gesture (fst (QuickGestureTest.run st frames))) st)).
Proof.
  split.
  - unfold DualWindowASCII.run.
    induction frames as [|f rest IH]; intros st st' E; cbn [Loop.run] in *.
    + cbn in E. inversion E; subst. reflexivity.
    + destruct (DualWindowASCII.run_step st f) as [[st1 evs]|x] eqn:S;
        [|discriminate E].
      specialize (IH st1 st').
      destruct (Loop.run DualWindowASCII.run_step st1 rest) as [evs' r].
      cbn [fst snd] in *. rewrite (IH E), map_app, fold_left_app.
      apply dual_window_fold_settings.
      exact (dual_window_step_settings _ _ _ _ S).
  - unfold QuickGestureTest.run.
    induction frames as [|f rest IH]; intros st st' E; cbn [Loop.run] in *.
    + cbn in E. inversion E; subst. reflexivity.
    + destruct (QuickGestureTest.run_step st f) as [[st1 evs]|x] eqn:S;
        [|discriminate E].
      specialize (IH st1 st').
      destruct (Loop.run QuickGestureTest.run_step st1 rest) as [evs' r].
      cbn [fst snd] in *. rewrite (IH E), map_app, fold_left_app.
      apply quick_test_fold_brightness.
      exact (quick_test_step_brightness _ _ _ _ S).
Qed.

Lemma events_account_for_settings_witness :
  exists st',
    snd (DualWindowASCII.run DualWindowASCII.init Sample.held_up) = Ok st'
    /\ dual_window_settings st'
       = dual_window_settings
           (fold_left DualWindowASCII.apply_gesture
              (map ev_gesture
                 (fst (DualWindowASCII.run DualWindowASCII.init Sample.held_up)))
              DualWindowASCII.init).
Proof.
  eexists. split.
  - vm_compute. reflexivity.
  - eapply (proj1 events_account_for_settings Sample.held_up DualWindowASCII.init).
    vm_compute. reflexivity.
Defined.

(** ** Nothing validates the landmarks *)









